(** * cotrial-ragv2: a shallow embedding of the retrieval pipeline

    The development embeds the pure parts of the Python sources
    (string handling, SQL text generation, chunking, answer
    normalisation, schema migration, request validation and result
    combination) as executable Rocq functions and proves the properties
    the specification states about them.

    Conventions.
    - A Python [str] is a [string] of ASCII characters: [upper],
      [lower] and the white-space class are Python's on code points
      below 128.  Python also maps letters outside ASCII (the dotless
      i to I, the dotted capital I to two code points), so a statement
      that depends on how the case of a text is mapped says that the
      text is ASCII, [isascii].
    - A Python [int] is a [Z].
    - A Python [float] is an IEEE-754 binary64 value, a [spec_float]
      operated on with precision 53 and exponent bound 1024.
    - A call that raises is a value [Raise e] of the type [result]. *)

From Stdlib Require Import ZArith Lia Bool List String Ascii DecimalString.
From Stdlib Require Import SpecFloat Sorted.
Import ListNotations.

Local Open Scope string_scope.
Local Open Scope Z_scope.

#[local] Set Warnings "-register-all".

(** ** Exceptions and results *)

Inductive exn : Type :=
| NameError (name : string)
| TypeError (msg : string)
| RuntimeError (msg : string)
| ValidationError (field : string).

Inductive result (A : Type) : Type :=
| Ok (a : A)
| Raise (e : exn).

Arguments Ok {A} a.
Arguments Raise {A} e.

Definition bind {A B : Type} (r : result A) (k : A -> result B) : result B :=
  match r with
  | Ok a => k a
  | Raise e => Raise e
  end.

(** [l.append(x)]. *)
Definition append {A : Type} (l : list A) (x : A) : list A := (l ++ [x])%list.

Notation "x <- r ;; k" := (bind r (fun x => k))
  (at level 61, r at next level, right associativity).

(** ** Python string operations *)

Module PyStr.

(** [str.isspace] on one character; also the class [\s] of [re]. *)
Definition is_space (c : ascii) : bool :=
  let n := N_of_ascii c in
  (((9 <=? n) && (n <=? 13)) || ((28 <=? n) && (n <=? 32)))%N.

Definition is_upper (c : ascii) : bool :=
  let n := N_of_ascii c in ((65 <=? n) && (n <=? 90))%N.

Definition is_lower (c : ascii) : bool :=
  let n := N_of_ascii c in ((97 <=? n) && (n <=? 122))%N.

Definition is_digit (c : ascii) : bool :=
  let n := N_of_ascii c in ((48 <=? n) && (n <=? 57))%N.

(** The class [\w] of [re]. *)
Definition is_word (c : ascii) : bool :=
  is_upper c || is_lower c || is_digit c || Ascii.eqb c "_".

Definition upper_char (c : ascii) : ascii :=
  if is_lower c then ascii_of_N (N_of_ascii c - 32) else c.

Definition lower_char (c : ascii) : ascii :=
  if is_upper c then ascii_of_N (N_of_ascii c + 32) else c.

Fixpoint map_chars (f : ascii -> ascii) (s : string) : string :=
  match s with
  | EmptyString => EmptyString
  | String c t => String (f c) (map_chars f t)
  end.

(** [s.upper()] and [s.lower()] for an ASCII [s]. *)
Definition upper : string -> string := map_chars upper_char.
Definition lower : string -> string := map_chars lower_char.

(** [s.isascii()]. *)
Fixpoint isascii (s : string) : bool :=
  match s with
  | EmptyString => true
  | String c t => (N_of_ascii c <? 128)%N && isascii t
  end.

(** [len(s)]. *)
Definition len (s : string) : Z := Z.of_nat (String.length s).

(** [s.startswith(p)]. *)
Fixpoint startswith (p s : string) : bool :=
  match p, s with
  | EmptyString, _ => true
  | String a p', String b s' => Ascii.eqb a b && startswith p' s'
  | String _ _, EmptyString => false
  end.

(** [needle in hay]. *)
Fixpoint contains (needle hay : string) : bool :=
  startswith needle hay
  || match hay with
     | EmptyString => false
     | String _ t => contains needle t
     end.

Fixpoint rev_acc (s acc : string) : string :=
  match s with
  | EmptyString => acc
  | String c t => rev_acc t (String c acc)
  end.

Definition rev (s : string) : string := rev_acc s EmptyString.

(** [s.endswith(p)]. *)
Definition endswith (p s : string) : bool := startswith (rev p) (rev s).

(** [s.lstrip()], [s.rstrip()] and [s.strip()]. *)
Fixpoint lstrip (s : string) : string :=
  match s with
  | EmptyString => EmptyString
  | String c t => if is_space c then lstrip t else s
  end.

Fixpoint rstrip_by (drop : ascii -> bool) (s : string) : string :=
  match s with
  | EmptyString => EmptyString
  | String c t =>
      match rstrip_by drop t with
      | EmptyString => if drop c then EmptyString else String c EmptyString
      | t' => String c t'
      end
  end.

Definition rstrip : string -> string := rstrip_by is_space.
Definition strip (s : string) : string := rstrip (lstrip s).

(** [s.rstrip(';')]. *)
Definition rstrip_semicolon : string -> string :=
  rstrip_by (fun c => Ascii.eqb c ";").

(** [s.replace(a, b)] for one-character [a] and [b]. *)
Definition replace_char (a b : ascii) : string -> string :=
  map_chars (fun c => if Ascii.eqb c a then b else c).

(** [sep.join(parts)]. *)
Definition join (sep : string) (parts : list string) : string :=
  String.concat sep parts.

(** [str(n)] for an [int]. *)
Definition str_of_int (n : Z) : string := NilZero.string_of_int (Z.to_int n).

(** [s.split()]: the maximal runs of non-blank characters. *)
Fixpoint split_ws_aux (s cur : string) : list string :=
  match s with
  | EmptyString =>
      match cur with EmptyString => [] | _ => [rev cur] end
  | String c t =>
      if is_space c
      then match cur with
           | EmptyString => split_ws_aux t EmptyString
           | _ => rev cur :: split_ws_aux t EmptyString
           end
      else split_ws_aux t (String c cur)
  end.

Definition split_ws (s : string) : list string := split_ws_aux s EmptyString.

(** [s[-n:]] for [n > 0]: the last [n] characters, all of [s] when it is
    shorter. *)
Definition suffix_from_end (n : Z) (s : string) : string :=
  let k := String.length s in
  let m := Z.to_nat n in
  String.substring (k - m) m s.

(** Truthiness of a string. *)
Definition nonempty (s : string) : bool :=
  match s with EmptyString => false | _ => true end.

End PyStr.

(** ** [src/utils/mysql_client.py] *)

Module MySQLClient.
Import PyStr.

(** The statement [execute_query_with_limit] hands to [execute_query],
    for an ASCII [query]. *)
Definition limited_statement (query : string) (limit : Z) : string :=
  let query_upper := strip (upper query) in
  if negb (contains "LIMIT" query_upper)
  then rstrip_semicolon query ++ " LIMIT " ++ str_of_int limit
  else query.

Section Execute.
(** [execute_query] runs a statement on the database server; the rows
    it returns are outside the program. *)
Variables (Params Rows : Type).
Variable execute_query : string -> Params -> Rows.

Definition execute_query_with_limit
    (query : string) (limit : Z) (params : Params) : Rows :=
  execute_query (limited_statement query limit) params.
End Execute.

End MySQLClient.

(** ** [src/utils/sql_generator.py] *)

Module SQLGenerator.
Import PyStr.

(** *** Dictionaries

    A [dict] literal keeps the position of the first occurrence of a
    key and the value of its last occurrence. *)
Definition dict := list (string * string).

Fixpoint dict_set (d : dict) (k v : string) : dict :=
  match d with
  | [] => [(k, v)]
  | (k', v') :: d' =>
      if String.eqb k' k then (k', v) :: d' else (k', v') :: dict_set d' k v
  end.

Definition dict_of_items (items : list (string * string)) : dict :=
  fold_left (fun d kv => dict_set d (fst kv) (snd kv)) items [].

Fixpoint dict_get (d : dict) (k : string) : option string :=
  match d with
  | [] => None
  | (k', v) :: d' => if String.eqb k' k then Some v else dict_get d' k
  end.

Definition TABLE_MAPPINGS : dict := dict_of_items
  [ ("patient", "subjinfo"); ("patients", "subjinfo");
    ("subject", "subjinfo"); ("subjects", "subjinfo");
    ("demographic", "subjinfo"); ("demographics", "subjinfo");
    ("baseline", "subjinfo");
    ("event", "events"); ("events", "events"); ("adverse", "events");
    ("adverse_event", "events"); ("adverse_events", "events");
    ("ae", "events"); ("safety", "events");
    ("lesion", "lesions"); ("lesions", "lesions"); ("tumor", "lesions");
    ("tumors", "lesions"); ("response", "lesions");
    ("visit", "visit"); ("visits", "visit"); ("schedule", "visit");
    ("vital", "vitals"); ("vitals", "vitals"); ("vital_sign", "vitals");
    ("vital_signs", "vitals");
    ("medication", "cmtpy"); ("medications", "cmtpy");
    ("concomitant", "cmtpy"); ("cm", "cmtpy");
    ("treatment", "sdytrt"); ("treatments", "sdytrt"); ("dose", "sdytrt");
    ("dosing", "sdytrt"); ("study_treatment", "sdytrt");
    ("time_to_event", "ttevent"); ("survival", "ttevent");
    ("progression", "ttevent"); ("tte", "ttevent");
    ("disposition", "disposit"); ("completion", "disposit");
    ("status", "disposit");
    ("bor", "bor"); ("best_response", "bor"); ("response", "bor");
    ("diagnosis", "diag"); ("diagnostic", "diag");
    ("exposure", "exsum"); ("exposure_summary", "exsum");
    ("history", "history"); ("medical_history", "history");
    ("prior", "history");
    ("progressive_disease", "pdsumm"); ("pd", "pdsumm") ].

Definition COLUMN_MAPPINGS : dict := dict_of_items
  [ ("age", "ageyr"); ("age_years", "ageyr"); ("sex", "sex");
    ("gender", "sex"); ("race", "race"); ("ethnicity", "ethnic");
    ("country", "country");
    ("subject_id", "subjid"); ("subjectid", "subjid");
    ("patient_id", "subjid"); ("usubjid", "usubjid");
    ("unique_subject_id", "usubjid");
    ("treatment", "trt"); ("treatment_arm", "trt"); ("arm", "trt");
    ("treatment_sort", "trtsort");
    ("visit", "visfwdid"); ("visit_id", "visfwdid");
    ("visit_number", "visfwdid"); ("visit_date", "visdt");
    ("visit_date_char", "visdtc");
    ("adverse_event", "aeterm"); ("event_term", "aeterm");
    ("event_start", "aestdt"); ("event_end", "aeendt");
    ("severity", "aesevvis"); ("serious", "saeasflg");
    ("lesion_id", "lsid"); ("lesion_name", "lsname");
    ("assessment_date", "lsasmdt");
    ("vital_test", "vstestcd"); ("vital_test_name", "vstest") ].

(** *** Module namespace

    The names the module binds at import time: its [import]
    statements, [logger] and the class.  A function body that reads a
    global looks it up here when the line runs. *)
Definition module_globals : list string :=
  [ "os"; "Path"; "Any"; "OpenAI"; "Config"; "get_logger"; "logger";
    "SQLGenerator" ].

Definition load_global (globals : list string) (name : string) : result unit :=
  if existsb (String.eqb name) globals then Ok tt else Raise (NameError name).

(** *** The two regular expressions of [_extract_conditions] *)

Fixpoint take_while (p : ascii -> bool) (s : string) : string * string :=
  match s with
  | EmptyString => (EmptyString, EmptyString)
  | String c t =>
      if p c
      then let '(a, b) := take_while p t in (String c a, b)
      else (EmptyString, s)
  end.

Fixpoint drop_prefix (p s : string) : option string :=
  match p, s with
  | EmptyString, _ => Some s
  | String a p', String b s' =>
      if Ascii.eqb a b then drop_prefix p' s' else None
  | String _ _, EmptyString => None
  end.

(** The alternation [(>|>=|<|<=|=)], tried in this order. *)
Definition operators : list string := [ ">"; ">="; "<"; "<="; "=" ].

(** [\s*(>|>=|<|<=|=)\s*(\d+)] anchored at the head of [s]: the operator,
    the digits and the number of characters consumed. *)
Fixpoint tail_with (ops : list string) (s : string)
    : option (string * string * nat) :=
  match ops with
  | [] => None
  | op :: ops' =>
      match drop_prefix op s with
      | Some r =>
          let '(ws, r1) := take_while is_space r in
          let '(ds, _) := take_while is_digit r1 in
          match ds with
          | EmptyString => tail_with ops' s
          | _ => Some (op, ds,
                       (String.length op + String.length ws
                        + String.length ds)%nat)
          end
      | None => tail_with ops' s
      end
  end.

Definition comparison_tail (s : string) : option (string * string * nat) :=
  let '(ws, r) := take_while is_space s in
  match tail_with operators r with
  | Some (op, ds, n) => Some (op, ds, (String.length ws + n)%nat)
  | None => None
  end.

(** [re.search(r"age\s*(>|>=|<|<=|=)\s*(\d+)", s)]: groups 1 and 2 of
    the leftmost match. *)
Fixpoint search_age (s : string) : option (string * string) :=
  let here :=
    match drop_prefix "age" s with
    | Some r =>
        match comparison_tail r with
        | Some (op, ds, _) => Some (op, ds)
        | None => None
        end
    | None => None
    end in
  match here with
  | Some g => Some g
  | None =>
      match s with
      | EmptyString => None
      | String _ t => search_age t
      end
  end.

(** [(\w+)\s*(>|>=|<|<=|=)\s*(\d+)] anchored at the head of [s]. *)
Definition numeric_at (s : string) : option (string * string * string * nat) :=
  let '(w, r) := take_while is_word s in
  match w with
  | EmptyString => None
  | _ =>
      match comparison_tail r with
      | Some (op, ds, n) => Some (w, op, ds, (String.length w + n)%nat)
      | None => None
      end
  end.

(** [re.finditer] for that pattern: the groups of the successive
    non-overlapping matches; [skip] counts the characters of the last
    match still to be passed. *)
Fixpoint finditer_numeric (s : string) (skip : nat)
    : list (string * string * string) :=
  match skip with
  | S k =>
      match s with
      | EmptyString => []
      | String _ t => finditer_numeric t k
      end
  | O =>
      match s with
      | EmptyString => []
      | String _ t =>
          match numeric_at s with
          | Some (w, op, ds, n) => (w, op, ds) :: finditer_numeric t (n - 1)
          | None => finditer_numeric t 0
          end
      end
  end.

(** *** The heuristic path *)

Fixpoint _extract_table_from (mappings : dict) (query : string) : string :=
  match mappings with
  | [] => "events"
  | (keyword, table) :: rest =>
      if contains keyword query then table
      else _extract_table_from rest query
  end.

Definition _extract_table (query : string) : string :=
  _extract_table_from TABLE_MAPPINGS query.

Definition append_new (conditions : list string) (c : string) : list string :=
  if existsb (String.eqb c) conditions then conditions else append conditions c.

Definition _extract_conditions (globals : list string) (query : string)
    : result (list string) :=
  let conditions : list string := [] in
  _ <- load_global globals "re" ;;
  let conditions :=
    match search_age query with
    | Some (op, value) =>
        append conditions ("ageyr " ++ op ++ " " ++ value)
    | None => conditions
    end in
  let conditions :=
    if contains "male" query && negb (contains "female" query)
    then append conditions "sex = 1"
    else if contains "female" query then append conditions "sex = 2"
    else conditions in
  let conditions :=
    if contains "treatment" query || contains "arm" query
    then if contains "arm a" query || contains "arm 1" query
         then append conditions "trt = 'Arm A'"
         else if contains "arm b" query || contains "arm 2" query
              then append conditions "trt = 'Arm B'"
              else conditions
    else conditions in
  Ok (fold_left
        (fun conditions m =>
           let '(col, op, value) := m in
           match dict_get COLUMN_MAPPINGS col with
           | Some _ => append_new conditions (col ++ " " ++ op ++ " " ++ value)
           | None => conditions
           end)
        (finditer_numeric query 0) conditions).

(** The select item ["COUNT(" "*" ") as count"]. *)
Definition count_star : string := "COUNT(" ++ "*" ++ ") as count".

Definition _extract_columns (query : string) : list string :=
  let columns : list string := [] in
  let columns :=
    if contains "count" query || contains "how many" query
    then append columns count_star
    else if contains "age" query then append columns "ageyr"
    else columns in
  let columns :=
    if contains "sex" query || contains "gender" query
    then append columns "sex" else columns in
  if contains "treatment" query then append columns "trt" else columns.

Definition _generate_sql_simple (globals : list string)
    (query : string) (limit : Z) : result string :=
  let query_lower := lower query in
  let table := _extract_table query_lower in
  conditions <- _extract_conditions globals query_lower ;;
  let columns := _extract_columns query_lower in
  let select_clause :=
    match columns with [] => "*" | _ => join ", " columns end in
  let where_clause :=
    match conditions with [] => "1=1" | _ => join " AND " conditions end in
  Ok ("SELECT " ++ select_clause ++ " FROM " ++ table ++ " WHERE "
      ++ where_clause ++ " LIMIT " ++ str_of_int limit).

(** [generate_sql] when [use_llm] is off, which [__init__] forces when
    no API key is configured. *)
Definition generate_sql_without_llm : string -> Z -> result string :=
  _generate_sql_simple module_globals.

End SQLGenerator.

(** ** [src/indexers/common.py] *)

Module Chunking.
Import PyStr.

Definition newline : ascii := ascii_of_N 10.

(** The separator ["\n\n"]. *)
Definition blank_line : string := String newline (String newline EmptyString).

(** What follows the last newline of [run]; [None] when it has none. *)
Fixpoint after_last_newline (run : string) : option string :=
  match run with
  | EmptyString => None
  | String c t =>
      match after_last_newline t with
      | Some r => Some r
      | None => if Ascii.eqb c newline then Some t else None
      end
  end.

(** [re.split(r'\n\s*\n', text)].  A separator starts at a newline and,
    [\s*] being greedy, ends at the last newline of the blank run that
    follows it.  [cur] is the current piece, reversed; [skip] counts the
    characters of the separator still to be passed. *)
Fixpoint split_paragraphs_aux (s : string) (skip : nat) (cur : string)
    : list string :=
  match s with
  | EmptyString => [rev cur]
  | String c t =>
      match skip with
      | S k => split_paragraphs_aux t k cur
      | O =>
          if Ascii.eqb c newline
          then let run := fst (SQLGenerator.take_while is_space t) in
               match after_last_newline run with
               | Some rest =>
                   rev cur
                   :: split_paragraphs_aux t
                        (String.length run - String.length rest) EmptyString
               | None => split_paragraphs_aux t 0 (String c cur)
               end
          else split_paragraphs_aux t 0 (String c cur)
      end
  end.

Definition split_paragraphs (text : string) : list string :=
  split_paragraphs_aux text 0 EmptyString.

Definition is_sentence_end (c : ascii) : bool :=
  Ascii.eqb c "." || Ascii.eqb c "!" || Ascii.eqb c "?".

(** [re.split(r'(?<=[.!?])\s+', para)].  [in_sep] holds inside a
    separator, [after_end] when the previous character is one of [.!?]. *)
Fixpoint split_sentences_aux (s : string) (in_sep after_end : bool)
    (cur : string) : list string :=
  match s with
  | EmptyString => [rev cur]
  | String c t =>
      if is_space c
      then if in_sep then split_sentences_aux t true false cur
           else if after_end
                then rev cur :: split_sentences_aux t true false EmptyString
                else split_sentences_aux t false false (String c cur)
      else split_sentences_aux t false (is_sentence_end c) (String c cur)
  end.

Definition split_sentences (para : string) : list string :=
  split_sentences_aux para false false EmptyString.

(** The loop variables of [chunk_text]. *)
Record state : Type := mk_state {
  chunks : list string;
  current_chunk : list string;
  current_length : Z
}.

(** [if current_chunk: chunks.append(sep.join(current_chunk))]. *)
Definition flush (sep : string) (chunks current_chunk : list string)
    : list string :=
  match current_chunk with
  | [] => chunks
  | _ => append chunks (join sep current_chunk)
  end.

(** Starting a new chunk with [piece], after the tail of the previous
    chunk when an overlap is asked for (lines 77-85 and 89-96). *)
Definition start_chunk (overlap_chars : Z) (chunks : list string)
    (piece sep : string) : state :=
  match chunks with
  | _ :: _ =>
      if 0 <? overlap_chars
      then
        let prev_chunk := last chunks EmptyString in
        let overlap_text :=
          if overlap_chars <? len prev_chunk
          then suffix_from_end overlap_chars prev_chunk
          else prev_chunk in
        let current_chunk :=
          if nonempty overlap_text then [overlap_text; piece] else [piece] in
        mk_state chunks current_chunk (len (join sep current_chunk))
      else mk_state chunks [piece] (len piece)
  | [] => mk_state chunks [piece] (len piece)
  end.

(** One turn of the sentence loop (lines 61-85). *)
Definition sentence_step (max_chars overlap_chars : Z) (st : state)
    (sentence : string) : state :=
  let sentence := strip sentence in
  if negb (nonempty sentence) then st
  else
    let sent_length := len sentence in
    if current_length st + sent_length <=? max_chars
    then mk_state (chunks st) (append (current_chunk st) sentence)
                  (current_length st + sent_length + 1)
    else
      let chunks := flush " " (chunks st) (current_chunk st) in
      start_chunk overlap_chars chunks sentence " ".

(** One turn of the paragraph loop (lines 38-96). *)
Definition paragraph_step (max_chars overlap_chars : Z) (st : state)
    (para : string) : state :=
  let para := strip para in
  if negb (nonempty para) then st
  else
    let para_length := len para in
    if current_length st + para_length <=? max_chars
    then mk_state (chunks st) (append (current_chunk st) para)
                  (current_length st + para_length + 2)
    else
      let chunks := flush blank_line (chunks st) (current_chunk st) in
      if max_chars <? para_length
      then fold_left (sentence_step max_chars overlap_chars)
                     (split_sentences para) (mk_state chunks [] 0)
      else start_chunk overlap_chars chunks para blank_line.

Definition chunk_text (text : string) (max_tokens overlap : Z) : list string :=
  if negb (nonempty text) || negb (nonempty (strip text)) then []
  else
    let chars_per_token := 4 in
    let max_chars := max_tokens * chars_per_token in
    let overlap_chars := overlap * chars_per_token in
    let paragraphs := split_paragraphs text in
    let st := fold_left (paragraph_step max_chars overlap_chars)
                        paragraphs (mk_state [] [] 0) in
    let chunks := flush blank_line (chunks st) (current_chunk st) in
    filter (fun chunk => 50 <? len (strip chunk)) chunks.

End Chunking.

(** ** Python floats: IEEE-754 binary64 *)

Module PyFloat.

Definition prec : Z := 53.
Definition emax : Z := 1024.

Definition float : Type := spec_float.

Definition fadd : float -> float -> float := SFadd prec emax.
Definition fmul : float -> float -> float := SFmul prec emax.
Definition fdiv : float -> float -> float := SFdiv prec emax.

(** [x < y]. *)
Definition flt : float -> float -> bool := SFltb.

Definition is_nan (x : float) : bool :=
  match x with S754_nan => true | _ => false end.

(** The literals of the sources, each the binary64 value nearest to
    the decimal written in the program. *)
Definition f0_0 : float := S754_zero false.
Definition f1_0 : float := S754_finite false 4503599627370496 (-52).
Definition f0_1 : float := S754_finite false 7205759403792794 (-56).
Definition f0_2 : float := S754_finite false 7205759403792794 (-55).
Definition f0_3 : float := S754_finite false 5404319552844595 (-54).
Definition f0_5 : float := S754_finite false 4503599627370496 (-53).
Definition f0_7 : float := S754_finite false 6305039478318694 (-53).
Definition f0_8 : float := S754_finite false 7205759403792794 (-53).
Definition f1_2 : float := S754_finite false 5404319552844595 (-52).
Definition f1_3 : float := S754_finite false 5854679515581645 (-52).

(** [float(n)]. *)
Definition of_int (n : Z) : float := binary_normalize prec emax n 0 false.

(** An [int] as an exact, unrounded operand. *)
Definition exact_int (n : Z) : float :=
  match n with
  | Z0 => S754_zero false
  | Zpos p => S754_finite false p 0
  | Zneg p => S754_finite true p 0
  end.

(** [a / b] on two [int]s with [b <> 0]: the quotient of the exact
    integers, rounded once. *)
Definition int_truediv (a b : Z) : float := fdiv (exact_int a) (exact_int b).

(** [min(x, y)] and [max(x, y)] on floats: the first argument unless
    the second is strictly beyond it. *)
Definition fmin (x y : float) : float := if flt y x then y else x.
Definition fmax (x y : float) : float := if flt x y then y else x.

(** [int(x)] for a finite [x]: truncation toward zero. *)
Definition trunc (x : float) : Z :=
  match x with
  | S754_finite s m e =>
      let a := match e with
               | Zneg k => Z.shiftr (Zpos m) (Zpos k)
               | _ => Z.shiftl (Zpos m) e
               end in
      if s then - a else a
  | _ => 0
  end.

Fixpoint pad_left (width : nat) (s : string) : string :=
  match width with
  | O => s
  | S w => if (String.length s <? width)%nat
           then String "0" (pad_left w s) else s
  end.

(** [format(x, ".2f")]: the exact value rounded half-to-even to two
    decimals. *)
Definition format_2f (x : float) : string :=
  match x with
  | S754_nan => "nan"
  | S754_infinity s => if s then "-inf" else "inf"
  | S754_zero s => if s then "-0.00" else "0.00"
  | S754_finite s m e =>
      let n := Zpos m * 100 in
      let hundredths :=
        match e with
        | Zneg k =>
            let d := Z.shiftl 1 (Zpos k) in
            let q := n / d in
            let r := n mod d in
            match 2 * r ?= d with
            | Lt => q
            | Gt => q + 1
            | Eq => if Z.even q then q else q + 1
            end
        | _ => Z.shiftl n e
        end in
      (if s then "-" else "")
      ++ PyStr.str_of_int (hundredths / 100) ++ "."
      ++ pad_left 2 (PyStr.str_of_int (hundredths mod 100))
  end.

End PyFloat.

(** ** [scripts/migrate_sas_to_mysql_optimized.py] *)

Module Migration.
Import PyStr.

(** The dtype tests of [get_mysql_type], in the order it applies them. *)
Inductive dtype : Type :=
| Datetime | Integer | Floating | Boolean | StringOrObject | OtherDtype.

(** A column of the frame: its label, its dtype and
    [df[name].astype(str).str.len().max()], [None] standing for NaN. *)
Record column : Type := mk_column {
  col_name : string;
  col_dtype : dtype;
  col_max_len : option Z
}.

(** Line 63, for an ASCII name. *)
Definition clean_column_name (col : string) : string :=
  lower (replace_char "." "_" (replace_char "-" "_" (replace_char " " "_" col))).

Definition get_mysql_type (col_name : string) (col_type : dtype)
    (n_rows : Z) (max_len_of_col : option Z) : string :=
  match col_type with
  | Datetime => "DATETIME"
  | Integer =>
      if endswith "FLG" col_name || endswith "CD" col_name
      then "INT" else "BIGINT"
  | Floating => "DOUBLE"
  | Boolean => "BOOLEAN"
  | StringOrObject =>
      let max_len :=
        if 0 <? n_rows
        then match max_len_of_col with
             | None => 255
             | Some m => if m =? 0 then 255 else m
             end
        else 255 in
      if 65535 <? max_len then "LONGTEXT"
      else if 255 <? max_len then "TEXT"
      else "VARCHAR("
           ++ str_of_int
                (Z.min (PyFloat.trunc
                          (PyFloat.fmul (PyFloat.of_int max_len) PyFloat.f1_2))
                       255)
           ++ ")"
  | OtherDtype => "TEXT"
  end.

Definition composite_key_candidates : list (string * list string) :=
  [ ("events", ["subjid"; "aeid"; "aeseqid"]);
    ("lesions", ["subjid"; "lsid"]);
    ("visit", ["subjid"; "visfwdid"]);
    ("vitals", ["subjid"; "visfwdid"; "vstestcd"]);
    ("cmtpy", ["subjid"; "cmid"]);
    ("sdytrt", ["subjid"; "sdytrtid"]);
    ("ttevent", ["subjid"; "ttecd"]) ].

Fixpoint lookup_key (table_name : string) (m : list (string * list string))
    : option (list string) :=
  match m with
  | [] => None
  | (t, cols) :: m' =>
      if String.eqb t table_name then Some cols else lookup_key table_name m'
  end.

Definition mem (x : string) (l : list string) : bool :=
  existsb (String.eqb x) l.

(** Lines 149-155: the primary key candidates. *)
Definition primary_key_candidates (columns : list string) : list string :=
  let primary_key_cols : list string := [] in
  let primary_key_cols :=
    if mem "subjid" columns then append primary_key_cols "subjid"
    else primary_key_cols in
  if mem "usubjid" columns && negb (mem "subjid" columns)
  then append primary_key_cols "usubjid"
  else primary_key_cols.

(** Lines 172-186: the comment attached to a column. *)
Definition column_comment (col_name : string) : string :=
  if String.eqb col_name "subjid"
  then "Subject ID - Primary identifier for patient"
  else if String.eqb col_name "usubjid"
  then "Unique Subject ID - Study-wide unique identifier"
  else if endswith "_dt" col_name || endswith "dt" col_name
  then "Date field"
  else if endswith "_flg" col_name || endswith "flg" col_name
  then "Flag/indicator field (0/1 or Y/N)"
  else if endswith "_cd" col_name || endswith "cd" col_name
  then "Code field"
  else if endswith "_nm" col_name || endswith "nm" col_name
  then "Name field"
  else if endswith "_tp" col_name || endswith "tp" col_name
  then "Type field"
  else "".

(** Lines 168-191: one column definition, from a cleaned column. *)
Definition column_definition (n_rows : Z) (c : column) : string :=
  let mysql_type :=
    get_mysql_type (col_name c) (col_dtype c) n_rows (col_max_len c) in
  let comment := column_comment (col_name c) in
  let col_def := "`" ++ col_name c ++ "` " ++ mysql_type in
  if nonempty comment then col_def ++ " COMMENT '" ++ comment ++ "'"
  else col_def.

(** Lines 197-209: the [PRIMARY KEY] clause appended to the statement. *)
Definition primary_key_clause (table_name : string) (columns : list string)
    : string :=
  let primary_key_cols := primary_key_candidates columns in
  match primary_key_cols with
  | [] => ""
  | first :: _ =>
      if Z.of_nat (List.length primary_key_cols) =? 1
      then "," ++ String Chunking.newline "PRIMARY KEY (`" ++ first ++ "`)"
      else
        match lookup_key table_name composite_key_candidates with
        | Some composite_cols =>
            let existing_cols :=
              filter (fun c => mem c columns) composite_cols in
            match existing_cols with
            | [] => ""
            | _ => "," ++ String Chunking.newline "PRIMARY KEY (`"
                   ++ join "`, `" existing_cols ++ "`)"
            end
        | None =>
            "," ++ String Chunking.newline "PRIMARY KEY (`" ++ first ++ "`)"
        end
  end.

Definition clean_columns (df : list column) : list column :=
  map (fun c => mk_column (clean_column_name (col_name c)) (col_dtype c)
                          (col_max_len c)) df.

(** The [CREATE TABLE] statement [create_table_with_schema] executes for
    a frame with the given columns and [n_rows] rows. *)
Definition create_sql (table_name : string) (df : list column) (n_rows : Z)
    (table_comment : string) : string :=
  let df_clean := clean_columns df in
  let names := map col_name df_clean in
  let columns := map (column_definition n_rows) df_clean in
  "CREATE TABLE IF NOT EXISTS `" ++ table_name ++ "` ("
  ++ String Chunking.newline ""
  ++ join ("," ++ String Chunking.newline "") columns
  ++ primary_key_clause table_name names
  ++ (if nonempty table_comment
      then String Chunking.newline ") COMMENT='" ++ table_comment ++ "'"
      else String Chunking.newline ")").

(** The type [create_table_with_schema] gives to a column of the frame. *)
Definition migrated_type (n_rows : Z) (c : column) : string :=
  get_mysql_type (clean_column_name (col_name c)) (col_dtype c) n_rows
                 (col_max_len c).

End Migration.

(** ** [src/api/models.py] and the chat handler of [src/api/server.py] *)

Module Api.

(** A request body whose fields have the declared JSON types. *)
Record ChatRequest : Type := mk_ChatRequest {
  query : string;
  top_k : option Z
}.

(** The constraints of the model: [query] has [min_length=1], [top_k]
    has none. *)
Definition validate (r : ChatRequest) : result ChatRequest :=
  if (1 <=? String.length (query r))%nat then Ok r
  else Raise (ValidationError "query").

(** [x or y] on an optional [int]. *)
Definition or_default (x : option Z) (y : Z) : Z :=
  match x with
  | Some n => if n =? 0 then y else n
  | None => y
  end.

(** Line 210: [request.top_k or (config.top_k if config else 5)]. *)
Definition effective_top_k (r : ChatRequest) (config_top_k : option Z) : Z :=
  or_default (top_k r) (match config_top_k with Some k => k | None => 5 end).

(** The arguments with which the handler calls [retriever.search] for a
    body that reaches it, the retriever being loaded. *)
Definition chat_search_call (r : ChatRequest) (config_top_k : option Z)
    : result (string * Z) :=
  r <- validate r ;;
  Ok (query r, effective_top_k r config_top_k).

End Api.

(** ** [src/utils/prompt_examples.py] *)

Module PromptExamples.
Import PyStr.

(** A value read by [json.load]. *)
Inductive json : Type :=
| JNull
| JBool (b : bool)
| JInt (n : Z)
| JFloat (x : PyFloat.float)
| JStr (s : string)
| JList (items : list json)
| JDict (items : list (string * json)).

Fixpoint dict_find (k : string) (d : list (string * json)) : option json :=
  match d with
  | [] => None
  | (k', v) :: d' => if String.eqb k' k then Some v else dict_find k d'
  end.

(** [k in d] and [d.get(k, default)]. *)
Definition has_key (k : string) (d : list (string * json)) : bool :=
  match dict_find k d with Some _ => true | None => false end.

Definition get (k : string) (default : json) (d : list (string * json)) : json :=
  match dict_find k d with Some v => v | None => default end.

(** [v > 0]. *)
Definition gt_zero (v : json) : result bool :=
  match v with
  | JInt n => Ok (0 <? n)
  | JBool b => Ok b
  | JFloat x => Ok (PyFloat.flt PyFloat.f0_0 x)
  | _ => Raise (TypeError "'>' not supported")
  end.

Section Normalisation.
(** [str(v)] for a float, a list or a mapping, whose layout the
    summary does not depend on. *)
Variable repr : json -> string.

(** The rendering of the shapes of lines 69-181, other than the
    co-occurrence table. *)
Variable render_other_shape : list (string * json) -> result (option string).

(** [format(v, "")], as an f-string field applies it. *)
Definition fmt (v : json) : string :=
  match v with
  | JNull => "None"
  | JBool b => if b then "True" else "False"
  | JInt n => str_of_int n
  | JStr s => s
  | _ => repr v
  end.

(** Lines 63-67. *)
Definition cooccurrence_summary (n a b c d : json) : string :=
  "Analysis of " ++ fmt n ++ " patients shows: " ++ fmt a
  ++ " responders with immune-related AEs, " ++ fmt b
  ++ " responders without immune AEs, " ++ fmt c
  ++ " non-responders with immune AEs, and " ++ fmt d
  ++ " non-responders without immune AEs.".

(** Lines 183-185. *)
Definition joined (natural_parts : list string) : option string :=
  match natural_parts with
  | [] => None
  | _ => Some (join " " natural_parts)
  end.

Definition _clean_answer (question : string) (answer : json)
    : result (option string) :=
  match answer with
  | JStr s =>
      if startswith "not computable" (lower s) then Ok None
      else if String.eqb (lower s) "computed in file." then Ok None
      else Ok (Some s)
  | JDict d =>
      match d with
      | [] => Ok None
      | _ =>
          let natural_parts : list string := [] in
          if has_key "n" d && has_key "a_responder_and_immune" d
          then
            let n := get "n" (JInt 0) d in
            let a := get "a_responder_and_immune" (JInt 0) d in
            let b := get "b_responder_no_immune" (JInt 0) d in
            let c := get "c_nonresponder_immune" (JInt 0) d in
            let d' := get "d_nonresponder_no_immune" (JInt 0) d in
            positive <- gt_zero n ;;
            Ok (joined
                  (if positive
                   then append natural_parts (cooccurrence_summary n a b c d')
                   else natural_parts))
          else render_other_shape d
      end
  | _ => Ok None
  end.

(** The same conversion in
    [scripts/process_qa_for_prompt_engineering.py]. *)
Definition is_nan (v : option json) : bool :=
  match v with
  | Some (JFloat x) => PyFloat.is_nan x
  | _ => false
  end.

(** [format(v, ".2f")]. *)
Definition fmt_2f (v : option json) : result string :=
  match v with
  | Some (JFloat x) => Ok (PyFloat.format_2f x)
  | Some (JInt n) => Ok (PyFloat.format_2f (PyFloat.of_int n))
  | Some (JBool b) =>
      Ok (PyFloat.format_2f (PyFloat.of_int (if b then 1 else 0)))
  | _ => Raise (TypeError "unsupported format string")
  end.

Definition convert_structured_to_natural_language
    (question : string) (answer : json) : result (option string) :=
  match answer with
  | JStr s =>
      if startswith "not computable" (lower s) then Ok None
      else if startswith "partially computable" (lower s) then Ok (Some s)
      else if String.eqb (lower s) "computed in file." then Ok None
      else Ok (Some s)
  | JDict d =>
      match d with
      | [] => Ok None
      | _ =>
          let natural_parts : list string := [] in
          if has_key "n" d && has_key "a_responder_and_immune" d
          then
            let n := get "n" (JInt 0) d in
            let a := get "a_responder_and_immune" (JInt 0) d in
            let b := get "b_responder_no_immune" (JInt 0) d in
            let c := get "c_nonresponder_immune" (JInt 0) d in
            let d' := get "d_nonresponder_no_immune" (JInt 0) d in
            positive <- gt_zero n ;;
            if positive
            then
              let natural_parts :=
                append natural_parts (cooccurrence_summary n a b c d') in
              if negb (is_nan (dict_find "odds_ratio" d))
              then
                or_val <- fmt_2f (dict_find "odds_ratio" d) ;;
                Ok (joined
                      (append natural_parts
                              ("The odds ratio is " ++ or_val ++ ".")))
              else Ok (joined natural_parts)
            else Ok (joined natural_parts)
          else render_other_shape d
      end
  | _ => Ok None
  end.
End Normalisation.

(** A loaded cache entry. *)
Record example : Type := mk_example {
  question : string;
  answer : string;
  source : string
}.

(** [l[:n]]. *)
Definition slice_to {A : Type} (n : Z) (l : list A) : list A :=
  if 0 <=? n then firstn (Z.to_nat n) l
  else firstn (List.length l - Z.to_nat (- n)) l.

(** [l.sort(key=key, reverse=True)]: the stable sort into non-increasing
    keys, [ltb] being [<] on the keys. *)
Section Sort.
Context {A K : Type}.
Variable ltb : K -> K -> bool.
Variable key : A -> K.

Fixpoint insert_desc (x : A) (l : list A) : list A :=
  match l with
  | [] => [x]
  | y :: l' =>
      if ltb (key x) (key y) then y :: insert_desc x l' else x :: l
  end.

Definition sort_desc (l : list A) : list A := fold_right insert_desc [] l.
End Sort.

Definition count_if {A : Type} (p : A -> bool) (l : list A) : Z :=
  Z.of_nat (List.length (filter p l)).

(** [get_examples] on a loaded cache. *)
Definition get_examples (examples : list example) (max_examples : Z)
    (query : option string) : list example :=
  let examples :=
    match query, examples with
    | Some (String _ _ as query), _ :: _ =>
        let query_lower := lower query in
        let scored :=
          map (fun ex =>
                 let question := lower (question ex) in
                 (count_if (fun word => contains word question)
                           (split_ws query_lower), ex))
              examples in
        map snd (sort_desc Z.ltb fst scored)
    | _, _ => examples
    end in
  slice_to max_examples examples.

End PromptExamples.

(** ** [src/retrieval/hybrid.py] *)

Module Hybrid.
Import PyStr PyFloat PromptExamples.

(** A retrieval result. *)
Record hit : Type := mk_hit {
  corpus : string;
  chunk_id : string;
  score : option float;
  text : string;
  metadata : list (string * string)
}.

(** [x.get("score", 0.0)]. *)
Definition get_score (h : hit) : float :=
  match score h with Some s => s | None => f0_0 end.

Definition set_score (h : hit) (s : float) : hit :=
  mk_hit (corpus h) (chunk_id h) (Some s) (text h) (metadata h).

(** *** Sets of words *)

Definition mem (x : string) (l : list string) : bool :=
  existsb (String.eqb x) l.

(** [set(words)], each word once. *)
Fixpoint set_of (l : list string) : list string :=
  match l with
  | [] => []
  | x :: t => if mem x t then set_of t else x :: set_of t
  end.

Definition inter (a b : list string) : list string :=
  filter (fun x => mem x b) a.

Definition union (a b : list string) : list string :=
  (a ++ filter (fun x => negb (mem x a)) b)%list.

Definition size (a : list string) : Z := Z.of_nat (List.length a).

(** Line 308: the pairs of words one of which contains the other. *)
Definition partial_count (query_words question_words : list string) : Z :=
  fold_right Z.add 0
    (map (fun qw =>
            count_if (fun qw2 => contains qw qw2 || contains qw2 qw)
                     question_words)
         query_words).

(** Lines 300-324: the similarity of one cached question. *)
Definition similarity (query_words : list string) (question : string) : float :=
  let question_words := set_of (split_ws (lower question)) in
  let exact_matches := inter query_words question_words in
  let partial_matches := partial_count query_words question_words in
  let union := union query_words question_words in
  let intersection := inter query_words question_words in
  let jaccard :=
    match union with
    | [] => f0_0
    | _ => int_truediv (size intersection) (size union)
    end in
  fadd (fadd (fmul jaccard f0_7)
             (fmul (int_truediv (size exact_matches)
                                (Z.max (size query_words) 1)) f0_2))
       (fmul (fmin (int_truediv partial_matches
                                (Z.max (size query_words) 1)) f1_0) f0_1).

Fixpoint enumerate {A : Type} (i : Z) (l : list A) : list (Z * A) :=
  match l with
  | [] => []
  | x :: t => (i, x) :: enumerate (i + 1) t
  end.

Definition context_hit (query_words : list string) (ie : Z * example) : hit :=
  let '(idx, ex) := ie in
  mk_hit "context" ("context_" ++ str_of_int idx)
         (Some (fmin (similarity query_words (question ex)) f1_0))
         (answer ex)
         [ ("question", question ex); ("source", source ex);
           ("query_type", "cached_answer") ].

Definition _search_context (cache : list example) (query : string)
    (top_k : Z) : list hit :=
  let examples := get_examples cache (top_k * 2) (Some query) in
  let query_lower := lower query in
  let query_words := set_of (split_ws query_lower) in
  let results := map (context_hit query_words) (enumerate 0 examples) in
  slice_to top_k (sort_desc flt get_score results).

(** *** Combination *)

(** The answer of the router's quality evaluation; a missing key is
    [None]. *)
Record evaluation : Type := mk_evaluation {
  recommendation : option string;
  pdf_quality : option float;
  sas_quality : option float;
  context_quality : option float
}.

Definition quality (q : option float) : float :=
  match q with Some x => x | None => f0_0 end.

Definition nonempty_list {A : Type} (l : list A) : bool :=
  match l with [] => false | _ => true end.

(** The loop body [result["score"] = result.get("score", 0.0) * w]. *)
Definition rescale (w : float -> float) (results : list hit) : list hit :=
  map (fun r => set_score r (w (get_score r))) results.

(** The list [combined] before it is sorted (lines 371-409). *)
Definition combined_unsorted (pdf_results sas_results context_results : list hit)
    (ev : evaluation) : list hit :=
  let recommendation :=
    match recommendation ev with Some r => r | None => "use_both" end in
  let pdf_quality := quality (pdf_quality ev) in
  let sas_quality := quality (sas_quality ev) in
  let context_quality := quality (context_quality ev) in
  let use_context_as_sas :=
    nonempty_list context_results && negb (nonempty_list sas_results) in
  let from_pdf :=
    if mem recommendation
           ["use_pdf"; "use_both"; "use_all"; "use_pdf_sas"; "use_pdf_context"]
       && flt f0_3 pdf_quality
    then rescale (fun s => fmul s pdf_quality) pdf_results
    else [] in
  let from_sas :=
    if use_context_as_sas
    then if flt f0_3 context_quality
         then rescale (fun s => fmul (fmul s context_quality) f1_3)
                      context_results
         else []
    else if mem recommendation
                ["use_sas"; "use_both"; "use_all"; "use_pdf_sas";
                 "use_sas_context"]
            && flt f0_3 sas_quality
         then rescale (fun s => fmul s sas_quality) sas_results
         else [] in
  let supplement :=
    if nonempty_list context_results && negb use_context_as_sas
       && flt f0_3 context_quality
    then rescale (fun s => fmul (fmul s context_quality) f0_8)
                 context_results
    else [] in
  (from_pdf ++ from_sas ++ supplement)%list.

Definition _combine_results_intelligently
    (query : string) (pdf_results sas_results context_results : list hit)
    (ev : evaluation) (top_k : Z) : list hit :=
  slice_to (top_k * 2)
    (sort_desc flt get_score
       (combined_unsorted pdf_results sas_results context_results ev)).

(** *** The orchestrator *)

(** The calls [search] makes on its collaborators, in order. *)
Inductive call : Type :=
| RouteQuery (query : string)
| SearchContext (query : string)
| SearchSasSql (query : string) (top_k : Z)
| SearchPdf (query : string) (top_k : Z)
| EvaluateQuality (query : string).

Section Search.
(** The router, the SQL path ([_search_sas_sql], which generates the
    statement and runs it), the vector search and the quality
    evaluation are services of the deployment. *)
Variable route_query : string -> string.
Variable cache : list example.
Variable mysql_client : bool.
Variable _search_sas_sql : string -> Z -> list hit.
Variable pdf_loaded : bool.
Variable pdf_search : string -> Z -> list hit.
Variable evaluate_result_quality :
  string -> list hit -> list hit -> list hit -> evaluation.

(** Lines 121-155. *)
Definition sas_step (search_sas : bool) (query : string) (top_k : Z)
    : list hit * list hit * list call :=
  if search_sas
  then
    let context_results := _search_context cache query 3 in
    let has_good_context_match :=
      match context_results with
      | top :: _ => flt f0_5 (get_score top)
      | [] => false
      end in
    if has_good_context_match
    then ([], context_results, [SearchContext query])
    else if mysql_client
         then (_search_sas_sql query top_k, context_results,
               [SearchContext query; SearchSasSql query top_k])
         else ([], context_results, [SearchContext query])
  else ([], [], []).

Definition search (loaded : bool) (query : string) (top_k : Z)
    : result (list hit * list call) :=
  if negb loaded
  then Raise (RuntimeError "Retriever not loaded. Call load() first.")
  else
    let route := route_query query in
    let search_pdf := mem route ["pdf"; "both"; "all"; "pdf+context"] in
    let search_sas := mem route ["sas"; "both"; "all"; "sas+context"] in
    let '(sas_results, context_results, sas_calls) :=
      sas_step search_sas query top_k in
    let '(pdf_results, pdf_calls) :=
      if search_pdf && pdf_loaded
      then (pdf_search query top_k, [SearchPdf query top_k])
      else ([], []) in
    let ev :=
      evaluate_result_quality query pdf_results sas_results context_results in
    Ok (_combine_results_intelligently query pdf_results sas_results
          context_results ev top_k,
        ([RouteQuery query] ++ sas_calls ++ pdf_calls
         ++ [EvaluateQuality query])%list).
End Search.

End Hybrid.

(** ** Vocabulary of the statements *)

Module Spec.
Import PyStr.

(** [w] occurs in [s] in some letter case. *)
Definition occurs_ci (w s : string) : Prop :=
  exists pre mid post, s = pre ++ mid ++ post /\ upper mid = upper w.

(** [w] occurs in [s] as written. *)
Definition occurs (w s : string) : Prop :=
  exists pre post, s = pre ++ w ++ post.

(** The last, respectively first, character of [n] exists and is not
    blank. *)
Fixpoint ends_solid (n : string) : bool :=
  match n with
  | EmptyString => false
  | String a EmptyString => negb (is_space a)
  | String _ n' => ends_solid n'
  end.

Definition starts_solid (n : string) : bool :=
  match n with
  | EmptyString => false
  | String a _ => negb (is_space a)
  end.

(** The maximal runs of word characters of [s]. *)
Fixpoint tokens_aux (s cur : string) : list string :=
  match s with
  | EmptyString =>
      match cur with EmptyString => [] | _ => [rev cur] end
  | String c t =>
      if is_word c then tokens_aux t (String c cur)
      else match cur with
           | EmptyString => tokens_aux t EmptyString
           | _ => rev cur :: tokens_aux t EmptyString
           end
  end.

Definition tokens (s : string) : list string := tokens_aux s EmptyString.

(** The statement has the keyword [LIMIT] as a token of its own, which a
    [LIMIT] clause requires. *)
Definition has_limit_keyword (sql : string) : bool :=
  existsb (fun t => String.eqb (upper t) "LIMIT") (tokens sql).

(** *** Provenance of combined results

    The combination of [Hybrid], each entry carrying the source it was
    taken from. *)
Inductive source : Type := FromPdf | FromSas | FromContext.

Definition source_quality (ev : Hybrid.evaluation) (s : source) : PyFloat.float :=
  match s with
  | FromPdf => Hybrid.quality (Hybrid.pdf_quality ev)
  | FromSas => Hybrid.quality (Hybrid.sas_quality ev)
  | FromContext => Hybrid.quality (Hybrid.context_quality ev)
  end.

Definition tagged (s : source) (l : list Hybrid.hit) : list (source * Hybrid.hit) :=
  map (pair s) l.

Definition combined_tagged
    (pdf_results sas_results context_results : list Hybrid.hit)
    (ev : Hybrid.evaluation) : list (source * Hybrid.hit) :=
  let recommendation :=
    match Hybrid.recommendation ev with Some r => r | None => "use_both" end in
  let pdf_quality := source_quality ev FromPdf in
  let sas_quality := source_quality ev FromSas in
  let context_quality := source_quality ev FromContext in
  let use_context_as_sas :=
    Hybrid.nonempty_list context_results
    && negb (Hybrid.nonempty_list sas_results) in
  let from_pdf :=
    if Hybrid.mem recommendation
         ["use_pdf"; "use_both"; "use_all"; "use_pdf_sas"; "use_pdf_context"]
       && PyFloat.flt PyFloat.f0_3 pdf_quality
    then tagged FromPdf
           (Hybrid.rescale (fun s => PyFloat.fmul s pdf_quality) pdf_results)
    else [] in
  let from_sas :=
    if use_context_as_sas
    then if PyFloat.flt PyFloat.f0_3 context_quality
         then tagged FromContext
                (Hybrid.rescale
                   (fun s => PyFloat.fmul (PyFloat.fmul s context_quality)
                                          PyFloat.f1_3)
                   context_results)
         else []
    else if Hybrid.mem recommendation
              ["use_sas"; "use_both"; "use_all"; "use_pdf_sas";
               "use_sas_context"]
            && PyFloat.flt PyFloat.f0_3 sas_quality
         then tagged FromSas
                (Hybrid.rescale (fun s => PyFloat.fmul s sas_quality)
                                sas_results)
         else [] in
  let supplement :=
    if Hybrid.nonempty_list context_results && negb use_context_as_sas
       && PyFloat.flt PyFloat.f0_3 context_quality
    then tagged FromContext
           (Hybrid.rescale
              (fun s => PyFloat.fmul (PyFloat.fmul s context_quality)
                                     PyFloat.f0_8)
              context_results)
    else [] in
  (from_pdf ++ from_sas ++ supplement)%list.

Definition combine_tagged
    (pdf_results sas_results context_results : list Hybrid.hit)
    (ev : Hybrid.evaluation) (top_k : Z) : list (source * Hybrid.hit) :=
  PromptExamples.slice_to (top_k * 2)
    (PromptExamples.sort_desc PyFloat.flt
       (fun sh => Hybrid.get_score (snd sh))
       (combined_tagged pdf_results sas_results context_results ev)).

(** The scores do not increase along the list. *)
Definition non_increasing (l : list Hybrid.hit) : Prop :=
  Sorted (fun a b => SFleb (Hybrid.get_score b) (Hybrid.get_score a) = true) l.

(** No score of the list is a NaN. *)
Definition nan_free (l : list Hybrid.hit) : Prop :=
  Forall (fun h => PyFloat.is_nan (Hybrid.get_score h) = false) l.

End Spec.

(** ** The other paths of [src/utils/sql_generator.py] *)

Module SqlPaths.
Import PyStr SQLGenerator.

(** [s[n:]] for [n >= 0]. *)
Fixpoint drop (n : nat) (s : string) : string :=
match n, s with
| O, _ => s
| S _, EmptyString => EmptyString
| S k, String _ t => drop k t
end.

Definition backquote : ascii := ascii_of_N 96.

(** The fence that opens a code block, three backquotes. *)
Definition fence : string :=
String backquote (String backquote (String backquote EmptyString)).

(** [s.rstrip(fence)]: the trailing backquotes go, however many. *)
Definition rstrip_backquotes : string -> string :=
rstrip_by (fun c => Ascii.eqb c backquote).

(** Lines 252-266: what [_generate_sql_with_llm] makes of the text the
    model returned, for an ASCII text. *)
Definition clean_llm_sql (content : string) (limit : Z) : string :=
let sql := strip content in
let sql := if startswith (fence ++ "sql") sql then drop 6 sql else sql in
let sql := if startswith fence sql then drop 3 sql else sql in
let sql := strip (rstrip_backquotes (strip sql)) in
if negb (contains "LIMIT" (upper sql))
then rstrip_semicolon sql ++ " LIMIT " ++ str_of_int limit
else sql.

(** [_generate_sql_with_llm]; [reply] is the outcome of the completion
    call: an exception, no content, or the text of the message.  A call
    that fails in any way falls back to the heuristic path. *)
Definition _generate_sql_with_llm (globals : list string)
    (reply : result (option string)) (query : string) (limit : Z)
    : result string :=
match reply with
| Ok (Some content) => Ok (clean_llm_sql content limit)
| _ => _generate_sql_simple globals query limit
end.

(** [__init__]: the LLM is used only when an API key is configured. *)
Definition init_use_llm (use_llm : bool) (openai_api_key : option string) : bool :=
use_llm && match openai_api_key with Some k => nonempty k | None => false end.

Definition generate_sql (globals : list string) (use_llm : bool)
    (reply : result (option string)) (query : string) (limit : Z)
    : result string :=
if use_llm then _generate_sql_with_llm globals reply query limit
else _generate_sql_simple globals query limit.

(** One term of [generate_simple_search]. *)
Definition ilike_condition (term : string) : string :=
"(text_data ILIKE '%" ++ term ++ "%' OR description ILIKE '%" ++ term ++ "%')".

Definition generate_simple_search (query table : string) (limit : Z) : string :=
let search_terms := split_ws query in
let conditions := map ilike_condition search_terms in
let where_clause :=
  match conditions with [] => "1=1" | _ => join " OR " conditions end in
"SELECT * FROM " ++ table ++ " WHERE " ++ where_clause ++ " LIMIT "
++ str_of_int limit.

(** The calls [_search_sas_sql] makes, in order. *)
Inductive sql_call : Type :=
| GenerateSql (query : string) (limit : Z)
| ExecuteQuery (statement : string).

Section SasSearch.
(** The rows the database returns and lines 217-273, which turn them
    into results, stay abstract; either may raise. *)
Variables (Rows Hit : Type).
Variable execute_query : string -> result Rows.
Variable format_rows : Rows -> result (list Hit).

(** [HybridRetriever._search_sas_sql]: any exception is logged and an
    empty list returned. *)
Definition _search_sas_sql (mysql_client : bool) (globals : list string)
    (use_llm : bool) (reply : result (option string))
    (query : string) (top_k : Z) : list Hit * list sql_call :=
if negb mysql_client then ([], [])
else
  match generate_sql globals use_llm reply query top_k with
  | Raise _ => ([], [GenerateSql query top_k])
  | Ok sql =>
      let statement := MySQLClient.limited_statement sql top_k in
      let calls := [GenerateSql query top_k; ExecuteQuery statement] in
      match execute_query statement with
      | Raise _ => ([], calls)
      | Ok rows =>
          match format_rows rows with
          | Raise _ => ([], calls)
          | Ok results => (results, calls)
          end
      end
  end.
End SasSearch.

End SqlPaths.

(** *** Further vocabulary *)

Module Spec2.
Import PyStr.

(** Every character of [s] passes [p]. *)
Fixpoint all_chars (p : ascii -> bool) (s : string) : bool :=
match s with
| EmptyString => true
| String c t => p c && all_chars p t
end.

(** What [clean_column_name] leaves in a name: no blank, dash, dot or
    capital letter. *)
Definition clean_char (c : ascii) : bool :=
negb (Ascii.eqb c " ") && negb (Ascii.eqb c "-") && negb (Ascii.eqb c ".")
&& negb (is_upper c).

(** [clean_column_name] acts on each character by itself. *)
Definition clean_one (c : ascii) : ascii :=
lower_char
  ((fun c => if Ascii.eqb c "." then "_"%char else c)
     ((fun c => if Ascii.eqb c "-" then "_"%char else c)
      ((fun c => if Ascii.eqb c " " then "_"%char else c) c))).

(** The width [get_mysql_type] computes for a longest value of [m]
    characters. *)
Definition varchar_width (m : Z) : Z :=
Z.min (PyFloat.trunc (PyFloat.fmul (PyFloat.of_int m) PyFloat.f1_2)) 255.

End Spec2.

(** ** The response of the chat handler, [src/api/server.py] *)

Module ChatHandler.
Import PyStr Hybrid.

(** [s[:n]] for [n >= 0]. *)
Fixpoint take (n : nat) (s : string) : string :=
match n, s with
| S k, String c t => String c (take k t)
| _, _ => EmptyString
end.

Record Citation : Type := mk_Citation {
  cit_corpus : string;
  cit_chunk_id : string;
  cit_score : PyFloat.float;
  cit_snippet : string
}.

(** Lines 257-265. *)
Definition build_citations (results : list hit) : list Citation :=
map (fun r => mk_Citation (corpus r) (chunk_id r) (get_score r)
                          (take 300 (text r)))
    (firstn 10 results).

(** Lines 243-249: what one result gives to the fallback answer. *)
Definition fallback_part (result : hit) : list string :=
let text := strip (text result) in
if nonempty text
then [if 500 <? len text then take 500 text ++ "..." else text]
else [].

Definition no_clear_answer : string :=
"I found relevant documents, but couldn't extract a clear answer. "
++ "Please check the sources below for more details.".

(** Lines 239-254: the answer when no answer generator is available. *)
Definition fallback_answer (results : list hit) : string :=
let top_results := firstn 5 results in
let answer_parts := flat_map fallback_part top_results in
match answer_parts with
| [] => no_clear_answer
| _ => join Chunking.blank_line answer_parts
end.

Record ChatResponse : Type := mk_ChatResponse {
  response_answer : string;
  response_citations : list Citation
}.

(** Lines 216-274, after the search: [generator] is the answer
    generator when one could be built. *)
Definition respond (generator : option (string -> list hit -> string))
    (query : string) (results : list hit) : ChatResponse :=
match results with
| [] => mk_ChatResponse "No relevant documents found for your query." []
| _ =>
    let answer :=
      match generator with
      | Some generate => generate query (firstn 10 results)
      | None => fallback_answer results
      end in
    mk_ChatResponse answer (build_citations results)
end.

End ChatHandler.

(** ** [src/utils/agentic_router.py] *)

Module Router.
Import PyStr Hybrid.

Definition sql_keywords : list string :=
[ "how many"; "count"; "patient"; "subject"; "age"; "sex"; "gender";
  "treatment"; "arm"; "visit"; "event"; "show me"; "list"; "filter" ].

Definition doc_keywords : list string :=
[ "inclusion"; "exclusion"; "criteria"; "protocol"; "design";
  "methodology"; "procedure"; "guideline" ].

Definition _fallback_route (query : string) : string :=
let query_lower := lower query in
let has_sql := existsb (fun kw => contains kw query_lower) sql_keywords in
let has_doc := existsb (fun kw => contains kw query_lower) doc_keywords in
if has_sql && has_doc then "both"
else if has_sql then "sas"
else "pdf".

(** [route_query]; [reply] is the outcome of the completion call and of
    decoding its JSON: an exception of any kind, no content, or the
    value of the field [route] ([""] when the field is missing). *)
Definition route_query (reply : result (option string)) (query : string)
    : string :=
match reply with
| Ok (Some route_field) =>
    let route := lower route_field in
    if mem route ["pdf"; "sas"; "both"] then route
    else _fallback_route query
| _ => _fallback_route query
end.

(** Lines 271-279: the evaluation returned when the quality call fails. *)
Definition fallback_evaluation (pdf_results sas_results context_results : list hit)
    : evaluation :=
mk_evaluation
  (Some (if nonempty_list pdf_results && nonempty_list sas_results
         then "use_both"
         else if nonempty_list pdf_results then "use_pdf" else "use_sas"))
  (Some (if nonempty_list pdf_results then PyFloat.f0_7 else PyFloat.f0_0))
  (Some (if nonempty_list sas_results then PyFloat.f0_7 else PyFloat.f0_0))
  (Some (if nonempty_list context_results then PyFloat.f0_8 else PyFloat.f0_0)).

End Router.

(** ** [src/retrieval/vector_db_retriever.py] *)

Module VectorRetriever.
Import PyStr PyFloat Hybrid.

(** [x - y]. *)
Definition fsub : float -> float -> float := SFsub prec emax.

(** Line 89: [max(0.0, 1.0 - float(distance))]. *)
Definition similarity_score (distance : float) : float :=
fmax f0_0 (fsub f1_0 distance).

(** [zip] of the four parallel lists the store returns. *)
Fixpoint zip4 {A B C D : Type} (a : list A) (b : list B) (c : list C)
    (d : list D) : list (A * B * C * D) :=
match a, b, c, d with
| x :: a', y :: b', z :: c', w :: d' => (x, y, z, w) :: zip4 a' b' c' d'
| _, _, _, _ => []
end.

(** Lines 66-97: the results made of the store's answer; a missing
    metadata entry is [None]. *)
Definition format_results (ids documents : list string)
    (metadatas : list (option (list (string * string))))
    (distances : list float) : list hit :=
match ids with
| [] => []
| _ =>
    map (fun r =>
           let '(doc_id, doc_text, metadata, distance) := r in
           mk_hit "pdf" doc_id (Some (similarity_score distance)) doc_text
                  (match metadata with Some m => m | None => [] end))
        (zip4 ids documents metadatas distances)
end.

End VectorRetriever.

(** ** Loading the example cache, [src/utils/prompt_examples.py] *)

Module ExampleCache.
Import PyStr PromptExamples.

Section Load.
Variable repr : json -> string.
Variable render_other_shape : list (string * json) -> result (option string).

(** Lines 232-247: the loop over a file in mapping format.  It ends at
    the first entry whose cleaning raises; what was appended before
    stays in the cache.  The flag tells whether it ended that way. *)
Fixpoint load_mapping (stem : string) (data : list (string * json))
    (examples : list example) : list example * bool :=
match data with
| [] => (examples, false)
| (question, answer) :: rest =>
    if negb (nonempty question) then load_mapping stem rest examples
    else
      match _clean_answer repr render_other_shape question answer with
      | Raise _ => (examples, true)
      | Ok None => load_mapping stem rest examples
      | Ok (Some cleaned) =>
          load_mapping stem rest
            (append examples (mk_example question cleaned stem))
      end
end.

(** [bool(v)], the test of [not v]. *)
Definition truthy (v : json) : bool :=
match v with
| JNull => false
| JBool b => b
| JInt n => negb (n =? 0)
| JFloat x => match x with S754_zero _ => false | _ => true end
| JStr s => nonempty s
| JList items => match items with [] => false | _ => true end
| JDict items => match items with [] => false | _ => true end
end.

(** An example as [load] stores it.  The question of an item of a file
    in list format is whatever value the item holds; the question of an
    entry of a file in mapping format is its key, a string. *)
Record entry : Type := mk_entry {
  entry_question : json;
  entry_answer : string;
  entry_source : string
}.

Definition of_example (ex : example) : entry :=
mk_entry (JStr (question ex)) (answer ex) (source ex).

(** The first argument of [_clean_answer], which the function never
    reads, as a string. *)
Definition question_text (question : json) : string :=
match question with JStr s => s | _ => EmptyString end.

(** Lines 208-228: the loop over a file in list format.  An item that
    is not an object has no [get]: the [AttributeError] ends the loop,
    as an exception of [_clean_answer] does. *)
Fixpoint load_listing (stem : string) (data : list json)
    (examples : list entry) : list entry * bool :=
match data with
| [] => (examples, false)
| JDict item :: rest =>
    let question := get "question" (JStr EmptyString) item in
    let answer := get "answer" (JStr EmptyString) item in
    if negb (truthy question) || negb (truthy answer)
    then load_listing stem rest examples
    else
      match _clean_answer repr render_other_shape (question_text question)
                          answer with
      | Raise _ => (examples, true)
      | Ok None => load_listing stem rest examples
      | Ok (Some cleaned) =>
          load_listing stem rest
            (append examples (mk_entry question cleaned stem))
      end
| _ :: _ => (examples, true)
end.

(** What [json.load] makes of a file: a list, a mapping, or a value
    that is neither and from which nothing is loaded. *)
Inductive content : Type :=
| Listing (items : list json)
| Mapping (entries : list (string * json))
| Scalar.

(** Lines 198-250: a file is the stem of its name and what [json.load]
    makes of it, an exception when it cannot be read.  A file whose
    name starts with an underscore is left out.  The loop over a
    mapping only appends, so what it adds to the cache is what it adds
    to an empty list. *)
Definition load_files (files : list (string * result content))
    (examples : list entry) : list entry :=
fold_left
  (fun examples file =>
     let '(stem, data) := file in
     if startswith "_" stem then examples
     else match data with
          | Ok (Listing items) => fst (load_listing stem items examples)
          | Ok (Mapping entries) =>
              (examples
               ++ map of_example (fst (load_mapping stem entries [])))%list
          | Ok Scalar => examples
          | Raise _ => examples
          end)
  files examples.

(** The attributes [_examples] and [_loaded]. *)
Record cache : Type := mk_cache {
  _examples : list entry;
  _loaded : bool
}.

Definition load (dir_exists : bool) (files : list (string * result content))
    (c : cache) : cache :=
if _loaded c then c
else if negb dir_exists then c
else mk_cache (load_files files (_examples c)) true.

End Load.

(** The number of words of the query, repetitions counted, that the
    question of an example contains: the score [get_examples] sorts by. *)
Definition word_overlap (query : string) (ex : example) : Z :=
count_if (fun word => contains word (lower (question ex)))
         (split_ws (lower query)).

End ExampleCache.

(** ** The context of the answer prompt, [src/utils/answer_generator.py] *)

Module AnswerGen.
Import PyStr Hybrid.

(** [metadata.get(k, "")]. *)
Fixpoint lookup (k : string) (m : list (string * string)) : string :=
match m with
| [] => EmptyString
| (k', v) :: m' => if String.eqb k' k then v else lookup k m'
end.

(** Lines 80-89: the section made of one chunk whose stripped text is
    [text]. *)
Definition context_part (chunk : hit) (text : string) : string :=
let corpus := upper (corpus chunk) in
let score := PyFloat.format_2f (get_score chunk) in
if String.eqb corpus "CONTEXT"
then
  let original_q := lookup "question" (metadata chunk) in
  "[Source: CONTEXT CACHE (Similar Q: " ++ ChatHandler.take 80 original_q
  ++ "...), Relevance: " ++ score ++ "]" ++ String Chunking.newline text
else "[Source: " ++ corpus ++ ", Relevance: " ++ score ++ "]"
     ++ String Chunking.newline text.

(** Lines 75-95: the sections taken while the budget lasts; the loop
    breaks at the first section that does not fit. *)
Fixpoint context_sections (chunks : list hit) (total_chars max_chars : Z)
    : list string :=
match chunks with
| [] => []
| chunk :: rest =>
    let text := strip (text chunk) in
    if negb (nonempty text) then context_sections rest total_chars max_chars
    else
      let context_part := context_part chunk text in
      if max_chars <? total_chars + len context_part then []
      else context_part
           :: context_sections rest (total_chars + len context_part) max_chars
end.

(** What [generate] has before it calls the model: one of its two fixed
    answers, or the context of the prompt. *)
Inductive prepared : Type :=
| Answer (message : string)
| Context (context : string).

Definition separator : string :=
Chunking.blank_line ++ "---" ++ Chunking.blank_line.

(** Lines 67-100. *)
Definition prepare (context_chunks : list hit) (max_context_tokens : Z)
    : prepared :=
match context_chunks with
| [] =>
    Answer "I couldn't find any relevant information to answer your question."
| _ =>
    let max_chars := max_context_tokens * 4 in
    match context_sections context_chunks 0 max_chars with
    | [] => Answer ("I found some documents but couldn't extract meaningful "
                    ++ "content to answer your question.")
    | context_sections => Context (join separator context_sections)
    end
end.

(** The characters of a list of strings, added up. *)
Definition total_length (parts : list string) : Z :=
fold_right (fun p n => len p + n) 0 parts.

End AnswerGen.

(** ** The examples in the prompt, [src/utils/prompt_examples.py] *)

Module PromptText.
Import PyStr PromptExamples.

Definition nl : string := String Chunking.newline EmptyString.

(** Lines 303-308: the four lines of each example, numbered from [i]. *)
Fixpoint format_entries (i : Z) (examples : list example) : list string :=
match examples with
| [] => []
| ex :: rest =>
    ("Example " ++ str_of_int i ++ ":")
    :: ("Q: " ++ question ex)
    :: ("A: " ++ answer ex)
    :: EmptyString
    :: format_entries (i + 1) rest
end.

(** [format_for_prompt] on a loaded cache. *)
Definition format_for_prompt (cache : list example) (max_examples : Z)
    (query : option string) : string :=
let examples := get_examples cache max_examples query in
match examples with
| [] => EmptyString
| _ =>
    join nl
      (("Here are some example Q&A pairs from similar queries:" ++ nl)
       :: format_entries 1 examples)
end.

End PromptText.

(** ** Vocabulary of the statements on chunks *)

Module Spec3.
Import PyStr Chunking.

(** The loop variables of [chunk_text] when no overlap is asked for and
    no paragraph is split: the chunk being built is not longer than the
    loop counts, and nothing exceeds the bound by more than one
    separator. *)
Definition state_ok (max_chars : Z) (st : state) : Prop :=
Forall (fun chunk => len chunk <= max_chars + 2) (chunks st)
/\ match current_chunk st with
   | [] => current_length st = 0
   | parts =>
       len (join blank_line parts) <= current_length st
       /\ len (join blank_line parts) <= max_chars + 2
   end.

End Spec3.

(** ** Vocabulary of the statements on scores *)

Module Spec4.
Import PyFloat.

(** A number whose sign bit is clear: [0.0], a positive finite value or
    [inf]. *)
Definition not_negative (x : float) : bool :=
match x with
| S754_nan => false
| S754_zero s => negb s
| S754_infinity s => negb s
| S754_finite s _ _ => negb s
end.

End Spec4.


(** ** Vocabulary of the statements on the score of a cached question *)

Module Spec5.
Import PyFloat.

(** 0.9999999999999999, the binary64 value next below 1.0: what the
    weights 0.7, 0.2 and 0.1 add up to. *)
Definition nearly_one : float := S754_finite false 9007199254740991 (-53).

(** A value that is 1.0 or more. *)
Definition at_least_one (x : float) : Prop :=
x = S754_infinity false
\/ exists m e, x = S754_finite false m e
               /\ (-52 < e \/ (e = -52 /\ 2 ^ 52 <= Zpos m)).

End Spec5.

(** * Properties *)

(** ** Strings *)

Section StringFacts.
Import PyStr Spec.

Lemma startswith_app (p s : string) : startswith p (p ++ s) = true.
Proof.
  induction p as [|a p IH]; simpl; [reflexivity|].
  now rewrite Ascii.eqb_refl, IH.
Qed.

Lemma startswith_spec (p s : string) :
  startswith p s = true <-> exists post, s = p ++ post.
Proof.
  split.
  - revert s; induction p as [|a p IH]; intros s H; simpl in *.
    + now exists s.
    + destruct s as [|b s]; [discriminate|].
      apply andb_true_iff in H as [Hab Hps].
      apply Ascii.eqb_eq in Hab; subst b.
      destruct (IH _ Hps) as [post ->]. now exists post.
  - intros [post ->]. apply startswith_app.
Qed.

Lemma contains_startswith (n s : string) :
  startswith n s = true -> contains n s = true.
Proof. intros H. destruct s; simpl in *; now rewrite H. Qed.

Lemma contains_spec (n s : string) :
  contains n s = true <-> Spec.occurs n s.
Proof.
  unfold Spec.occurs; split.
  - induction s as [|c s IH]; simpl; intros H.
    + rewrite orb_false_r in H. apply startswith_spec in H as [post ->].
      now exists EmptyString, post.
    + apply orb_true_iff in H as [H|H].
      * apply startswith_spec in H as [post ->]. now exists EmptyString, post.
      * destruct (IH H) as (pre & post & ->). now exists (String c pre), post.
  - intros (pre & post & ->).
    induction pre as [|c pre IH]; simpl.
    + apply contains_startswith, startswith_app.
    + rewrite IH. apply orb_true_r.
Qed.

Lemma map_chars_app (f : ascii -> ascii) (a b : string) :
  map_chars f (a ++ b) = map_chars f a ++ map_chars f b.
Proof. induction a as [|c a IH]; simpl; [reflexivity | now rewrite IH]. Qed.

Lemma map_chars_app_inv (f : ascii -> ascii) (s a b : string) :
  map_chars f s = a ++ b ->
  exists s1 s2, s = s1 ++ s2 /\ map_chars f s1 = a /\ map_chars f s2 = b.
Proof.
  revert s; induction a as [|c a IH]; intros s H; simpl in *.
  - now exists EmptyString, s.
  - destruct s as [|d s]; simpl in H; [discriminate|].
    injection H as Hc Hs.
    destruct (IH _ Hs) as (s1 & s2 & -> & H1 & H2).
    exists (String d s1), s2. simpl. now rewrite Hc, H1.
Qed.

Lemma contains_lstrip (n s : string) :
  starts_solid n = true -> contains n (lstrip s) = contains n s.
Proof.
  intros Hn. induction s as [|c s IH]; [reflexivity|].
  simpl lstrip. destruct (is_space c) eqn:Hc; [|reflexivity].
  rewrite IH. simpl.
  destruct n as [|a n]; [discriminate|]. simpl in *.
  destruct (Ascii.eqb a c) eqn:E; [|reflexivity].
  apply Ascii.eqb_eq in E; subst a. now rewrite Hc in Hn.
Qed.

Lemma startswith_rstrip (n s : string) :
  ends_solid n = true -> startswith n (rstrip s) = startswith n s.
Proof.
  unfold rstrip. revert n; induction s as [|c s IH]; intros n Hn.
  - reflexivity.
  - destruct n as [|a n]; [discriminate|].
    simpl rstrip_by. destruct n as [|a' n].
    + simpl in Hn.
      destruct (rstrip_by is_space s) eqn:E.
      * destruct (is_space c) eqn:Hc; simpl.
        -- destruct (Ascii.eqb a c) eqn:Eac; [|reflexivity].
           apply Ascii.eqb_eq in Eac; subst a. now rewrite Hc in Hn.
        -- now rewrite !andb_true_r.
      * simpl. now rewrite !andb_true_r.
    + assert (Hn' : ends_solid (String a' n) = true) by exact Hn.
      specialize (IH _ Hn').
      change (startswith (String a (String a' n)) (String c s))
        with (Ascii.eqb a c && startswith (String a' n) s).
      rewrite <- IH.
      destruct (rstrip_by is_space s) eqn:E.
      * rewrite andb_false_r.
        destruct (is_space c); simpl; [reflexivity|].
        apply andb_false_r.
      * reflexivity.
Qed.

Lemma contains_rstrip (n s : string) :
  ends_solid n = true -> contains n (rstrip s) = contains n s.
Proof.
  intros Hn. induction s as [|c s IH]; [reflexivity|].
  pose proof (startswith_rstrip n (String c s) Hn) as Hsw.
  change (contains n (String c s))
    with (startswith n (String c s) || contains n s).
  rewrite <- IH, <- Hsw.
  unfold rstrip in *. simpl rstrip_by.
  destruct (rstrip_by is_space s) eqn:E.
  - destruct n as [|a n]; [discriminate|].
    destruct (is_space c); simpl; rewrite ?orb_false_r; reflexivity.
  - reflexivity.
Qed.

Lemma contains_strip (n s : string) :
  starts_solid n = true -> ends_solid n = true ->
  contains n (strip s) = contains n s.
Proof.
  intros H1 H2. unfold strip.
  now rewrite contains_rstrip, contains_lstrip.
Qed.

Lemma append_assoc (a b c : string) : (a ++ b) ++ c = a ++ (b ++ c).
Proof. induction a as [|x a IH]; simpl; [reflexivity | now rewrite IH]. Qed.

Lemma append_empty_r (a : string) : a ++ "" = a.
Proof. induction a as [|x a IH]; simpl; [reflexivity | now rewrite IH]. Qed.

Lemma length_append (a b : string) :
  String.length (a ++ b) = (String.length a + String.length b)%nat.
Proof. induction a as [|x a IH]; simpl; [reflexivity | now rewrite IH]. Qed.

Lemma rev_acc_app (s acc : string) : rev_acc s acc = rev s ++ acc.
Proof.
  unfold rev. revert acc; induction s as [|c s IH]; intros acc; simpl.
  - reflexivity.
  - rewrite IH, (IH (String c EmptyString)).
    now rewrite append_assoc.
Qed.

Lemma rev_app (a b : string) : rev (a ++ b) = rev b ++ rev a.
Proof.
  induction a as [|c a IH]; simpl.
  - unfold rev at 2. simpl. now rewrite append_empty_r.
  - unfold rev at 1 3. simpl. rewrite !rev_acc_app, IH.
    now rewrite append_assoc.
Qed.

Lemma endswith_app (a p : string) : endswith p (a ++ p) = true.
Proof. unfold endswith. rewrite rev_app. apply startswith_app. Qed.

(** Where the statement holds a [limit] in some case, the upper-cased
    and stripped text holds [LIMIT], and conversely. *)
Lemma limit_check_spec (query : string) :
  contains "LIMIT" (strip (upper query)) = true
  <-> Spec.occurs_ci "limit" query.
Proof.
  rewrite contains_strip by reflexivity.
  rewrite contains_spec. unfold Spec.occurs, Spec.occurs_ci. split.
  - intros (pre & post & H).
    apply map_chars_app_inv in H as (s1 & s2 & -> & H1 & H2).
    apply map_chars_app_inv in H2 as (m & s3 & -> & Hm & H3).
    exists s1, m, s3. split; [reflexivity | exact Hm].
  - intros (pre & mid & post & -> & Hm).
    exists (upper pre), (upper post).
    unfold upper in *. rewrite !map_chars_app, Hm. reflexivity.
Qed.

End StringFacts.

(** ** [execute_query_with_limit] *)

Section LimitEnforcement.
Import PyStr Spec MySQLClient.

Lemma limited_statement_unchanged (query : string) (limit : Z) :
  occurs_ci "limit" query -> limited_statement query limit = query.
Proof.
  intros H. apply limit_check_spec in H.
  unfold limited_statement. now rewrite H.
Qed.

Lemma limited_statement_appended (query : string) (limit : Z) :
  ~ occurs_ci "limit" query ->
  limited_statement query limit
  = rstrip_semicolon query ++ " LIMIT " ++ str_of_int limit.
Proof.
  intros H. unfold limited_statement.
  destruct (contains "LIMIT" (strip (upper query))) eqn:E; [|reflexivity].
  exfalso. apply H. now apply limit_check_spec.
Qed.

Lemma occurs_ci_weaken (w w' upre upost s : string) :
  upper w' = upre ++ upper w ++ upost -> occurs_ci w' s -> occurs_ci w s.
Proof.
  intros Hw (a & mid & b & -> & Hm).
  rewrite Hw in Hm. unfold upper in Hm.
  apply map_chars_app_inv in Hm as (m1 & m23 & -> & H1 & H23).
  apply map_chars_app_inv in H23 as (m2 & m3 & -> & H2 & H3).
  exists (a ++ m1), m2, (m3 ++ b). split; [|exact H2].
  now rewrite !append_assoc.
Qed.

Lemma rstrip_by_last (drop : ascii -> bool) (s : string) (c : ascii) :
  drop c = true -> endswith (String c "") (rstrip_by drop s) = false.
Proof.
  intros Hc.
  assert (G : forall s, rstrip_by drop s = "" \/
                        exists t a, rstrip_by drop s = t ++ String a ""
                                    /\ drop a = false).
  { clear s. induction s as [|x s IH]; [now left|].
    simpl. destruct IH as [-> | (t & a & -> & Ha)].
    - destruct (drop x) eqn:Hx; [now left|].
      right. now exists "", x.
    - right. exists (String x t), a. split; [|exact Ha].
      destruct t; reflexivity. }
  destruct (G s) as [-> | (t & a & -> & Ha)]; [reflexivity|].
  unfold endswith. rewrite rev_app. simpl.
  destruct (Ascii.eqb c a) eqn:E; [|reflexivity].
  apply Ascii.eqb_eq in E; subst a. congruence.
Qed.

(** C10: a statement in which the letters [limit] occur anywhere, in any
    letter case, is executed unchanged: no [LIMIT] bound is appended. *)
Theorem C10_limit_letters_skip_the_bound :
  forall (Params Rows : Type) (execute_query : string -> Params -> Rows)
         (query : string) (limit : Z) (params : Params),
    occurs_ci "limit" query ->
    execute_query_with_limit Params Rows execute_query query limit params
    = execute_query query params.
Proof.
  intros. unfold execute_query_with_limit.
  now rewrite limited_statement_unchanged.
Qed.

Lemma C10_witness :
  occurs_ci "limit" "SELECT credit_Limit FROM accounts"
  /\ execute_query_with_limit unit string (fun q _ => q)
       "SELECT credit_Limit FROM accounts" 10 tt
     = "SELECT credit_Limit FROM accounts".
Proof.
  assert (H : occurs_ci "limit" "SELECT credit_Limit FROM accounts").
  { exists "SELECT credit_", "Limit", " FROM accounts". split; reflexivity. }
  split; [exact H|].
  exact (C10_limit_letters_skip_the_bound unit string (fun q _ => q)
           "SELECT credit_Limit FROM accounts" 10 tt H).
Defined.

(** C8, as the specification states it, fails: a statement without the
    keyword [LIMIT] is executed as it is, with no bound, when one of its
    identifiers holds the letters. *)
Lemma C8_counterexample :
  has_limit_keyword "SELECT credit_limit FROM accounts;" = false
  /\ limited_statement "SELECT credit_limit FROM accounts;" 7
     = "SELECT credit_limit FROM accounts;"
  /\ endswith "LIMIT 7"
       (limited_statement "SELECT credit_limit FROM accounts;" 7) = false.
Proof. repeat split; reflexivity. Qed.

(** C8, amended: an ASCII statement in which the letters [limit] occur
    in no letter case is executed with its trailing semicolons removed
    and [LIMIT <limit>] appended; a statement that holds [LIMIT 3] in
    some letter case is executed unchanged. *)
Theorem C8_limit_appended_when_letters_absent :
  forall (query : string) (limit : Z),
    (isascii query = true ->
     ~ occurs_ci "limit" query ->
     limited_statement query limit
     = rstrip_semicolon query ++ " LIMIT " ++ str_of_int limit
     /\ endswith ("LIMIT " ++ str_of_int limit)
                 (limited_statement query limit) = true
     /\ endswith ";" (rstrip_semicolon query) = false)
    /\ (occurs_ci "LIMIT 3" query -> limited_statement query limit = query).
Proof.
  intros query limit. split.
  - intros _ H. rewrite (limited_statement_appended _ _ H).
    repeat split.
    + change (rstrip_semicolon query ++ " LIMIT " ++ str_of_int limit)
        with (rstrip_semicolon query ++ " " ++ ("LIMIT " ++ str_of_int limit)).
      rewrite <- append_assoc. apply endswith_app.
    + apply rstrip_by_last. reflexivity.
  - intros H. apply limited_statement_unchanged.
    apply (occurs_ci_weaken "limit" "LIMIT 3" "" " 3"); [|exact H].
    reflexivity.
Qed.

Lemma C8_witness :
  (isascii "SELECT * FROM visit;;" = true
   /\ ~ occurs_ci "limit" "SELECT * FROM visit;;"
   /\ limited_statement "SELECT * FROM visit;;" 7
      = "SELECT * FROM visit LIMIT 7")
  /\ (occurs_ci "LIMIT 3" "select * from visit limit 3"
      /\ limited_statement "select * from visit limit 3" 7
         = "select * from visit limit 3").
Proof.
  assert (H0 : isascii "SELECT * FROM visit;;" = true) by reflexivity.
  assert (H1 : ~ occurs_ci "limit" "SELECT * FROM visit;;").
  { intros H. apply limit_check_spec in H. discriminate H. }
  assert (H2 : occurs_ci "LIMIT 3" "select * from visit limit 3").
  { exists "select * from visit ", "limit 3", "". split; reflexivity. }
  split.
  - split; [exact H0|]. split; [exact H1|].
    exact (proj1 (proj1 (C8_limit_appended_when_letters_absent
                           "SELECT * FROM visit;;" 7) H0 H1)).
  - split; [exact H2|].
    exact (proj2 (C8_limit_appended_when_letters_absent
                    "select * from visit limit 3" 7) H2).
Defined.
End LimitEnforcement.

(** ** The heuristic SQL path *)

Section HeuristicSql.
Import PyStr SQLGenerator.

(** The module never binds [re], which [_extract_conditions] reads on
    its first line: with the namespace of the source file the heuristic
    path raises for every query. *)
Lemma generate_sql_without_llm_raises (query : string) (limit : Z) :
  generate_sql_without_llm query limit = Raise (NameError "re").
Proof. reflexivity. Qed.

(** The table the path computes for the second phrase before it
    raises is [subjinfo]: the phrase holds the keyword [subject],
    which comes before [adverse] in the table mapping. *)
Lemma second_phrase_table :
  _extract_table (lower "list adverse events for subject 100") = "subjinfo".
Proof. reflexivity. Qed.

(** C1: the heuristic path of the module as it stands returns a
    statement for neither phrase.  It raises [NameError]: the name
    [re], which [_extract_conditions] reads, is bound nowhere in the
    module. *)
Theorem C1_heuristic_path_raises_for_both_phrases :
  forall limit : Z,
    generate_sql_without_llm "how many patients are male" limit
    = Raise (NameError "re")
    /\ generate_sql_without_llm "list adverse events for subject 100" limit
       = Raise (NameError "re").
Proof. intros limit. split; reflexivity. Qed.
End HeuristicSql.

(** ** Request validation *)

Section Validation.
Import Api.

(** C9, as the specification states it, fails: a request whose [top_k]
    is negative passes validation and reaches the retrieval call with
    that value; one whose [top_k] is zero passes too and is searched
    with the configured default. *)
Lemma C9_counterexample :
  chat_search_call (mk_ChatRequest "age of subject 100" (Some (-3))) (Some 5)
  = Ok ("age of subject 100", -3)
  /\ chat_search_call (mk_ChatRequest "age of subject 100" (Some 0)) (Some 5)
     = Ok ("age of subject 100", 5).
Proof. split; reflexivity. Qed.

(** C9, amended: validation rejects a request exactly when its query is
    the empty string, whatever [top_k] holds; an accepted request is
    searched with its own [top_k] when that is a non-zero integer and
    with the configured default when it is absent or zero. *)
Theorem C9_only_the_empty_query_is_rejected :
  forall (q : string) (k : option Z) (config_top_k : option Z),
    (q = "" ->
     chat_search_call (mk_ChatRequest q k) config_top_k
     = Raise (ValidationError "query"))
    /\ (q <> "" ->
        chat_search_call (mk_ChatRequest q k) config_top_k
        = Ok (q, match k with
                 | Some n => if n =? 0
                             then match config_top_k with
                                  | Some d => d | None => 5 end
                             else n
                 | None => match config_top_k with
                           | Some d => d | None => 5 end
                 end)).
Proof.
  intros q k c. split.
  - intros ->. reflexivity.
  - intros Hq. destruct q as [|a q]; [congruence|].
    unfold chat_search_call, validate, effective_top_k, or_default. simpl.
    destruct k as [n|]; reflexivity.
Qed.

Lemma C9_witness :
  ("" = "" /\ chat_search_call (mk_ChatRequest "" (Some 3)) (Some 5)
              = Raise (ValidationError "query"))
  /\ ("how many patients" <> ""
      /\ chat_search_call (mk_ChatRequest "how many patients" (Some (-1)))
           (Some 5)
         = Ok ("how many patients", -1)).
Proof.
  assert (H : "how many patients" <> "") by discriminate.
  split; (split; [first [reflexivity | exact H]|]).
  - exact (proj1 (C9_only_the_empty_query_is_rejected "" (Some 3) (Some 5))
             eq_refl).
  - exact (proj2 (C9_only_the_empty_query_is_rejected "how many patients"
                    (Some (-1)) (Some 5)) H).
Defined.
End Validation.

(** ** Schema migration *)

Section MigrationFacts.
Import PyStr Migration.

Lemma rev_map_chars (f : ascii -> ascii) (s : string) :
  rev (map_chars f s) = map_chars f (rev s).
Proof.
  induction s as [|c s IH]; [reflexivity|].
  change (String c s) with (String c "" ++ s).
  rewrite map_chars_app, !rev_app, map_chars_app, IH. reflexivity.
Qed.

Lemma lower_char_not_upper (c : ascii) : is_upper (lower_char c) = false.
Proof. destruct c as [[] [] [] [] [] [] [] []]; reflexivity. Qed.

(** A lower-cased name does not end in a suffix whose last letter is a
    capital. *)
Lemma endswith_lower (a : ascii) (p s : string) :
  is_upper a = true -> endswith (p ++ String a "") (lower s) = false.
Proof.
  intros Ha. unfold endswith, lower.
  rewrite rev_app, rev_map_chars. simpl.
  destruct (rev s) as [|c r]; [reflexivity|]. simpl.
  destruct (Ascii.eqb a (lower_char c)) eqn:E; [|reflexivity].
  apply Ascii.eqb_eq in E. rewrite E, lower_char_not_upper in Ha.
  discriminate.
Qed.

(** C7: the code gives every integer column [BIGINT], also a column whose
    name ends in [FLG] or [CD]: the suffix test is made in capitals on a
    name that was lower-cased before. *)
Theorem C7_integer_columns_are_always_bigint :
  forall (name : string) (n_rows : Z) (max_len : option Z),
    migrated_type n_rows (mk_column name Integer max_len) = "BIGINT".
Proof.
  intros name n_rows max_len.
  unfold migrated_type, get_mysql_type, clean_column_name. simpl.
  rewrite (endswith_lower "G" "FL"), (endswith_lower "D" "C"); reflexivity.
Qed.

(** The failing column of C7, and the type the same function gives to
    the name as the source data writes it. *)
Lemma flag_column_is_bigint :
  migrated_type 10 (mk_column "SAEASFLG" Integer None) = "BIGINT"
  /\ get_mysql_type "SAEASFLG" Integer 10 None = "INT"
  /\ column_comment (clean_column_name "SAEASFLG")
     = "Flag/indicator field (0/1 or Y/N)".
Proof. repeat split; reflexivity. Qed.

Lemma primary_key_candidates_short (columns : list string) :
  primary_key_candidates columns
  = if mem "subjid" columns then ["subjid"]
    else if mem "usubjid" columns then ["usubjid"] else [].
Proof.
  unfold primary_key_candidates.
  destruct (mem "subjid" columns), (mem "usubjid" columns); reflexivity.
Qed.

(** C6: the statement never declares a composite key.  The list of
    candidates holds at most one name, so the branch that reads the
    composite-key map is not reached. *)
Theorem C6_primary_key_is_a_single_column :
  forall (table_name : string) (columns : list string),
    primary_key_clause table_name columns
    = if mem "subjid" columns
      then "," ++ String Chunking.newline "PRIMARY KEY (`subjid`)"
      else if mem "usubjid" columns
           then "," ++ String Chunking.newline "PRIMARY KEY (`usubjid`)"
           else "".
Proof.
  intros table_name columns. unfold primary_key_clause.
  rewrite primary_key_candidates_short.
  destruct (mem "subjid" columns), (mem "usubjid" columns); reflexivity.
Qed.

(** The failing input of C6: the [events] table with its three key
    columns. *)
Lemma events_table_key :
  create_sql "events"
    [ mk_column "SUBJID" Integer None; mk_column "AEID" Integer None;
      mk_column "AESEQID" Integer None ] 3 ""
  = "CREATE TABLE IF NOT EXISTS `events` (" ++ String Chunking.newline
      ("`subjid` BIGINT COMMENT 'Subject ID - Primary identifier for patient',"
       ++ String Chunking.newline
      ("`aeid` BIGINT," ++ String Chunking.newline
      ("`aeseqid` BIGINT," ++ String Chunking.newline
      ("PRIMARY KEY (`subjid`)" ++ String Chunking.newline ")")))).
Proof. reflexivity. Qed.

End MigrationFacts.

(** ** Chunking *)

Section ChunkingFacts.
Import PyStr Chunking.

Lemma chunk_text_blank (text : string) (max_tokens overlap : Z) :
  strip text = "" -> chunk_text text max_tokens overlap = [].
Proof.
  intros H. unfold chunk_text. rewrite H. simpl.
  now rewrite orb_true_r.
Qed.

Lemma chunk_text_min_length (text : string) (max_tokens overlap : Z) :
  forall chunk, In chunk (chunk_text text max_tokens overlap) ->
                50 < len (strip chunk).
Proof.
  intros chunk H. unfold chunk_text in H.
  destruct (negb (nonempty text) || negb (nonempty (strip text)));
    [contradiction|].
  apply filter_In in H as [_ H]. now apply Z.ltb_lt.
Qed.

(** C4: with [max_tokens = 20] and [overlap = 5] two paragraphs of 59 and
    69 characters, neither holding a sentence longer than 80 characters,
    give a second chunk of 91 characters: the tail of the first chunk is
    put before the paragraph without being counted against the bound. *)
Theorem C4_overlap_pushes_a_chunk_over_the_bound :
  let p1 := "The study enrolled adult patients. Dosing was once per day." in
  let p2 :=
    "Adverse events were graded weekly. Serious events were reported fast." in
  let text := p1 ++ blank_line ++ p2 in
  chunk_text text 20 5 = [p1; "ng was once per day." ++ blank_line ++ p2]
  /\ map len (chunk_text text 20 5) = [59; 91]
  /\ forallb (fun s => len s <=? 20 * 4)
             (flat_map split_sentences (split_paragraphs text)) = true.
Proof. repeat split; reflexivity. Qed.

(** The same excess without any overlap: sentences are counted with one
    separating character and joined with two. *)
Lemma sentence_separator_pushes_a_chunk_over_the_bound :
  let text := join " " (repeat "aaaaaaa." 18) in
  map len (chunk_text text 20 0) = [80; 88].
Proof. reflexivity. Qed.

End ChunkingFacts.

(** ** Answer normalisation *)

Section NormalisationFacts.
Import PyStr PromptExamples.

(** C5: for a co-occurrence table with [n = 12] and an odds ratio of
    1.125 the runtime normalisation returns the summary alone; the copy
    of the conversion in the cleaning script appends the odds-ratio
    sentence. *)
Theorem C5_runtime_copy_drops_the_odds_ratio :
  forall (repr : json -> string)
         (render_other_shape : list (string * json) -> result (option string))
         (question : string),
    let table :=
      JDict [ ("n", JInt 12); ("a_responder_and_immune", JInt 3);
              ("b_responder_no_immune", JInt 4);
              ("c_nonresponder_immune", JInt 2);
              ("d_nonresponder_no_immune", JInt 3);
              ("odds_ratio", JFloat (PyFloat.int_truediv 9 8)) ] in
    let summary :=
      "Analysis of 12 patients shows: 3 responders with immune-related AEs, "
      ++ "4 responders without immune AEs, 2 non-responders with immune AEs, "
      ++ "and 3 non-responders without immune AEs." in
    _clean_answer repr render_other_shape question table = Ok (Some summary)
    /\ convert_structured_to_natural_language repr render_other_shape
         question table
       = Ok (Some (summary ++ " The odds ratio is 1.12.")).
Proof. intros. split; reflexivity. Qed.

End NormalisationFacts.

(** ** Order on binary64 values *)

Section FloatOrder.
Import PyFloat.

Lemma compare_cont_antisym (p q : positive) :
  Pos.compare_cont Eq q p = CompOpp (Pos.compare_cont Eq p q).
Proof. apply Pos.compare_antisym. Qed.

Lemma SFcompare_antisym (x y : float) :
  SFcompare y x = match SFcompare x y with
                  | Some c => Some (CompOpp c)
                  | None => None
                  end.
Proof.
  destruct x as [sx|sx| |sx mx ex], y as [sy|sy| |sy my ey]; simpl;
    try reflexivity;
    try (destruct sx; reflexivity);
    try (destruct sy; reflexivity);
    try (destruct sx, sy; reflexivity).
  destruct sx, sy; try reflexivity;
    rewrite (Z.compare_antisym ex ey);
    destruct (ex ?= ey); simpl; try reflexivity;
    rewrite (compare_cont_antisym mx my);
    destruct (Pos.compare_cont Eq mx my); reflexivity.
Qed.

Lemma SFcompare_defined (x y : float) :
  is_nan x = false -> is_nan y = false -> exists c, SFcompare x y = Some c.
Proof.
  destruct x, y; simpl; intros; try discriminate; eauto.
Qed.

Lemma flt_leb (x y : float) : flt x y = true -> SFleb x y = true.
Proof.
  unfold flt, SFltb, SFleb. destruct (SFcompare x y) as [[]|]; congruence.
Qed.

Lemma not_flt_leb (x y : float) :
  is_nan x = false -> is_nan y = false ->
  flt x y = false -> SFleb y x = true.
Proof.
  intros Hx Hy. unfold flt, SFltb, SFleb.
  rewrite (SFcompare_antisym x y).
  destruct (SFcompare_defined x y Hx Hy) as [c ->].
  destruct c; simpl; congruence.
Qed.

End FloatOrder.

(** ** Sorting and slicing *)

Section SortFacts.
Import PromptExamples.
Context {A K : Type}.
Variable ltb : K -> K -> bool.
Variable key : A -> K.

Lemma insert_desc_In (x y : A) (l : list A) :
  In y (insert_desc ltb key x l) <-> y = x \/ In y l.
Proof.
  induction l as [|z l IH]; simpl.
  - intuition.
  - destruct (ltb (key x) (key z)); simpl; rewrite ?IH; intuition.
Qed.

Lemma sort_desc_In (y : A) (l : list A) :
  In y (sort_desc ltb key l) <-> In y l.
Proof.
  induction l as [|x l IH]; simpl; [tauto|].
  rewrite insert_desc_In, IH. intuition.
Qed.

Lemma sort_desc_Forall (P : A -> Prop) (l : list A) :
  Forall P l -> Forall P (sort_desc ltb key l).
Proof.
  rewrite !Forall_forall. intros H y Hy. apply H, sort_desc_In, Hy.
Qed.

Lemma firstn_incl (n : nat) (l : list A) (y : A) :
  In y (firstn n l) -> In y l.
Proof.
  intros H. rewrite <- (firstn_skipn n l). apply in_or_app. now left.
Qed.

Lemma slice_to_incl (n : Z) (l : list A) (y : A) :
  In y (slice_to n l) -> In y l.
Proof.
  unfold slice_to. destruct (0 <=? n); apply firstn_incl.
Qed.

Lemma slice_to_Forall (P : A -> Prop) (n : Z) (l : list A) :
  Forall P l -> Forall P (slice_to n l).
Proof.
  rewrite !Forall_forall. intros H y Hy. eapply H, slice_to_incl, Hy.
Qed.

Lemma slice_to_length (n : Z) (l : list A) :
  0 <= n -> Z.of_nat (List.length (slice_to n l)) <= n.
Proof.
  intros Hn. unfold slice_to.
  destruct (0 <=? n) eqn:E; [|apply Z.leb_gt in E; lia].
  pose proof (firstn_le_length (Z.to_nat n) l). rewrite length_firstn. lia.
Qed.

Lemma firstn_Sorted (R : A -> A -> Prop) (n : nat) (l : list A) :
  Sorted R l -> Sorted R (firstn n l).
Proof.
  revert l; induction n as [|n IH]; intros l H; simpl; [constructor|].
  destruct l as [|x l]; [constructor|].
  inversion H as [|? ? Hs Hh]; subst. constructor; [apply IH, Hs|].
  destruct n; simpl; [constructor|].
  destruct l as [|y l]; [constructor|].
  inversion Hh; subst. now constructor.
Qed.

Lemma slice_to_Sorted (R : A -> A -> Prop) (n : Z) (l : list A) :
  Sorted R l -> Sorted R (slice_to n l).
Proof. intros H. unfold slice_to. destruct (0 <=? n); now apply firstn_Sorted. Qed.

End SortFacts.

Section SortMap.
Import PromptExamples.
Context {A B K : Type}.
Variable ltb : K -> K -> bool.
Variable key : B -> K.
Variable f : A -> B.

Lemma insert_desc_map (x : A) (l : list A) :
  map f (insert_desc ltb (fun a => key (f a)) x l)
  = insert_desc ltb key (f x) (map f l).
Proof.
  induction l as [|y l IH]; simpl; [reflexivity|].
  destruct (ltb (key (f x)) (key (f y))); simpl; now rewrite ?IH.
Qed.

Lemma sort_desc_map (l : list A) :
  map f (sort_desc ltb (fun a => key (f a)) l) = sort_desc ltb key (map f l).
Proof.
  induction l as [|x l IH]; simpl; [reflexivity|].
  now rewrite insert_desc_map, IH.
Qed.

Lemma slice_to_map (n : Z) (l : list A) :
  map f (slice_to n l) = slice_to n (map f l).
Proof.
  unfold slice_to. rewrite length_map.
  destruct (0 <=? n); now rewrite firstn_map.
Qed.

End SortMap.

(** ** Combination of results *)

Section CombineFacts.
Import PyFloat PromptExamples Hybrid Spec.

Lemma insert_desc_sorted (x : hit) (l : list hit) :
  PyFloat.is_nan (get_score x) = false -> nan_free l ->
  non_increasing l -> non_increasing (insert_desc flt get_score x l).
Proof.
  unfold non_increasing, nan_free. intros Hx Hl Hs.
  induction l as [|y l IH]; simpl.
  - repeat constructor.
  - inversion Hl as [|? ? Hy Hl']; subst.
    inversion Hs as [|? ? Hs' Hh]; subst.
    destruct (flt (get_score x) (get_score y)) eqn:E.
    + constructor; [apply IH; assumption|].
      destruct l as [|z l]; simpl.
      * constructor. now apply flt_leb.
      * destruct (flt (get_score x) (get_score z)).
        -- inversion Hh; subst. now constructor.
        -- constructor. now apply flt_leb.
    + constructor; [assumption|]. constructor. now apply not_flt_leb.
Qed.

Lemma sort_desc_sorted (l : list hit) :
  nan_free l -> non_increasing (sort_desc flt get_score l).
Proof.
  intros H. induction H as [|x l Hx Hl IH]; simpl.
  - constructor.
  - apply insert_desc_sorted; [assumption | | assumption].
    now apply sort_desc_Forall.
Qed.

Lemma combined_tagged_erase (pdf sas ctx : list hit) (ev : evaluation) :
  map snd (combined_tagged pdf sas ctx ev) = combined_unsorted pdf sas ctx ev.
Proof.
  assert (T : forall s l, map snd (tagged s l) = l).
  { intros s l. unfold tagged. rewrite map_map. apply map_id. }
  unfold combined_tagged, combined_unsorted, source_quality.
  rewrite !map_app.
  repeat match goal with
         | |- context [if ?b then _ else _] => destruct b
         end; simpl; rewrite ?T; reflexivity.
Qed.

Lemma combine_tagged_erase (query : string) (pdf sas ctx : list hit)
    (ev : evaluation) (top_k : Z) :
  map snd (combine_tagged pdf sas ctx ev top_k)
  = _combine_results_intelligently query pdf sas ctx ev top_k.
Proof.
  unfold combine_tagged, _combine_results_intelligently.
  rewrite slice_to_map, (sort_desc_map flt get_score snd).
  now rewrite combined_tagged_erase.
Qed.

Lemma combined_tagged_quality (pdf sas ctx : list hit) (ev : evaluation) :
  Forall (fun sh => flt f0_3 (source_quality ev (fst sh)) = true)
         (combined_tagged pdf sas ctx ev).
Proof.
  assert (T : forall s l, flt f0_3 (source_quality ev s) = true ->
                          Forall (fun sh => flt f0_3 (source_quality ev (fst sh))
                                            = true) (tagged s l)).
  { intros s l H. unfold tagged. apply Forall_forall.
    intros sh Hin. apply in_map_iff in Hin as (h & <- & _). exact H. }
  unfold combined_tagged.
  destruct (flt f0_3 (source_quality ev FromPdf)) eqn:Epdf;
    destruct (flt f0_3 (source_quality ev FromSas)) eqn:Esas;
    destruct (flt f0_3 (source_quality ev FromContext)) eqn:Ectx;
    rewrite ?andb_true_r, ?andb_false_r;
    (apply Forall_app; split; [|apply Forall_app; split]);
    repeat match goal with
           | |- Forall _ (if ?b then _ else _) => destruct b
           | |- Forall _ [] => constructor
           | |- Forall _ (tagged _ _) => apply T; assumption
           end.
Qed.

(** C3, as the specification states it, fails.  With a negative [top_k]
    the slice drops the last entries only, so more than [2 * top_k]
    remain; and a quality of [+inf] turns a raw score of 0 into a NaN,
    which the sort leaves ahead of a larger score. *)
Lemma C3_counterexample :
  let r (s : float) := mk_hit "pdf" "chunk" (Some s) "text" [] in
  let use_pdf (q : float) := mk_evaluation (Some "use_pdf") (Some q) None None in
  (let out := _combine_results_intelligently "q"
                [r f1_0; r f0_5; r f0_2] [] [] (use_pdf f0_7) (-1) in
   List.length out = 1%nat
   /\ (Z.of_nat (List.length out) <=? 2 * (-1)) = false)
  /\ (let out := _combine_results_intelligently "q"
                   [r f0_0; r f1_0] [] [] (use_pdf (S754_infinity false)) 5 in
      map get_score out = [S754_nan; S754_infinity false]
      /\ ~ non_increasing out).
Proof.
  simpl. split; [split; reflexivity|]. split; [reflexivity|].
  intros H. inversion H as [|? ? _ Hh]; subst.
  inversion Hh as [|? ? Hle]; subst. discriminate Hle.
Qed.

(** C3, amended: for [top_k >= 0] and adjusted scores none of which is a
    NaN, the combined list has non-increasing scores and at most
    [2 * top_k] entries, and each entry was taken from a source whose
    quality exceeds 0.3. *)
Theorem C3_combined_results_sorted_bounded_filtered :
  forall (query : string) (pdf sas ctx : list hit) (ev : evaluation)
         (top_k : Z),
    0 <= top_k ->
    nan_free (combined_unsorted pdf sas ctx ev) ->
    let out := _combine_results_intelligently query pdf sas ctx ev top_k in
    non_increasing out
    /\ Z.of_nat (List.length out) <= 2 * top_k
    /\ map snd (combine_tagged pdf sas ctx ev top_k) = out
    /\ Forall (fun sh => flt f0_3 (source_quality ev (fst sh)) = true)
              (combine_tagged pdf sas ctx ev top_k).
Proof.
  intros query pdf sas ctx ev top_k Hk Hnan out. subst out.
  repeat split.
  - unfold _combine_results_intelligently.
    apply slice_to_Sorted, sort_desc_sorted, Hnan.
  - unfold _combine_results_intelligently.
    pose proof (slice_to_length (top_k * 2)
                  (sort_desc flt get_score (combined_unsorted pdf sas ctx ev))).
    lia.
  - apply combine_tagged_erase.
  - unfold combine_tagged.
    apply slice_to_Forall, sort_desc_Forall, combined_tagged_quality.
Qed.

Lemma C3_witness :
  let r (s : float) := mk_hit "pdf" "chunk" (Some s) "text" [] in
  let c (s : float) := mk_hit "context" "context_0" (Some s) "answer" [] in
  let ev := mk_evaluation (Some "use_both") (Some f0_2) (Some f0_7) (Some f0_8) in
  let pdf := [r f1_0; r f0_5] in
  let ctx := [c f0_5; c f1_0; c f0_7] in
  (0 <= 1 /\ nan_free (combined_unsorted pdf [] ctx ev))
  /\ (let out := _combine_results_intelligently "q" pdf [] ctx ev 1 in
      non_increasing out
      /\ Z.of_nat (List.length out) <= 2 * 1
      /\ map snd (combine_tagged pdf [] ctx ev 1) = out
      /\ Forall (fun sh => flt f0_3 (source_quality ev (fst sh)) = true)
                (combine_tagged pdf [] ctx ev 1)).
Proof.
  intros r c ev pdf ctx.
  assert (H1 : 0 <= 1) by lia.
  assert (H2 : nan_free (combined_unsorted pdf [] ctx ev)).
  { repeat constructor. }
  split; [split; assumption|].
  exact (C3_combined_results_sorted_bounded_filtered
           "q" pdf [] ctx ev 1 H1 H2).
Defined.

(** The witness of C3: the source of quality 0.2 gives nothing, the two
    best cached answers remain. *)
Lemma combine_example :
  let r (s : float) := mk_hit "pdf" "chunk" (Some s) "text" [] in
  let c (s : float) := mk_hit "context" "context_0" (Some s) "answer" [] in
  let ev := mk_evaluation (Some "use_both") (Some f0_2) (Some f0_7) (Some f0_8) in
  map corpus (_combine_results_intelligently "q" [r f1_0; r f0_5] []
                [c f0_5; c f1_0; c f0_7] ev 1)
  = ["context"; "context"].
Proof. reflexivity. Qed.

End CombineFacts.

(** ** The SQL paths *)

Section SqlPathFacts.
Import PyStr Spec MySQLClient SQLGenerator SqlPaths.

Lemma occurs_ci_app (w s pre post : string) :
  occurs_ci w s -> occurs_ci w (pre ++ s ++ post).
Proof.
  intros (a & mid & b & -> & Hm).
  exists (pre ++ a), mid, (b ++ post). split; [|exact Hm].
  now rewrite !append_assoc.
Qed.

Lemma occurs_ci_here (w pre post : string) : occurs_ci w (pre ++ w ++ post).
Proof. exists pre, w, post. split; reflexivity. Qed.

Lemma upper_limit_check (s : string) :
  contains "LIMIT" (upper s) = true <-> occurs_ci "limit" s.
Proof.
  rewrite <- limit_check_spec. now rewrite contains_strip by reflexivity.
Qed.

Lemma limit_suffix_occurs (body : string) (limit : Z) :
  occurs_ci "limit" (body ++ " LIMIT " ++ str_of_int limit).
Proof.
  exists (body ++ " "), "LIMIT", (" " ++ str_of_int limit).
  split; [|reflexivity]. now rewrite append_assoc.
Qed.

(** X1: the bound is added at most once: running a statement that
    [execute_query_with_limit] has already rewritten changes nothing. *)
Theorem X1_limited_statement_idempotent :
  forall (query : string) (limit limit' : Z),
    limited_statement (limited_statement query limit) limit'
    = limited_statement query limit.
Proof.
  intros query limit limit'.
  apply limited_statement_unchanged.
  unfold limited_statement.
  destruct (contains "LIMIT" (strip (upper query))) eqn:E; simpl.
  - now apply limit_check_spec.
  - apply limit_suffix_occurs.
Qed.

Lemma Ok_inj {A : Type} (a b : A) : Ok a = Ok b -> a = b.
Proof. intros H. now injection H. Qed.

(** X3: the statement the LLM path makes of an ASCII reply always holds
    a [LIMIT], the model's own or the one appended, so
    [execute_query_with_limit] runs it as it is. *)
Theorem X3_llm_statement_is_bounded :
  forall (content : string) (limit limit' : Z),
    isascii content = true ->
    occurs_ci "limit" (clean_llm_sql content limit)
    /\ limited_statement (clean_llm_sql content limit) limit'
       = clean_llm_sql content limit.
Proof.
  intros content limit limit' _.
  assert (H : occurs_ci "limit" (clean_llm_sql content limit)).
  { unfold clean_llm_sql.
    match goal with
    | |- context [contains "LIMIT" (upper ?s)] => set (sql := s)
    end.
    destruct (contains "LIMIT" (upper sql)) eqn:E; simpl.
    - now apply upper_limit_check.
    - apply limit_suffix_occurs. }
  split; [exact H | now apply limited_statement_unchanged].
Qed.

Lemma X3_witness :
  isascii "SELECT sex FROM subjinfo;" = true
  /\ clean_llm_sql "SELECT sex FROM subjinfo;" 10
     = "SELECT sex FROM subjinfo LIMIT 10"
  /\ limited_statement (clean_llm_sql "SELECT sex FROM subjinfo;" 10) 5
     = clean_llm_sql "SELECT sex FROM subjinfo;" 10.
Proof.
  assert (H : isascii "SELECT sex FROM subjinfo;" = true) by reflexivity.
  split; [exact H|]. split; [reflexivity|].
  exact (proj2 (X3_llm_statement_is_bounded "SELECT sex FROM subjinfo;" 10 5 H)).
Defined.

(** A fenced reply loses its fences and gets the bound. *)
Lemma clean_llm_sql_fenced :
  clean_llm_sql (fence ++ "sql" ++ String Chunking.newline
                   ("SELECT sex FROM subjinfo;" ++ String Chunking.newline fence))
                10
  = "SELECT sex FROM subjinfo LIMIT 10".
Proof. reflexivity. Qed.

End SqlPathFacts.


Section SqlHeuristicFacts.
Import PyStr Spec MySQLClient SQLGenerator SqlPaths.

Lemma occurs_app (w s pre post : string) :
  occurs w s -> occurs w (pre ++ s ++ post).
Proof.
  intros (a & b & ->). exists (pre ++ a), (b ++ post).
  now rewrite !append_assoc.
Qed.

Lemma occurs_join (sep c : string) (parts : list string) :
  In c parts -> occurs c (join sep parts).
Proof.
  unfold join. induction parts as [|x parts IH]; intros H; [contradiction|].
  destruct H as [-> | H].
  - destruct parts as [|y parts]; simpl.
    + exists "", "". now rewrite append_empty_r.
    + exists "", (sep ++ String.concat sep (y :: parts)). reflexivity.
  - specialize (IH H). destruct parts as [|y parts]; [contradiction|].
    change (String.concat sep (x :: y :: parts))
      with (x ++ sep ++ String.concat sep (y :: parts)).
    rewrite <- (append_empty_r (String.concat sep (y :: parts))).
    rewrite <- append_assoc. now apply occurs_app.
Qed.

(** X4: [generate_simple_search] puts every word of the query into the
    statement as it stands, between the quotes of an [ILIKE] pattern,
    with no escaping; the statement holds its own [LIMIT] and is run
    unchanged. *)
Theorem X4_simple_search_inserts_terms_verbatim :
  forall (query table term : string) (limit limit' : Z),
    In term (split_ws query) ->
    occurs ("text_data ILIKE '%" ++ term ++ "%'")
           (generate_simple_search query table limit)
    /\ limited_statement (generate_simple_search query table limit) limit'
       = generate_simple_search query table limit.
Proof.
  intros query table term limit limit' H. split.
  - unfold generate_simple_search.
    destruct (split_ws query) as [|t ts] eqn:E; [contradiction|].
    set (conditions := map ilike_condition (t :: ts)).
    assert (Hc : In (ilike_condition term) conditions).
    { subst conditions. now apply in_map. }
    apply (occurs_join " OR ") in Hc.
    assert (Ht : occurs ("text_data ILIKE '%" ++ term ++ "%'")
                        (ilike_condition term)).
    { exists "(", (" OR description ILIKE '%" ++ term ++ "%')").
      unfold ilike_condition. simpl. now rewrite !append_assoc. }
    destruct Ht as (a & b & Ht). rewrite Ht in Hc.
    destruct Hc as (a' & b' & Hc).
    change (match conditions with
            | [] => "1=1"
            | _ :: _ => join " OR " conditions
            end) with (join " OR " conditions).
    rewrite Hc.
    exists ("SELECT * FROM " ++ table ++ " WHERE " ++ a' ++ a),
           (b ++ b' ++ " LIMIT " ++ str_of_int limit).
    now rewrite !append_assoc.
  - apply limited_statement_unchanged. unfold generate_simple_search.
    set (w := match map ilike_condition (split_ws query) with
              | [] => "1=1"
              | _ :: _ => join " OR " (map ilike_condition (split_ws query))
              end).
    replace ("SELECT * FROM " ++ table ++ " WHERE " ++ w ++ " LIMIT "
             ++ str_of_int limit)
      with (("SELECT * FROM " ++ table ++ " WHERE " ++ w) ++ " LIMIT "
            ++ str_of_int limit)
      by (now rewrite !append_assoc).
    apply limit_suffix_occurs.
Qed.

Lemma X4_witness :
  In "o'neil" (split_ws "adverse o'neil")
  /\ (occurs ("text_data ILIKE '%" ++ "o'neil" ++ "%'")
             (generate_simple_search "adverse o'neil" "events" 5)
      /\ limited_statement (generate_simple_search "adverse o'neil" "events" 5) 9
         = generate_simple_search "adverse o'neil" "events" 5).
Proof.
  assert (H : In "o'neil" (split_ws "adverse o'neil")).
  { right. left. reflexivity. }
  split; [exact H|].
  exact (X4_simple_search_inserts_terms_verbatim
           "adverse o'neil" "events" "o'neil" 5 9 H).
Defined.

Lemma simple_search_blank (query table : string) (limit : Z) :
  split_ws query = [] ->
  generate_simple_search query table limit
  = "SELECT * FROM " ++ table ++ " WHERE 1=1 LIMIT " ++ str_of_int limit.
Proof. intros H. unfold generate_simple_search. now rewrite H. Qed.

Lemma extract_table_from_first_match (mappings : dict) (query : string) :
  (exists pre keyword table post,
      mappings = (pre ++ (keyword, table) :: post)%list
      /\ contains keyword query = true
      /\ (forall kt, In kt pre -> contains (fst kt) query = false)
      /\ _extract_table_from mappings query = table)
  \/ ((forall kt, In kt mappings -> contains (fst kt) query = false)
      /\ _extract_table_from mappings query = "events").
Proof.
  induction mappings as [|[k t] m IH]; simpl.
  - right. split; [intros kt []|reflexivity].
  - destruct (contains k query) eqn:E.
    + left. exists [], k, t, m. repeat split; auto. intros kt [].
    + destruct IH as [(pre & k' & t' & post & -> & Hk & Hpre & Hres) | [Hall Hres]].
      * left. exists ((k, t) :: pre), k', t', post. repeat split; auto.
        intros kt [<- | Hin]; [exact E | now apply Hpre].
      * right. split; [|exact Hres].
        intros kt [<- | Hin]; [exact E | now apply Hall].
Qed.

(** The tables the heuristic path can name. *)
Lemma extract_table_from_range (mappings : dict) (query : string) :
  _extract_table_from mappings query = "events"
  \/ In (_extract_table_from mappings query) (map snd mappings).
Proof.
  induction mappings as [|[k t] m IH]; simpl; [now left|].
  destruct (contains k query); [right; now left|].
  destruct IH as [IH | IH]; [now left | right; now right].
Qed.

(** X5: [_extract_table] answers with the table of the first keyword of
    the mapping, in the order the mapping is written, that occurs in the
    query, and with [events] when none occurs; the answer is always one
    of the fourteen tables of the mapping. *)
Theorem X5_extract_table_first_keyword_wins :
  forall query : string,
    ((exists pre keyword table post,
         TABLE_MAPPINGS = (pre ++ (keyword, table) :: post)%list
         /\ contains keyword query = true
         /\ (forall kt, In kt pre -> contains (fst kt) query = false)
         /\ _extract_table query = table)
     \/ ((forall kt, In kt TABLE_MAPPINGS -> contains (fst kt) query = false)
         /\ _extract_table query = "events"))
    /\ In (_extract_table query)
          [ "subjinfo"; "events"; "lesions"; "bor"; "visit"; "vitals";
            "cmtpy"; "sdytrt"; "ttevent"; "disposit"; "diag"; "exsum";
            "history"; "pdsumm" ].
Proof.
  intros query. split; [apply extract_table_from_first_match|].
  unfold _extract_table.
  destruct (extract_table_from_range TABLE_MAPPINGS query) as [-> | H].
  - right. now left.
  - revert H. generalize (_extract_table_from TABLE_MAPPINGS query).
    intros t H. simpl in H.
    repeat (destruct H as [<- | H]; [simpl; tauto|]). contradiction.
Qed.

(** X7: with the namespace of the source file, [generate_sql] raises
    [NameError] whenever it reaches the heuristic path: when the LLM is
    switched off, and when the completion call fails or returns no
    content.  [_search_sas_sql] then returns no result and never reaches
    the database. *)
Theorem X7_sql_search_is_empty_without_llm :
  forall (Rows Hit : Type) (execute_query : string -> result Rows)
         (format_rows : Rows -> result (list Hit))
         (reply : result (option string)) (e : exn)
         (query : string) (top_k : Z),
    generate_sql module_globals false reply query top_k
    = Raise (NameError "re")
    /\ generate_sql module_globals true (Raise e) query top_k
       = Raise (NameError "re")
    /\ generate_sql module_globals true (Ok None) query top_k
       = Raise (NameError "re")
    /\ _search_sas_sql Rows Hit execute_query format_rows true module_globals
         false reply query top_k
       = ([], [GenerateSql query top_k])
    /\ _search_sas_sql Rows Hit execute_query format_rows true module_globals
         true (Raise e) query top_k
       = ([], [GenerateSql query top_k]).
Proof. intros. repeat split; reflexivity. Qed.

End SqlHeuristicFacts.


(** ** Chunking a short text *)

Section ShortTextFacts.
Import PyStr Chunking.

Lemma rev_involutive (s : string) : rev (rev s) = s.
Proof.
  induction s as [|c s IH]; [reflexivity|].
  change (String c s) with (String c "" ++ s).
  rewrite rev_app, rev_app, IH. reflexivity.
Qed.

Lemma rev_acc_rev (s cur : string) : rev (rev_acc s cur) = rev cur ++ s.
Proof. now rewrite rev_acc_app, rev_app, rev_involutive. Qed.

Lemma no_newline_cons (c : ascii) (t : string) :
  contains (String newline "") (String c t) = false ->
  Ascii.eqb c newline = false /\ contains (String newline "") t = false.
Proof.
  simpl. intros H. apply orb_false_iff in H as [H1 H2].
  rewrite andb_true_r in H1. rewrite Ascii.eqb_sym. now split.
Qed.

Lemma split_paragraphs_aux_plain (s cur : string) :
  contains (String newline "") s = false ->
  split_paragraphs_aux s 0 cur = [rev cur ++ s].
Proof.
  revert cur. induction s as [|c s IH]; intros cur H.
  - simpl. now rewrite append_empty_r.
  - apply no_newline_cons in H as [Hc Hs].
    cbn [split_paragraphs_aux]. rewrite Hc, (IH _ Hs).
    unfold rev at 1. simpl rev_acc. rewrite rev_acc_app.
    now rewrite append_assoc.
Qed.

Lemma rstrip_by_form (drop : ascii -> bool) (s : string) :
  rstrip_by drop s = ""
  \/ exists t a, rstrip_by drop s = t ++ String a "" /\ drop a = false.
Proof.
  induction s as [|x s IH]; [now left|].
  simpl. destruct IH as [-> | (t & a & -> & Ha)].
  - destruct (drop x) eqn:Hx; [now left|].
    right. now exists "", x.
  - right. exists (String x t), a. split; [|exact Ha].
    destruct t; reflexivity.
Qed.

Lemma rstrip_by_solid (drop : ascii -> bool) (t : string) (a : ascii) :
  drop a = false -> rstrip_by drop (t ++ String a "") = t ++ String a "".
Proof.
  intros Ha. induction t as [|x t IH]; simpl.
  - now rewrite Ha.
  - rewrite IH. destruct t; reflexivity.
Qed.

Lemma rstrip_by_idempotent (drop : ascii -> bool) (s : string) :
  rstrip_by drop (rstrip_by drop s) = rstrip_by drop s.
Proof.
  destruct (rstrip_by_form drop s) as [-> | (t & a & -> & Ha)];
    [reflexivity | now apply rstrip_by_solid].
Qed.

Lemma lstrip_form (s : string) :
  lstrip s = "" \/ exists c t, lstrip s = String c t /\ is_space c = false.
Proof.
  induction s as [|c s IH]; [now left|].
  simpl. destruct (is_space c) eqn:E; [exact IH|].
  right. now exists c, s.
Qed.

Lemma strip_idempotent (s : string) : strip (strip s) = strip s.
Proof.
  unfold strip, rstrip.
  assert (H : lstrip (rstrip_by is_space (lstrip s))
              = rstrip_by is_space (lstrip s)).
  { destruct (lstrip_form s) as [-> | (c & t & -> & Hc)]; [reflexivity|].
    simpl rstrip_by.
    destruct (rstrip_by is_space t); rewrite ?Hc; simpl; now rewrite Hc. }
  rewrite H. apply rstrip_by_idempotent.
Qed.

(** X8: a text without a line break whose stripped length is above 50
    and within [max_tokens * 4] comes back as one chunk, the stripped
    text itself, whatever the overlap. *)
Theorem X8_short_text_is_one_chunk :
  forall (text : string) (max_tokens overlap : Z),
    contains (String newline "") text = false ->
    50 < len (strip text) ->
    len (strip text) <= max_tokens * 4 ->
    chunk_text text max_tokens overlap = [strip text].
Proof.
  intros text max_tokens overlap Hnl Hlo Hhi.
  assert (Hne : nonempty (strip text) = true).
  { destruct (strip text); [simpl in Hlo; unfold len in Hlo; simpl in Hlo; lia
                           | reflexivity]. }
  assert (Hne' : nonempty text = true).
  { destruct text; [discriminate Hne | reflexivity]. }
  unfold chunk_text. rewrite Hne, Hne'. simpl orb. cbv iota.
  unfold split_paragraphs. rewrite (split_paragraphs_aux_plain _ _ Hnl).
  change (rev "" ++ text) with text.
  cbn [fold_left]. unfold paragraph_step.
  rewrite Hne. simpl negb. cbv iota.
  cbn [current_length chunks current_chunk].
  replace (0 + len (strip text) <=? max_tokens * 4) with true
    by (symmetry; apply Z.leb_le; lia).
  cbn [current_length chunks current_chunk flush append app join String.concat
       filter].
  rewrite strip_idempotent.
  replace (50 <? len (strip text)) with true
    by (symmetry; now apply Z.ltb_lt).
  reflexivity.
Qed.

Lemma X8_witness :
  let text := "  The study enrolled adult patients. Dosing was once per day.  " in
  (contains (String newline "") text = false
   /\ 50 < len (strip text) /\ len (strip text) <= 20 * 4)
  /\ chunk_text text 20 5
     = ["The study enrolled adult patients. Dosing was once per day."].
Proof.
  intros text.
  assert (H1 : contains (String newline "") text = false) by reflexivity.
  assert (H2 : 50 < len (strip text)) by reflexivity.
  assert (H3 : len (strip text) <= 20 * 4) by (intros H; discriminate H).
  split; [repeat split; assumption|].
  exact (X8_short_text_is_one_chunk text 20 5 H1 H2 H3).
Defined.

End ShortTextFacts.

(** ** Column names and types *)

Section ColumnFacts.
Import PyStr Migration Spec2.

Lemma map_chars_map_chars (f g : ascii -> ascii) (s : string) :
  map_chars f (map_chars g s) = map_chars (fun c => f (g c)) s.
Proof. induction s as [|c s IH]; simpl; [reflexivity | now rewrite IH]. Qed.

Lemma map_chars_ext (f g : ascii -> ascii) (s : string) :
  (forall c, f c = g c) -> map_chars f s = map_chars g s.
Proof.
  intros H. induction s as [|c s IH]; simpl; [reflexivity|].
  now rewrite H, IH.
Qed.

Lemma map_chars_length (f : ascii -> ascii) (s : string) :
  String.length (map_chars f s) = String.length s.
Proof. induction s as [|c s IH]; simpl; [reflexivity | now rewrite IH]. Qed.

Lemma map_chars_all (f : ascii -> ascii) (p : ascii -> bool) (s : string) :
  (forall c, p (f c) = true) -> all_chars p (map_chars f s) = true.
Proof.
  intros H. induction s as [|c s IH]; simpl; [reflexivity|].
  now rewrite H, IH.
Qed.

Lemma clean_column_name_chars (col : string) :
  clean_column_name col = map_chars clean_one col.
Proof.
  unfold clean_column_name, lower, replace_char.
  now rewrite !map_chars_map_chars.
Qed.

Lemma clean_one_clean (c : ascii) : clean_char (clean_one c) = true.
Proof. destruct c as [[] [] [] [] [] [] [] []]; reflexivity. Qed.

Lemma clean_one_idempotent (c : ascii) : clean_one (clean_one c) = clean_one c.
Proof. destruct c as [[] [] [] [] [] [] [] []]; reflexivity. Qed.

(** X9: the cleaned form of an ASCII column name has the length of the
    name it comes from, holds no blank, dash, dot or capital letter, and
    cleaning it again leaves it as it is. *)
Theorem X9_clean_column_name :
  forall col : string,
    isascii col = true ->
    len (clean_column_name col) = len col
    /\ all_chars clean_char (clean_column_name col) = true
    /\ clean_column_name (clean_column_name col) = clean_column_name col.
Proof.
  intros col _. rewrite !clean_column_name_chars. repeat split.
  - unfold len. now rewrite map_chars_length.
  - apply map_chars_all, clean_one_clean.
  - rewrite map_chars_map_chars.
    apply map_chars_ext, clean_one_idempotent.
Qed.

Lemma X9_witness :
  isascii "Visit-Date of.AE" = true
  /\ clean_column_name "Visit-Date of.AE" = "visit_date_of_ae"
  /\ len (clean_column_name "Visit-Date of.AE") = len "Visit-Date of.AE".
Proof.
  assert (H : isascii "Visit-Date of.AE" = true) by reflexivity.
  split; [exact H|]. split; [reflexivity|].
  exact (proj1 (X9_clean_column_name "Visit-Date of.AE" H)).
Defined.

Lemma varchar_width_table :
  forallb (fun n => let m := Z.of_nat n in
                    (m <=? varchar_width m) && (varchar_width m <=? 255))
          (seq 1 255) = true.
Proof. vm_compute. reflexivity. Qed.

(** X10: for a text column of a frame with rows whose longest value has
    between 1 and 255 characters, the type is [VARCHAR(w)] with [w] at
    least that length and at most 255. *)
Theorem X10_varchar_holds_the_longest_value :
  forall (name : string) (n_rows m : Z),
    0 < n_rows -> 1 <= m <= 255 ->
    get_mysql_type name StringOrObject n_rows (Some m)
    = "VARCHAR(" ++ str_of_int (varchar_width m) ++ ")"
    /\ m <= varchar_width m <= 255.
Proof.
  intros name n_rows m Hrows Hm. split.
  - unfold get_mysql_type.
    replace (0 <? n_rows) with true by (symmetry; apply Z.ltb_lt; lia).
    replace (m =? 0) with false by (symmetry; apply Z.eqb_neq; lia).
    replace (65535 <? m) with false by (symmetry; apply Z.ltb_ge; lia).
    replace (255 <? m) with false by (symmetry; apply Z.ltb_ge; lia).
    reflexivity.
  - pose proof varchar_width_table as T.
    rewrite forallb_forall in T.
    specialize (T (Z.to_nat m)).
    rewrite Z2Nat.id in T by lia.
    assert (Hin : In (Z.to_nat m) (seq 1 255)) by (apply in_seq; lia).
    apply T in Hin. apply andb_true_iff in Hin as [H1 H2].
    apply Z.leb_le in H1, H2. lia.
Qed.

Lemma X10_witness :
  (0 < 10 /\ 1 <= 20 <= 255)
  /\ (get_mysql_type "aeterm" StringOrObject 10 (Some 20) = "VARCHAR(24)"
      /\ 20 <= varchar_width 20 <= 255).
Proof.
  assert (H1 : 0 < 10) by lia.
  assert (H2 : 1 <= 20 <= 255) by lia.
  split; [split; assumption|].
  exact (X10_varchar_holds_the_longest_value "aeterm" 10 20 H1 H2).
Defined.

End ColumnFacts.


(** ** The chat response *)

Section ChatFacts.
Import PyStr Hybrid ChatHandler.

Lemma take_length (n : nat) (s : string) :
  (String.length (take n s) <= n)%nat.
Proof.
  revert s. induction n as [|n IH]; intros s; [simpl; lia|].
  destruct s as [|c s]; simpl; [lia|]. specialize (IH s). lia.
Qed.

Lemma take_prefix (n : nat) (s : string) : startswith (take n s) s = true.
Proof.
  revert s. induction n as [|n IH]; intros s; [reflexivity|].
  destruct s as [|c s]; simpl; [reflexivity|].
  now rewrite Ascii.eqb_refl, IH.
Qed.

(** X11: the response cites the first ten results at most, in their
    order and with their chunk identifiers; every snippet is a prefix of
    the text of its result and has at most 300 characters.  Without
    results the answer is the fixed message and nothing is cited, the
    answer generator not being called. *)
Theorem X11_citations :
  forall (generator : option (string -> list hit -> string))
         (query : string) (results : list hit),
    let response := respond generator query results in
    List.length (response_citations response)
    = Nat.min 10 (List.length results)
    /\ map cit_chunk_id (response_citations response)
       = map chunk_id (firstn 10 results)
    /\ Forall2 (fun c r => startswith (cit_snippet c) (text r) = true
                           /\ len (cit_snippet c) <= 300)
               (response_citations response) (firstn 10 results)
    /\ respond generator query []
       = mk_ChatResponse "No relevant documents found for your query." [].
Proof.
  intros generator query results response.
  assert (Hc : response_citations response = build_citations results).
  { subst response. destruct results; reflexivity. }
  rewrite Hc. unfold build_citations. split; [|split; [|split]].
  - now rewrite length_map, length_firstn.
  - rewrite map_map. reflexivity.
  - induction (firstn 10 results) as [|r rs IH]; cbn [map]; constructor.
    + cbn [cit_snippet]. split; [apply take_prefix|].
      unfold len. pose proof (take_length 300 (text r)). lia.
    + exact IH.
  - reflexivity.
Qed.

End ChatFacts.

(** ** Routing and evaluation *)

Section RouterFacts.
Import PyStr PyFloat Hybrid Router.

(** X12: whatever the completion call returns, [route_query] answers
    with [pdf], [sas] or [both]: the routes [all], [pdf+context] and
    [sas+context] that [search] also tests for never arise, and of the
    two flags [search_pdf] and [search_sas] that [search] computes from
    the route at least one is set. *)
Theorem X12_route_is_pdf_sas_or_both :
  forall (reply : result (option string)) (query : string),
    let route := route_query reply query in
    In route ["pdf"; "sas"; "both"]
    /\ (mem route ["pdf"; "both"; "all"; "pdf+context"]
        || mem route ["sas"; "both"; "all"; "sas+context"]) = true.
Proof.
  intros reply query route.
  assert (F : In (_fallback_route query) ["pdf"; "sas"; "both"]).
  { unfold _fallback_route. cbv zeta.
    destruct (existsb _ sql_keywords), (existsb _ doc_keywords); simpl; tauto. }
  assert (H : In route ["pdf"; "sas"; "both"]).
  { subst route. unfold route_query.
    destruct reply as [[r|]|e]; try exact F.
    cbv zeta. destruct (mem (lower r) ["pdf"; "sas"; "both"]) eqn:E;
      [|exact F].
    unfold mem in E. apply existsb_exists in E as (x & Hx & Ex).
    apply String.eqb_eq in Ex. now subst x. }
  split; [exact H|].
  simpl in H. destruct H as [<- | [<- | [<- | []]]]; reflexivity.
Qed.

Lemma rescale_length (w : float -> float) (l : list hit) :
  List.length (rescale w l) = List.length l.
Proof. unfold rescale. apply length_map. Qed.

(** X13: with the evaluation used when the quality call fails, the
    combination keeps every result of every source: the list it sorts
    has as many entries as the three sources together. *)
Theorem X13_fallback_evaluation_keeps_every_source :
  forall (pdf sas ctx : list hit),
    List.length (combined_unsorted pdf sas ctx (fallback_evaluation pdf sas ctx))
    = (List.length pdf + List.length sas + List.length ctx)%nat.
Proof.
  intros pdf sas ctx. unfold combined_unsorted, fallback_evaluation.
  destruct pdf as [|p pdf], sas as [|s sas], ctx as [|c ctx];
    cbn -[rescale fmul Nat.add];
    rewrite ?length_app, ?rescale_length; simpl; lia.
Qed.

End RouterFacts.

(** ** Results of the vector store *)

Section VectorFacts.
Import PyStr PyFloat Hybrid VectorRetriever.

Lemma similarity_score_sound (distance : float) :
  is_nan (similarity_score distance) = false
  /\ SFleb f0_0 (similarity_score distance) = true.
Proof.
  unfold similarity_score, fmax.
  destruct (flt f0_0 (fsub f1_0 distance)) eqn:E.
  - split; [|now apply flt_leb].
    unfold flt, SFltb in E.
    destruct (fsub f1_0 distance); simpl in *; congruence.
  - split; reflexivity.
Qed.

Lemma zip4_length {A B C D : Type} (a : list A) (b : list B) (c : list C)
    (d : list D) :
  List.length (zip4 a b c d)
  = Nat.min (Nat.min (List.length a) (List.length b))
            (Nat.min (List.length c) (List.length d)).
Proof.
  revert b c d. induction a as [|x a IH]; intros b c d; [reflexivity|].
  destruct b as [|y b]; [reflexivity|].
  destruct c as [|z c]; [simpl; lia|].
  destruct d as [|w d]; [simpl; lia|].
  simpl. rewrite IH. lia.
Qed.

(** X14: the results made of the vector store's answer are as many as
    the shortest of its four lists; each belongs to the corpus [pdf] and
    has a score that is not a NaN and not below zero, whatever distance
    the store reports, a NaN included. *)
Theorem X14_vector_results :
  forall (ids documents : list string)
         (metadatas : list (option (list (string * string))))
         (distances : list float),
    let results := format_results ids documents metadatas distances in
    List.length results
    = Nat.min (Nat.min (List.length ids) (List.length documents))
              (Nat.min (List.length metadatas) (List.length distances))
    /\ Forall (fun r => corpus r = "pdf"
                        /\ is_nan (get_score r) = false
                        /\ SFleb f0_0 (get_score r) = true) results.
Proof.
  intros ids documents metadatas distances results. subst results.
  unfold format_results. split.
  - destruct ids as [|i ids]; [reflexivity|].
    now rewrite length_map, zip4_length.
  - destruct ids as [|i ids]; [constructor|].
    apply Forall_forall. intros r Hr.
    apply in_map_iff in Hr as ([[[id doc] meta] dist] & <- & _).
    split; [reflexivity|]. apply similarity_score_sound.
Qed.

End VectorFacts.


(** ** The example cache *)

Section CacheFacts.
Import PyStr PromptExamples ExampleCache.
Variable repr : json -> string.
Variable render_other_shape : list (string * json) -> result (option string).

Lemma load_mapping_app (stem : string) (before after : list (string * json))
    (examples : list example) :
  snd (load_mapping repr render_other_shape stem before examples) = false ->
  load_mapping repr render_other_shape stem (before ++ after)%list examples
  = load_mapping repr render_other_shape stem after
      (fst (load_mapping repr render_other_shape stem before examples)).
Proof.
  revert examples. induction before as [|[q a] before IH]; intros examples H.
  - reflexivity.
  - cbn [app load_mapping] in *.
    destruct (negb (nonempty q)); [now apply IH|].
    destruct (_clean_answer repr render_other_shape q a) as [[c|]|e];
      [now apply IH | now apply IH | discriminate H].
Qed.

(** X15: when the cleaning of an entry raises, the loop over its file
    stops there: the entries before it are in the cache and none of the
    entries after it is looked at. *)
Theorem X15_failing_entry_ends_its_file :
  forall (stem question : string) (bad : json) (e : exn)
         (before after : list (string * json)) (examples : list example),
    question <> "" ->
    _clean_answer repr render_other_shape question bad = Raise e ->
    snd (load_mapping repr render_other_shape stem before examples) = false ->
    load_mapping repr render_other_shape stem
      (before ++ (question, bad) :: after)%list examples
    = (fst (load_mapping repr render_other_shape stem before examples), true).
Proof.
  intros stem question bad e before after examples Hq Hbad Hbefore.
  rewrite load_mapping_app by exact Hbefore.
  cbn [load_mapping]. rewrite Hbad.
  destruct question; [congruence | reflexivity].
Qed.

Lemma load_mapping_sound (stem : string) (data : list (string * json))
    (examples : list example) (ex : example) :
  In ex (fst (load_mapping repr render_other_shape stem data examples)) ->
  In ex examples
  \/ (question ex <> "" /\ source ex = stem
      /\ exists a, In (question ex, a) data
                   /\ _clean_answer repr render_other_shape (question ex) a
                      = Ok (Some (answer ex))).
Proof.
  revert examples. induction data as [|[q a] data IH]; intros examples H.
  - now left.
  - cbn [load_mapping] in H.
    assert (Step : forall examples',
               In ex (fst (load_mapping repr render_other_shape stem data
                             examples')) ->
               (In ex examples' -> In ex examples
                  \/ (question ex <> "" /\ source ex = stem
                      /\ exists a0, In (question ex, a0) ((q, a) :: data)
                         /\ _clean_answer repr render_other_shape (question ex) a0
                            = Ok (Some (answer ex)))) ->
               In ex examples
               \/ (question ex <> "" /\ source ex = stem
                   /\ exists a0, In (question ex, a0) ((q, a) :: data)
                      /\ _clean_answer repr render_other_shape (question ex) a0
                         = Ok (Some (answer ex)))).
    { intros examples' Hin Hold.
      destruct (IH _ Hin) as [Hl | (Hq & Hs & a0 & Ha0 & Hc)].
      - now apply Hold.
      - right. repeat split; auto. exists a0. split; [now right | exact Hc]. }
    destruct (nonempty q) eqn:Eq; cbn [negb] in H.
    + destruct (_clean_answer repr render_other_shape q a) as [[c|]|e] eqn:Ec.
      * apply (Step _ H). intros Hin. unfold append in Hin.
        apply in_app_or in Hin as [Hin | [<- | []]]; [now left|].
        right. cbn [question source answer]. repeat split.
        -- intros ->. discriminate Eq.
        -- exists a. split; [now left | exact Ec].
      * apply (Step _ H). now left.
      * now left.
    + apply (Step _ H). now left.
Qed.

(** The loop over a mapping only appends to the cache. *)
Lemma load_mapping_appends (stem : string) (data : list (string * json))
    (examples : list example) :
  fst (load_mapping repr render_other_shape stem data examples)
  = (examples
     ++ fst (load_mapping repr render_other_shape stem data []))%list.
Proof.
  revert examples. induction data as [|[q a] data IH]; intros examples.
  - cbn [load_mapping fst]. now rewrite app_nil_r.
  - cbn [load_mapping].
    destruct (negb (nonempty q)); [apply IH|].
    destruct (_clean_answer repr render_other_shape q a) as [[c|]|e].
    + rewrite IH. rewrite (IH (append [] (mk_example q c stem))).
      unfold append. now rewrite <- app_assoc.
    + apply IH.
    + cbn [fst]. now rewrite app_nil_r.
Qed.

Lemma load_listing_sound (stem : string) (data : list json)
    (examples : list entry) (e : entry) :
  In e (fst (load_listing repr render_other_shape stem data examples)) ->
  In e examples
  \/ (entry_source e = stem
      /\ exists item,
           In (JDict item) data
           /\ entry_question e = get "question" (JStr "") item
           /\ truthy (entry_question e) = true
           /\ truthy (get "answer" (JStr "") item) = true
           /\ _clean_answer repr render_other_shape
                (question_text (entry_question e))
                (get "answer" (JStr "") item)
              = Ok (Some (entry_answer e))).
Proof.
  revert examples. induction data as [|v data IH]; intros examples H.
  - now left.
  - assert (Step : forall examples',
               In e (fst (load_listing repr render_other_shape stem data
                            examples')) ->
               (In e examples' ->
                In e examples
                \/ (entry_source e = stem
                    /\ exists item,
                         In (JDict item) (v :: data)
                         /\ entry_question e = get "question" (JStr "") item
                         /\ truthy (entry_question e) = true
                         /\ truthy (get "answer" (JStr "") item) = true
                         /\ _clean_answer repr render_other_shape
                              (question_text (entry_question e))
                              (get "answer" (JStr "") item)
                            = Ok (Some (entry_answer e)))) ->
               In e examples
               \/ (entry_source e = stem
                   /\ exists item,
                        In (JDict item) (v :: data)
                        /\ entry_question e = get "question" (JStr "") item
                        /\ truthy (entry_question e) = true
                        /\ truthy (get "answer" (JStr "") item) = true
                        /\ _clean_answer repr render_other_shape
                             (question_text (entry_question e))
                             (get "answer" (JStr "") item)
                           = Ok (Some (entry_answer e)))).
    { intros examples' Hin Hold.
      destruct (IH _ Hin) as [Hl | (Hs & item & Hi & Hrest)].
      - now apply Hold.
      - right. split; [exact Hs|]. exists item.
        split; [now right | exact Hrest]. }
    destruct v as [| | | | | |item]; try (now left).
    cbn [load_listing] in H. cbv zeta in H.
    destruct (truthy (get "question" (JStr "") item)) eqn:Eq; cbn [negb orb] in H;
      [|apply (Step _ H); now left].
    destruct (truthy (get "answer" (JStr "") item)) eqn:Ea; cbn [negb] in H;
      [|apply (Step _ H); now left].
    destruct (_clean_answer repr render_other_shape
                (question_text (get "question" (JStr "") item))
                (get "answer" (JStr "") item)) as [[c|]|x] eqn:Ec.
    + apply (Step _ H). intros Hin. unfold append in Hin.
      apply in_app_or in Hin as [Hin | [<- | []]]; [now left|].
      right. cbn [entry_question entry_answer entry_source].
      split; [reflexivity|]. exists item.
      split; [now left|]. repeat split; assumption.
    + apply (Step _ H). now left.
    + now left.
Qed.

(** X16: every example [load] adds to the cache comes from a readable
    file whose name does not start with an underscore, has the stem of
    that file as source, and has as answer what [_clean_answer] returns
    for an answer of the file: in a mapping the value of a key that is
    not empty, the key being the question; in a list the answer of an
    item that is an object, whose question and answer both count as
    true, the question being the one of the item. *)
Theorem X16_loaded_examples_are_cleaned_entries :
  forall (files : list (string * result content)) (examples : list entry)
         (e : entry),
    In e (load_files repr render_other_shape files examples) ->
    In e examples
    \/ exists stem data answer,
         In (stem, Ok data) files
         /\ startswith "_" stem = false
         /\ entry_source e = stem
         /\ _clean_answer repr render_other_shape
              (question_text (entry_question e)) answer
            = Ok (Some (entry_answer e))
         /\ match data with
            | Mapping entries =>
                exists question,
                  entry_question e = JStr question
                  /\ question <> ""
                  /\ In (question, answer) entries
            | Listing items =>
                exists item,
                  In (JDict item) items
                  /\ entry_question e = get "question" (JStr "") item
                  /\ answer = get "answer" (JStr "") item
                  /\ truthy (entry_question e) = true
                  /\ truthy answer = true
            | Scalar => False
            end.
Proof.
  intros files. unfold load_files.
  induction files as [|[stem data] files IH]; intros examples e H.
  - now left.
  - cbn [fold_left] in H. apply IH in H.
    destruct H as [H | (s & d & a & Hf & Hrest)].
    + destruct (startswith "_" stem) eqn:Eu; [now left|].
      destruct data as [[items|entries|]|x]; try (now left).
      * apply load_listing_sound in H
          as [H | (Hs & item & Hi & Hq & Htq & Hta & Hc)]; [now left|].
        right. exists stem, (Listing items), (get "answer" (JStr "") item).
        split; [now left|]. split; [exact Eu|]. split; [exact Hs|].
        split; [exact Hc|]. exists item. repeat split; assumption.
      * apply in_app_or in H as [H | H]; [now left|].
        apply in_map_iff in H as (ex & <- & H).
        apply load_mapping_sound in H as [[] | (Hq & Hs & a & Ha & Hc)].
        right. exists stem, (Mapping entries), a.
        split; [now left|]. split; [exact Eu|].
        cbn [of_example entry_source entry_question entry_answer question_text].
        split; [exact Hs|]. split; [exact Hc|].
        exists (question ex). repeat split; assumption.
    + right. exists s, d, a. split; [now right | exact Hrest].
Qed.

End CacheFacts.

Section CacheWitness.
Import PyStr PromptExamples ExampleCache.

Lemma X15_witness :
  let bad := JDict [("n", JStr "twelve"); ("a_responder_and_immune", JInt 3)] in
  let repr := fun _ : json => "" in
  let other := fun _ : list (string * json) => @Ok (option string) None in
  ("Q2" <> ""
   /\ _clean_answer repr other "Q2" bad = Raise (TypeError "'>' not supported")
   /\ snd (load_mapping repr other "qa" [("Q1", JStr "Twelve patients.")] [])
      = false)
  /\ load_mapping repr other "qa"
       [("Q1", JStr "Twelve patients."); ("Q2", bad);
        ("Q3", JStr "Three sites.")] []
     = ([mk_example "Q1" "Twelve patients." "qa"], true).
Proof.
  intros bad repr other.
  assert (H1 : "Q2" <> "") by discriminate.
  assert (H2 : _clean_answer repr other "Q2" bad
               = Raise (TypeError "'>' not supported")) by reflexivity.
  assert (H3 : snd (load_mapping repr other "qa"
                      [("Q1", JStr "Twelve patients.")] []) = false)
    by reflexivity.
  split; [repeat split; assumption|].
  exact (X15_failing_entry_ends_its_file repr other "qa" "Q2" bad _
           [("Q1", JStr "Twelve patients.")] [("Q3", JStr "Three sites.")] []
           H1 H2 H3).
Defined.

Lemma X16_witness :
  let repr := fun _ : json => "" in
  let other := fun _ : list (string * json) => @Ok (option string) None in
  let files :=
    [("_draft", Ok (Mapping [("Q0", JStr "Hidden.")]));
     ("qa", Ok (Mapping [("Q1", JStr "Twelve patients.")]));
     ("cleaned",
      Ok (Listing
            [JDict [("question", JStr "Q2"); ("answer", JStr "Three sites.")];
             JDict [("question", JStr "Q3")];
             JStr "stray";
             JDict [("question", JStr "Q4"); ("answer", JStr "Late.")]]))] in
  let e := mk_entry (JStr "Q2") "Three sites." "cleaned" in
  (load_files repr other files []
   = [mk_entry (JStr "Q1") "Twelve patients." "qa"; e]
   /\ In e (load_files repr other files []))
  /\ (In e []
      \/ exists stem data answer,
           In (stem, Ok data) files
           /\ startswith "_" stem = false
           /\ entry_source e = stem
           /\ _clean_answer repr other (question_text (entry_question e))
                answer
              = Ok (Some (entry_answer e))
           /\ match data with
              | Mapping entries =>
                  exists question,
                    entry_question e = JStr question
                    /\ question <> ""
                    /\ In (question, answer) entries
              | Listing items =>
                  exists item,
                    In (JDict item) items
                    /\ entry_question e = get "question" (JStr "") item
                    /\ answer = get "answer" (JStr "") item
                    /\ truthy (entry_question e) = true
                    /\ truthy answer = true
              | Scalar => False
              end).
Proof.
  intros repr other files e.
  assert (H0 : load_files repr other files []
               = [mk_entry (JStr "Q1") "Twelve patients." "qa"; e])
    by reflexivity.
  assert (H : In e (load_files repr other files []))
    by (right; left; reflexivity).
  split; [split; assumption|].
  exact (X16_loaded_examples_are_cleaned_entries repr other files [] e H).
Defined.

End CacheWitness.
(** ** Ranking of the examples *)

Section Ranking.
Import PyStr PromptExamples ExampleCache.





Lemma get_examples_by_overlap (cache : list example) (n : Z) (c : ascii)
    (q : string) :
  get_examples cache n (Some (String c q))
  = slice_to n (sort_desc Z.ltb (word_overlap (String c q)) cache).
Proof.
  unfold get_examples. destruct cache as [|e cache]; [reflexivity|].
  f_equal.
  rewrite <- (sort_desc_map Z.ltb fst
                (fun ex => (word_overlap (String c q) ex, ex))).
  rewrite map_map. cbn [snd]. now rewrite map_id.
Qed.




End Ranking.

(** ** The context of the answer prompt *)

Section ContextBudget.
Import PyStr Hybrid AnswerGen.

Lemma len_append (a b : string) : len (a ++ b) = len a + len b.
Proof. unfold len. rewrite length_append. lia. Qed.

Lemma len_join (sep x : string) (parts : list string) :
  len (join sep (x :: parts))
  = total_length (x :: parts) + len sep * Z.of_nat (List.length parts).
Proof.
  unfold join. revert x. induction parts as [|y parts IH]; intros x.
  - cbn [String.concat total_length fold_right List.length]. lia.
  - change (String.concat sep (x :: y :: parts))
      with (x ++ sep ++ String.concat sep (y :: parts)).
    rewrite !len_append, IH.
    cbn [total_length fold_right List.length]. lia.
Qed.

Lemma context_sections_budget (chunks : list hit) (total_chars max_chars : Z) :
  context_sections chunks total_chars max_chars = []
  \/ total_chars + total_length (context_sections chunks total_chars max_chars)
     <= max_chars.
Proof.
  revert total_chars. induction chunks as [|chunk rest IH]; intros total_chars.
  - now left.
  - cbn [context_sections]. cbv zeta.
    destruct (negb (nonempty (strip (text chunk)))); [apply IH|].
    destruct (max_chars
              <? total_chars + len (context_part chunk (strip (text chunk))))
      eqn:E; [now left|].
    right. apply Z.ltb_ge in E. cbn [total_length fold_right].
    destruct (IH (total_chars + len (context_part chunk (strip (text chunk)))))
      as [-> | H].
    + cbn [fold_right]. lia.
    + unfold total_length in H. lia.
Qed.

Lemma context_sections_from_chunks (chunks : list hit)
    (total_chars max_chars : Z) :
  Forall (fun section =>
            exists chunk, In chunk chunks
              /\ nonempty (strip (text chunk)) = true
              /\ section = context_part chunk (strip (text chunk)))
         (context_sections chunks total_chars max_chars).
Proof.
  revert total_chars. induction chunks as [|chunk rest IH]; intros total_chars.
  - constructor.
  - assert (Up : forall t, Forall (fun section =>
            exists chunk0, In chunk0 (chunk :: rest)
              /\ nonempty (strip (text chunk0)) = true
              /\ section = context_part chunk0 (strip (text chunk0)))
         (context_sections rest t max_chars)).
    { intros t. eapply Forall_impl; [|apply (IH t)].
      intros s (c0 & Hin & Hn & Hs). exists c0. split; [now right | auto]. }
    cbn [context_sections]. cbv zeta.
    destruct (nonempty (strip (text chunk))) eqn:En; cbn [negb]; [|apply Up].
    destruct (max_chars
              <? total_chars + len (context_part chunk (strip (text chunk))));
      [constructor|].
    constructor; [|apply Up].
    exists chunk. split; [now left | split; [exact En | reflexivity]].
Qed.

(** X18: when [generate] builds a context, it is made of sections of
    chunks whose text is not blank, joined by the separator, and the
    sections together have at most four characters per token of the
    budget; the separators are not counted. *)
Theorem X18_context_stays_within_the_budget :
  forall (context_chunks : list hit) (max_context_tokens : Z)
         (context : string),
    prepare context_chunks max_context_tokens = Context context ->
    exists sections,
      context = join separator sections
      /\ sections <> []
      /\ total_length sections <= max_context_tokens * 4
      /\ Forall (fun section =>
                   exists chunk, In chunk context_chunks
                     /\ nonempty (strip (text chunk)) = true
                     /\ section = context_part chunk (strip (text chunk)))
                sections.
Proof.
  intros chunks tokens context H. unfold prepare in H.
  destruct chunks as [|chunk rest]; [discriminate H|].
  pose proof (context_sections_budget (chunk :: rest) 0 (tokens * 4)) as B.
  pose proof (context_sections_from_chunks (chunk :: rest) 0 (tokens * 4)) as F.
  cbv zeta in H.
  destruct (context_sections (chunk :: rest) 0 (tokens * 4)) as [|s sections];
    [discriminate H|].
  exists (s :: sections). split; [congruence|]. split; [discriminate|].
  split; [|exact F]. destruct B as [B | B]; [discriminate B | lia].
Qed.

Lemma X18_witness :
  let chunk := mk_hit "pdf" "c1" (Some PyFloat.f0_5) " Twelve patients. " [] in
  exists context,
    prepare [chunk; chunk] 12 = Context context
    /\ exists sections,
         context = join separator sections
         /\ sections <> []
         /\ total_length sections <= 12 * 4.
Proof.
  intros chunk.
  exists (context_part chunk "Twelve patients.").
  assert (H : prepare [chunk; chunk] 12
              = Context (context_part chunk "Twelve patients."))
    by reflexivity.
  split; [exact H|].
  destruct (X18_context_stays_within_the_budget [chunk; chunk] 12 _ H)
    as (sections & H1 & H2 & H3 & _).
  exists sections. split; [exact H1 | split; [exact H2 | exact H3]].
Defined.

End ContextBudget.

(** ** The fallback answer *)

Section Fallback.
Import PyStr Hybrid ChatHandler AnswerGen.

Lemma fallback_part_bounds (result : hit) :
  Forall (fun part => nonempty part = true /\ len part <= 503)
         (fallback_part result).
Proof.
  unfold fallback_part. cbv zeta.
  destruct (nonempty (strip (text result))) eqn:En; [|constructor].
  constructor; [|constructor].
  destruct (500 <? len (strip (text result))) eqn:E.
  - split.
    + destruct (take 500 (strip (text result))); reflexivity.
    + rewrite len_append. pose proof (take_length 500 (strip (text result))).
      unfold len at 1. change (len "...") with 3. lia.
  - apply Z.ltb_ge in E. split; [exact En | lia].
Qed.

Lemma flat_map_fallback_bounds (results : list hit) :
  Forall (fun part => nonempty part = true /\ len part <= 503)
         (flat_map fallback_part results)
  /\ (List.length (flat_map fallback_part results) <= List.length results)%nat.
Proof.
  induction results as [|r results [IH1 IH2]]; [split; [constructor | simpl; lia]|].
  cbn [flat_map]. split.
  - apply Forall_app. split; [apply fallback_part_bounds | exact IH1].
  - rewrite length_app. cbn [List.length].
    assert (List.length (fallback_part r) <= 1)%nat.
    { unfold fallback_part. cbv zeta.
      destruct (nonempty (strip (text r))); simpl; lia. }
    lia.
Qed.

Lemma total_length_bound (b : Z) (parts : list string) :
  Forall (fun part => nonempty part = true /\ len part <= b) parts ->
  total_length parts <= b * Z.of_nat (List.length parts).
Proof.
  induction 1 as [|p parts [_ Hp] _ IH]; cbn [total_length fold_right List.length].
  - lia.
  - unfold total_length in IH. lia.
Qed.

(** X19: the answer given without an answer generator is never empty and
    has at most 2523 characters, whatever the results are. *)
Theorem X19_fallback_answer_is_short_and_not_empty :
  forall results : list hit,
    nonempty (fallback_answer results) = true
    /\ len (fallback_answer results) <= 2523.
Proof.
  intros results. unfold fallback_answer. cbv zeta.
  destruct (flat_map_fallback_bounds (firstn 5 results)) as [F L].
  pose proof (firstn_le_length 5 results) as L5.
  rewrite length_firstn in L.
  destruct (flat_map fallback_part (firstn 5 results)) as [|p parts].
  - split; [reflexivity | vm_compute; discriminate].
  - split.
    + pose proof (Forall_inv F) as [Hp _].
      destruct p; [discriminate Hp|]. destruct parts; reflexivity.
    + rewrite len_join. apply total_length_bound in F.
      change (len Chunking.blank_line) with 2.
      cbn [List.length] in *. lia.
Qed.

End Fallback.

(** ** What a search consults *)

Section SearchCalls.
Import PyStr PyFloat PromptExamples Hybrid.

(** X20: a search on a retriever that is not loaded raises; on a loaded
    one it asks the router first and the quality evaluation last, the
    SQL path exactly when the route includes the tables, a MySQL client
    is there and the best cached example does not score above 0.5, and
    the vector search exactly when the route includes the documents and
    the vector store is loaded. *)
Theorem X20_what_a_search_consults :
  forall (route_query : string -> string) (cache : list example)
         (mysql_client : bool) (_search_sas_sql : string -> Z -> list hit)
         (pdf_loaded : bool) (pdf_search : string -> Z -> list hit)
         (evaluate_result_quality :
            string -> list hit -> list hit -> list hit -> evaluation)
         (query : string) (top_k : Z),
    let search :=
      search route_query cache mysql_client _search_sas_sql pdf_loaded
             pdf_search evaluate_result_quality in
    let good_cached_match :=
      match _search_context cache query 3 with
      | top :: _ => flt f0_5 (get_score top)
      | [] => false
      end in
    search false query top_k
    = Raise (RuntimeError "Retriever not loaded. Call load() first.")
    /\ exists results calls,
         search true query top_k = Ok (results, calls)
         /\ hd_error calls = Some (RouteQuery query)
         /\ last calls (RouteQuery query) = EvaluateQuality query
         /\ (In (SearchSasSql query top_k) calls
             <-> mem (route_query query) ["sas"; "both"; "all"; "sas+context"]
                 = true
                 /\ mysql_client = true /\ good_cached_match = false)
         /\ (In (SearchPdf query top_k) calls
             <-> mem (route_query query) ["pdf"; "both"; "all"; "pdf+context"]
                 = true
                 /\ pdf_loaded = true).
Proof.
  intros route_query cache mysql_client sas_sql pdf_loaded pdf_search ev
         query top_k search good.
  split; [reflexivity|].
  subst search good. unfold Hybrid.search, sas_step. cbn [negb].
  generalize (_search_context cache query 3) as context_results.
  generalize (mem (route_query query) ["sas"; "both"; "all"; "sas+context"])
    as search_sas.
  generalize (mem (route_query query) ["pdf"; "both"; "all"; "pdf+context"])
    as search_pdf.
  intros search_pdf search_sas context_results.
  assert (Good : exists g, g = match context_results with
                               | top :: _ => flt f0_5 (get_score top)
                               | [] => false
                               end) by (eexists; reflexivity).
  destruct Good as [g Hg]. rewrite <- Hg. clear Hg.
  destruct search_sas, g, mysql_client, search_pdf, pdf_loaded;
    cbn [andb]; cbv zeta;
    (eexists; eexists; split; [reflexivity|]);
    (split; [reflexivity|]); (split; [reflexivity|]);
    cbn [app In]; split; split; intros H;
    repeat match goal with
           | H : _ \/ _ |- _ => destruct H
           | H : _ /\ _ |- _ => destruct H
           | H : False |- _ => destruct H
           end;
    try discriminate; try (split; [|split]; reflexivity);
    try (split; reflexivity); auto 6.
Qed.

Lemma X20_witness :
  let search :=
    search (fun _ => "sas") [] true (fun _ _ => []) false (fun _ _ => [])
      (fun _ _ _ _ => mk_evaluation (Some "use_sas") None None None) in
  exists results calls,
    search true "how many patients" 5 = Ok (results, calls)
    /\ In (SearchSasSql "how many patients" 5) calls.
Proof.
  intros search.
  destruct (X20_what_a_search_consults (fun _ => "sas") [] true
              (fun _ _ => []) false (fun _ _ => [])
              (fun _ _ _ _ => mk_evaluation (Some "use_sas") None None None)
              "how many patients" 5)
    as (_ & results & calls & H & _ & _ & Hsas & _).
  exists results, calls. split; [exact H|].
  apply Hsas. split; [reflexivity | split; reflexivity].
Defined.

End SearchCalls.


(** ** The length of the chunks when nothing is split *)

Section ChunkBound.
Import PyStr Chunking Spec3.

Lemma join_append (sep p : string) (l : list string) :
  l <> [] -> join sep (append l p) = join sep l ++ sep ++ p.
Proof.
  unfold join, append. induction l as [|x l IH]; intros H; [congruence|].
  destruct l as [|y l]; [reflexivity|].
  change (String.concat sep ((x :: y :: l) ++ [p])%list)
    with (x ++ sep ++ String.concat sep ((y :: l) ++ [p])%list).
  rewrite IH by discriminate.
  change (String.concat sep (x :: y :: l))
    with (x ++ sep ++ String.concat sep (y :: l)).
  now rewrite !append_assoc.
Qed.

Lemma flush_ok (max_chars : Z) (st : state) :
  state_ok max_chars st ->
  Forall (fun chunk => len chunk <= max_chars + 2)
         (flush blank_line (chunks st) (current_chunk st)).
Proof.
  intros [Hc Hp]. unfold flush.
  destruct (current_chunk st) as [|x parts]; [exact Hc|].
  unfold append. apply Forall_app. split; [exact Hc|].
  constructor; [apply Hp | constructor].
Qed.

Lemma paragraph_step_ok (max_chars overlap_chars : Z) (st : state)
    (para : string) :
  overlap_chars <= 0 ->
  len (strip para) <= max_chars ->
  state_ok max_chars st ->
  state_ok max_chars (paragraph_step max_chars overlap_chars st para).
Proof.
  intros Hov Hpara Hst. unfold paragraph_step. cbv zeta.
  destruct (nonempty (strip para)); cbn [negb]; [|exact Hst].
  destruct (current_length st + len (strip para) <=? max_chars) eqn:Efit.
  - apply Z.leb_le in Efit. destruct Hst as [Hc Hp].
    split; [exact Hc|]. cbn [current_chunk current_length].
    revert Hp. destruct (current_chunk st) as [|x parts] eqn:Ecur; intros Hp.
    + cbn [append app]. unfold join. cbn [String.concat]. lia.
    + assert (len (join blank_line (append (x :: parts) (strip para)))
              = len (join blank_line (x :: parts)) + 2 + len (strip para)).
      { rewrite join_append by discriminate.
        rewrite !len_append. change (len blank_line) with 2. lia. }
      destruct (append (x :: parts) (strip para)) eqn:Eapp.
      * unfold append in Eapp. now destruct parts.
      * cbv zeta in Hp. lia.
  - replace (max_chars <? len (strip para)) with false
      by (symmetry; apply Z.ltb_ge; lia).
    pose proof (flush_ok max_chars st Hst) as Hflush.
    unfold start_chunk.
    replace (0 <? overlap_chars) with false
      by (symmetry; apply Z.ltb_ge; lia).
    destruct (flush blank_line (chunks st) (current_chunk st)) eqn:Ef;
      (split; [cbn [chunks]; exact Hflush|]);
      cbn [current_chunk current_length]; unfold join; cbn [String.concat];
      lia.
Qed.

Lemma paragraphs_ok (max_chars overlap_chars : Z) (paragraphs : list string)
    (st : state) :
  overlap_chars <= 0 ->
  Forall (fun para => len (strip para) <= max_chars) paragraphs ->
  state_ok max_chars st ->
  state_ok max_chars
    (fold_left (paragraph_step max_chars overlap_chars) paragraphs st).
Proof.
  intros Hov Hall. revert st.
  induction Hall as [|para paragraphs Hpara _ IH]; intros st Hst;
    [exact Hst|].
  cbn [fold_left]. apply IH. now apply paragraph_step_ok.
Qed.

(** X21: without overlap, and when no paragraph is longer than
    [max_tokens * 4] characters, no chunk exceeds that bound by more
    than the two characters of one separator. *)
Theorem X21_chunks_without_overlap_are_bounded :
  forall (text : string) (max_tokens overlap : Z),
    overlap <= 0 ->
    Forall (fun para => len (strip para) <= max_tokens * 4)
           (split_paragraphs text) ->
    Forall (fun chunk => len chunk <= max_tokens * 4 + 2)
           (chunk_text text max_tokens overlap).
Proof.
  intros text max_tokens overlap Hov Hall. unfold chunk_text.
  destruct (negb (nonempty text) || negb (nonempty (strip text)));
    [constructor|].
  cbv zeta. rewrite Forall_forall. intros chunk Hin.
  apply filter_In in Hin as [Hin _]. revert chunk Hin.
  rewrite <- Forall_forall. apply flush_ok, paragraphs_ok.
  - lia.
  - exact Hall.
  - split; [constructor | reflexivity].
Qed.

Lemma X21_witness :
  let p1 := "The first paragraph of the report has sixty characters here." in
  let p2 := "The second paragraph of the report has sixty characters too." in
  let p3 := "The third paragraph has forty, not more." in
  let text := p1 ++ blank_line ++ p2 ++ blank_line ++ p3 in
  (0 <= 0
   /\ Forall (fun para => len (strip para) <= 25 * 4) (split_paragraphs text))
  /\ chunk_text text 25 0 = [p1; p2 ++ blank_line ++ p3]
  /\ len (p2 ++ blank_line ++ p3) = 25 * 4 + 2
  /\ Forall (fun chunk => len chunk <= 25 * 4 + 2) (chunk_text text 25 0).
Proof.
  intros p1 p2 p3 text.
  assert (H1 : 0 <= 0) by lia.
  assert (H2 : Forall (fun para => len (strip para) <= 25 * 4)
                      (split_paragraphs text)).
  { vm_compute. repeat constructor; intros H; discriminate H. }
  split; [split; assumption|].
  split; [vm_compute; reflexivity|]. split; [vm_compute; reflexivity|].
  exact (X21_chunks_without_overlap_are_bounded text 25 0 H1 H2).
Defined.

End ChunkBound.

(** ** The cached examples as results *)

Section ContextHits.
Import PyStr PyFloat PromptExamples Hybrid.

Lemma get_examples_incl (cache : list example) (n : Z) (query : option string)
    (ex : example) :
  In ex (get_examples cache n query) -> In ex cache.
Proof.
  destruct query as [[|c q]|].
  - unfold get_examples. apply slice_to_incl.
  - rewrite get_examples_by_overlap. intros H.
    apply slice_to_incl in H. now apply sort_desc_In in H.
  - unfold get_examples. apply slice_to_incl.
Qed.

Lemma enumerate_In {A : Type} (l : list A) (i j : Z) (x : A) :
  In (j, x) (enumerate i l) -> In x l.
Proof.
  revert i. induction l as [|y l IH]; intros i H; [contradiction|].
  destruct H as [H | H]; [left; congruence | right; eapply IH, H].
Qed.

Lemma fmin_not_above (x y : float) : flt y (fmin x y) = false.
Proof.
  unfold fmin. destruct (flt y x) eqn:E; [|exact E].
  unfold flt, SFltb. destruct y as [[|]|[|]| |[|] m e]; try reflexivity;
    simpl; rewrite ?Z.compare_refl, ?Pos.compare_refl; try reflexivity;
    try discriminate E.
  all: unfold flt, SFltb in E; destruct x; discriminate E.
Qed.

(** X22: for a limit that is not negative, the search of the cache
    returns at most that many results; each one is marked as coming
    from the cache, carries the answer and the question of an example
    of the cache, and has a score that is not above 1.0. *)
Theorem X22_cache_results :
  forall (cache : list example) (query : string) (top_k : Z),
    0 <= top_k ->
    Z.of_nat (List.length (_search_context cache query top_k)) <= top_k
    /\ Forall (fun h =>
                 corpus h = "context"
                 /\ flt f1_0 (get_score h) = false
                 /\ exists ex, In ex cache
                      /\ text h = answer ex
                      /\ metadata h = [ ("question", question ex);
                                        ("source", source ex);
                                        ("query_type", "cached_answer") ])
              (_search_context cache query top_k).
Proof.
  intros cache query top_k Hk. unfold _search_context. cbv zeta.
  split; [now apply slice_to_length|].
  apply slice_to_Forall, sort_desc_Forall.
  rewrite Forall_forall. intros h Hin.
  apply in_map_iff in Hin as ([i ex] & <- & Hin).
  apply enumerate_In, get_examples_incl in Hin.
  unfold context_hit. cbn [corpus text metadata get_score score].
  split; [reflexivity|]. split; [apply fmin_not_above|].
  exists ex. split; [exact Hin | split; reflexivity].
Qed.

Lemma X22_witness :
  let cache := [mk_example "How many patients responded?" "Twelve." "qa"] in
  0 <= 3
  /\ Z.of_nat (List.length (_search_context cache "patients responded" 3)) <= 3.
Proof.
  intros cache.
  assert (H : 0 <= 3) by lia.
  split; [exact H|].
  exact (proj1 (X22_cache_results cache "patients responded" 3 H)).
Defined.

End ContextHits.

(** ** The examples in the prompt *)

Section PromptTextFacts.
Import PyStr PromptExamples PromptText Spec.

Lemma occurs_in_join_tail (sep x c : string) (parts : list string) :
  occurs c (join sep parts) -> parts <> [] ->
  occurs c (join sep (x :: parts)).
Proof.
  intros (pre & post & H) Hne. unfold join in *.
  destruct parts as [|y parts]; [congruence|].
  change (String.concat sep (x :: y :: parts))
    with (x ++ sep ++ String.concat sep (y :: parts)).
  rewrite H. exists (x ++ sep ++ pre), post. now rewrite !append_assoc.
Qed.

Lemma format_entries_occurs (examples : list example) (i : Z) (k : nat)
    (ex : example) :
  nth_error examples k = Some ex ->
  occurs ("Example " ++ str_of_int (i + Z.of_nat k) ++ ":" ++ nl
          ++ "Q: " ++ question ex ++ nl ++ "A: " ++ answer ex ++ nl)
         (join nl (format_entries i examples)).
Proof.
  revert i k. induction examples as [|e examples IH]; intros i k H.
  - destruct k; discriminate H.
  - destruct k as [|k].
    + injection H as ->. replace (i + Z.of_nat 0) with i by lia.
      cbn [format_entries]. unfold join.
      exists EmptyString.
      destruct (format_entries (i + 1) examples) as [|y rest] eqn:E.
      * exists EmptyString.
        cbn [String.concat]. rewrite ?append_assoc. reflexivity.
      * exists (nl ++ String.concat nl (y :: rest)).
        change (String.concat nl
                  (("Example " ++ str_of_int i ++ ":")
                   :: ("Q: " ++ question ex) :: ("A: " ++ answer ex)
                   :: EmptyString :: y :: rest))
          with (("Example " ++ str_of_int i ++ ":") ++ nl
                ++ ("Q: " ++ question ex) ++ nl ++ ("A: " ++ answer ex) ++ nl
                ++ nl ++ String.concat nl (y :: rest)).
        rewrite ?append_assoc. reflexivity.
    + cbn [nth_error] in H.
      replace (i + Z.of_nat (S k)) with ((i + 1) + Z.of_nat k) by lia.
      specialize (IH (i + 1) k H). cbn [format_entries].
      assert (Hne : format_entries (i + 1) examples <> []).
      { destruct examples; [destruct k; discriminate H | discriminate]. }
      repeat (apply occurs_in_join_tail; [|discriminate || exact Hne]).
      exact IH.
Qed.

(** X23: the text of examples put into the prompt is empty exactly when
    no example is selected; otherwise the example selected in place
    [k], counted from 0, stands in it under the heading
    [Example k+1:], its question on the line after [Q: ] and its answer
    on the line after [A: ]. *)
Theorem X23_prompt_shows_the_selected_examples :
  forall (cache : list example) (max_examples : Z) (query : option string),
    (format_for_prompt cache max_examples query = ""
     <-> get_examples cache max_examples query = [])
    /\ forall (k : nat) (ex : example),
         nth_error (get_examples cache max_examples query) k = Some ex ->
         occurs ("Example " ++ str_of_int (1 + Z.of_nat k) ++ ":" ++ nl
                 ++ "Q: " ++ question ex ++ nl ++ "A: " ++ answer ex ++ nl)
                (format_for_prompt cache max_examples query).
Proof.
  intros cache max_examples query. unfold format_for_prompt. cbv zeta.
  destruct (get_examples cache max_examples query) as [|e examples] eqn:E.
  - split; [tauto|]. intros k ex H. destruct k; discriminate H.
  - split.
    + split; [|discriminate]. unfold join. cbn [String.concat format_entries].
      intros H. exfalso. revert H. generalize (e :: examples). intros l H.
      discriminate H.
    + intros k ex H. apply occurs_in_join_tail;
        [now apply format_entries_occurs | discriminate].
Qed.

Lemma X23_witness :
  let cache := [mk_example "How many sites?" "Three." "qa"] in
  nth_error (get_examples cache 3 None) 0
  = Some (mk_example "How many sites?" "Three." "qa")
  /\ occurs ("Example 1:" ++ nl ++ "Q: How many sites?" ++ nl
             ++ "A: Three." ++ nl)
            (format_for_prompt cache 3 None).
Proof.
  intros cache.
  assert (H : nth_error (get_examples cache 3 None) 0
              = Some (mk_example "How many sites?" "Three." "qa"))
    by reflexivity.
  split; [exact H|].
  exact (proj2 (X23_prompt_shows_the_selected_examples cache 3 None) 0%nat _ H).
Defined.

End PromptTextFacts.


(** ** Rounding keeps the sign *)

Section Rounding.
Import PyFloat Spec4.

Lemma shr_1_m (mrs : shr_record) :
  0 <= shr_m mrs -> shr_m (shr_1 mrs) = shr_m mrs / 2.
Proof.
  destruct mrs as [m r s]. simpl. intros Hm.
  rewrite <- Z.div2_div.
  destruct m as [|[p|p|]|p]; try reflexivity; lia.
Qed.

Lemma iter_shr_1_m (n : positive) (mrs : shr_record) :
  0 <= shr_m mrs ->
  shr_m (iter_pos shr_1 n mrs) = shr_m mrs / 2 ^ Zpos n.
Proof.
  revert mrs. induction n as [n IH|n IH|]; intros mrs Hm; simpl iter_pos.
  - assert (H1 : 0 <= shr_m (shr_1 mrs)).
    { rewrite shr_1_m by assumption. apply Z.div_pos; lia. }
    assert (H2 : 0 <= shr_m (iter_pos shr_1 n (shr_1 mrs))).
    { rewrite IH by assumption. apply Z.div_pos; lia. }
    rewrite IH, IH, shr_1_m by assumption.
    rewrite !Z.div_div by lia. f_equal.
    rewrite Pos2Z.inj_xI, <- !Z.pow_add_r by lia.
    replace (2 * Zpos n + 1) with (1 + Zpos n + Zpos n) by lia.
    rewrite !Z.pow_add_r by lia. lia.
  - assert (H2 : 0 <= shr_m (iter_pos shr_1 n mrs)).
    { rewrite IH by assumption. apply Z.div_pos; lia. }
    rewrite IH, IH by assumption.
    rewrite !Z.div_div by lia. f_equal.
    rewrite Pos2Z.inj_xO, <- !Z.pow_add_r by lia. f_equal. lia.
  - rewrite shr_1_m by assumption. reflexivity.
Qed.

(** What [shr_fexp] does to a mantissa: a shift to the right by the
    number of digits in excess. *)
Lemma shr_fexp_m (m e : Z) (l : location) :
  0 <= m ->
  let n := Z.max (fexp prec emax (Zdigits2 m + e) - e) 0 in
  shr_m (fst (shr_fexp prec emax m e l)) = m / 2 ^ n
  /\ snd (shr_fexp prec emax m e l) = e + n.
Proof.
  intros Hm n. unfold shr_fexp, shr.
  assert (H0 : shr_m (shr_record_of_loc m l) = m).
  { destruct l as [|[]]; reflexivity. }
  subst n.
  destruct (fexp prec emax (Zdigits2 m + e) - e) as [|p|p] eqn:E;
    simpl fst; simpl snd.
  - rewrite H0, Z.max_id. simpl. rewrite Z.div_1_r. split; lia.
  - rewrite iter_shr_1_m by lia. rewrite H0.
    replace (Z.max (Zpos p) 0) with (Zpos p) by lia. split; reflexivity.
  - rewrite H0. replace (Z.max (Zneg p) 0) with 0 by lia.
    simpl. rewrite Z.div_1_r. split; lia.
Qed.

Lemma shr_fexp_m_nonneg (m e : Z) (l : location) :
  0 <= m -> 0 <= shr_m (fst (shr_fexp prec emax m e l)).
Proof.
  intros Hm. destruct (shr_fexp_m m e l Hm) as [-> _].
  apply Z.div_pos; [exact Hm | apply Z.pow_pos_nonneg; lia].
Qed.

Lemma round_nearest_even_bounds (m : Z) (l : location) :
  m <= round_nearest_even m l <= m + 1.
Proof.
  destruct l as [|[]]; simpl; try lia.
  destruct (Z.even m); lia.
Qed.

Lemma binary_round_aux_not_negative (m e : Z) (l : location) :
  0 <= m -> not_negative (binary_round_aux prec emax false m e l) = true.
Proof.
  intros Hm. unfold binary_round_aux.
  pose proof (shr_fexp_m_nonneg m e l Hm) as H1.
  destruct (shr_fexp prec emax m e l) as [mrs' e']. cbn [fst] in H1.
  pose proof (round_nearest_even_bounds (shr_m mrs') (loc_of_shr_record mrs'))
    as Hr.
  assert (Hm1 : 0 <= round_nearest_even (shr_m mrs') (loc_of_shr_record mrs'))
    by lia.
  pose proof (shr_fexp_m_nonneg _ e' loc_Exact Hm1) as H2.
  destruct (shr_fexp prec emax
              (round_nearest_even (shr_m mrs') (loc_of_shr_record mrs')) e'
              loc_Exact) as [mrs'' e''].
  cbn [fst] in H2.
  destruct (shr_m mrs'') as [|p|p]; [reflexivity | | lia].
  destruct (e'' <=? emax - prec); reflexivity.
Qed.

Lemma fmul_not_negative (x : float) (m : positive) (e : Z) :
  not_negative x = true ->
  not_negative (fmul x (S754_finite false m e)) = true.
Proof.
  destruct x as [[|]|[|]| |[|] mx ex]; intros H; try discriminate H;
    try reflexivity.
  unfold fmul, SFmul. cbn [xorb]. apply binary_round_aux_not_negative. lia.
Qed.

Lemma fadd_not_negative (x y : float) :
  not_negative x = true -> not_negative y = true ->
  not_negative (fadd x y) = true.
Proof.
  destruct x as [[|]|[|]| |[|] mx ex]; intros Hx; try discriminate Hx;
    destruct y as [[|]|[|]| |[|] my ey]; intros Hy; try discriminate Hy;
    try reflexivity.
  unfold fadd, SFadd. cbv zeta. cbn [cond_Zopp Z.add].
  unfold binary_normalize, binary_round.
  destruct (shl_align _ _ _) as [mz ez].
  apply binary_round_aux_not_negative. lia.
Qed.

Lemma div_core_quotient_nonneg (m1 e1 m2 e2 : Z) :
  0 <= m1 -> 0 < m2 ->
  0 <= fst (fst (SFdiv_core_binary prec emax m1 e1 m2 e2)).
Proof.
  intros H1 H2. unfold SFdiv_core_binary. cbv zeta.
  set (s := e1 - e2
            - Z.min (fexp prec emax (Zdigits2 m1 + e1 - (Zdigits2 m2 + e2)))
                    (e1 - e2)).
  assert (Hm : 0 <= match s with
                    | 0 => m1
                    | Zpos _ => Z.shiftl m1 s
                    | Zneg _ => 0
                    end).
  { destruct s; [exact H1 | now apply Z.shiftl_nonneg | lia]. }
  revert Hm. generalize (match s with
                         | 0 => m1
                         | Zpos _ => Z.shiftl m1 s
                         | Zneg _ => 0
                         end) as m'.
  intros m' Hm.
  pose proof (Z.div_pos m' m2 Hm H2) as Hq. unfold Z.div in Hq.
  destruct (Z.div_eucl m' m2) as [q r]. exact Hq.
Qed.

Lemma int_truediv_not_negative (a b : Z) :
  0 <= a -> 0 < b -> not_negative (int_truediv a b) = true.
Proof.
  intros Ha Hb. unfold int_truediv, fdiv.
  destruct b as [|b|b]; try lia. destruct a as [|a|a]; try lia;
    [reflexivity|].
  unfold exact_int, SFdiv.
  pose proof (div_core_quotient_nonneg (Zpos a) 0 (Zpos b) 0) as Hq.
  destruct (SFdiv_core_binary prec emax (Zpos a) 0 (Zpos b) 0) as [[mz ez] lz].
  cbn [fst xorb] in *. apply binary_round_aux_not_negative, Hq; lia.
Qed.

Lemma fmin_not_negative (x y : float) :
  not_negative x = true -> not_negative y = true ->
  not_negative (fmin x y) = true.
Proof. intros Hx Hy. unfold fmin. now destruct (flt y x). Qed.

Lemma not_negative_is_number (x : float) :
  not_negative x = true -> is_nan x = false /\ SFleb f0_0 x = true.
Proof.
  destruct x as [[|]|[|]| |[|] m e]; intros H; try discriminate H;
    split; reflexivity.
Qed.

End Rounding.

(** ** The scores of the cached examples *)

Section ContextScores.
Import PyStr PyFloat PromptExamples Hybrid Spec Spec4.

Lemma count_if_nonneg {A : Type} (p : A -> bool) (l : list A) :
  0 <= count_if p l.
Proof. unfold count_if. lia. Qed.

Lemma partial_count_nonneg (query_words question_words : list string) :
  0 <= partial_count query_words question_words.
Proof.
  unfold partial_count.
  induction query_words as [|w query_words IH]; cbn [map fold_right]; [lia|].
  pose proof (count_if_nonneg
                (fun qw2 => contains w qw2 || contains qw2 w) question_words).
  lia.
Qed.

Lemma similarity_not_negative (query_words : list string) (question : string) :
  not_negative (similarity query_words question) = true.
Proof.
  unfold similarity. cbv zeta.
  assert (Hsize : forall l : list string, 0 <= size l)
    by (intros l; unfold size; lia).
  assert (Hq : 0 < Z.max (size query_words) 1) by lia.
  apply fadd_not_negative; [apply fadd_not_negative|];
    apply fmul_not_negative.
  - destruct (union query_words (set_of (split_ws (lower question))))
      as [|w u] eqn:E; [reflexivity|].
    apply int_truediv_not_negative; [apply Hsize|].
    unfold size. cbn [List.length]. lia.
  - apply int_truediv_not_negative; [apply Hsize | exact Hq].
  - apply fmin_not_negative; [|reflexivity].
    apply int_truediv_not_negative; [apply partial_count_nonneg | exact Hq].
Qed.

Lemma context_hit_score (query_words : list string) (ie : Z * example) :
  PyFloat.is_nan (get_score (context_hit query_words ie)) = false
  /\ SFleb f0_0 (get_score (context_hit query_words ie)) = true
  /\ SFleb (get_score (context_hit query_words ie)) f1_0 = true.
Proof.
  destruct ie as [idx ex]. unfold context_hit. cbn [get_score score].
  set (s := fmin (similarity query_words (question ex)) f1_0).
  assert (Hs : not_negative s = true).
  { apply fmin_not_negative; [apply similarity_not_negative | reflexivity]. }
  destruct (not_negative_is_number s Hs) as [Hn H0].
  split; [exact Hn|]. split; [exact H0|].
  apply not_flt_leb; [reflexivity | exact Hn | apply fmin_not_above].
Qed.

Lemma search_context_scores :
  forall (cache : list example) (query : string) (top_k : Z),
    Forall (fun h => PyFloat.is_nan (get_score h) = false
                     /\ SFleb f0_0 (get_score h) = true
                     /\ SFleb (get_score h) f1_0 = true)
           (_search_context cache query top_k)
    /\ non_increasing (_search_context cache query top_k).
Proof.
  intros cache query top_k. unfold _search_context. cbv zeta.
  set (query_words := set_of (split_ws (lower query))).
  set (results := map (context_hit query_words)
                      (enumerate 0 (get_examples cache (top_k * 2)
                                      (Some query)))).
  assert (Hall : Forall (fun h => PyFloat.is_nan (get_score h) = false
                                  /\ SFleb f0_0 (get_score h) = true
                                  /\ SFleb (get_score h) f1_0 = true)
                        results).
  { subst results. rewrite Forall_forall. intros h Hin.
    apply in_map_iff in Hin as (ie & <- & _). apply context_hit_score. }
  split.
  - now apply slice_to_Forall, sort_desc_Forall.
  - apply slice_to_Sorted, sort_desc_sorted.
    unfold nan_free. eapply Forall_impl; [|exact Hall].
    intros h H. apply H.
Qed.


(** X24: every score the search of the cache gives is a number between
    0.0 and 1.0, never a NaN, and the results come in the order of
    their scores, the best first. *)
Theorem X24_cached_scores_are_numbers_best_first :
  forall (cache : list example) (query : string) (top_k : Z),
    Forall (fun h => PyFloat.is_nan (get_score h) = false
                     /\ SFleb f0_0 (get_score h) = true
                     /\ SFleb (get_score h) f1_0 = true)
           (_search_context cache query top_k)
    /\ non_increasing (_search_context cache query top_k).
Proof. exact search_context_scores. Qed.

Lemma SFleb_trans (x y z : float) :
  SFleb x y = true -> SFleb y z = true -> SFleb x z = true.
Proof.
  unfold SFleb, SFcompare.
  destruct x as [[|]|[|]| |[|] mx ex]; destruct y as [[|]|[|]| |[|] my ey];
    try discriminate; destruct z as [[|]|[|]| |[|] mz ez];
    try discriminate; try reflexivity;
    change (Pos.compare_cont Eq mx my) with (Pos.compare mx my);
    change (Pos.compare_cont Eq my mz) with (Pos.compare my mz);
    change (Pos.compare_cont Eq mx mz) with (Pos.compare mx mz);
    destruct (Z.compare_spec ex ey); try discriminate;
    destruct (Z.compare_spec ey ez); try discriminate;
    destruct (Z.compare_spec ex ez); try lia; try reflexivity;
    destruct (Pos.compare_spec mx my); try discriminate;
    destruct (Pos.compare_spec my mz); try discriminate;
    destruct (Pos.compare_spec mx mz); try lia; reflexivity.
Qed.

Lemma best_first_bound (c : float) (top : hit) (rest : list hit) :
  non_increasing (top :: rest) ->
  SFleb (get_score top) c = true ->
  Forall (fun h => SFleb (get_score h) c = true) (top :: rest).
Proof.
  intros Hs Htop. unfold non_increasing in Hs.
  apply Sorted_StronglySorted in Hs.
  - apply StronglySorted_inv in Hs as [_ Hall].
    constructor; [exact Htop|].
    eapply Forall_impl; [|exact Hall].
    intros h Hh. cbv beta in Hh. now apply (SFleb_trans _ (get_score top)).
  - intros a b c0 Hab Hbc. cbv beta in *. now apply (SFleb_trans _ (get_score b)).
Qed.

Lemma sql_call_without_good_match
    (route_query : string -> string) (cache : list example)
    (mysql_client : bool) (_search_sas_sql : string -> Z -> list hit)
    (pdf_loaded : bool) (pdf_search : string -> Z -> list hit)
    (evaluate_result_quality :
       string -> list hit -> list hit -> list hit -> evaluation)
    (loaded : bool) (query : string) (top_k : Z)
    (results : list hit) (calls : list call) :
  search route_query cache mysql_client _search_sas_sql pdf_loaded pdf_search
         evaluate_result_quality loaded query top_k = Ok (results, calls) ->
  In (SearchSasSql query top_k) calls ->
  match _search_context cache query 3 with
  | top :: _ => flt f0_5 (get_score top)
  | [] => false
  end = false.
Proof.
  unfold Hybrid.search, sas_step.
  generalize (match _search_context cache query 3 with
              | top :: _ => flt f0_5 (get_score top)
              | [] => false
              end) as g.
  generalize (_search_context cache query 3) as context_results.
  generalize (mem (route_query query) ["sas"; "both"; "all"; "sas+context"])
    as search_sas.
  generalize (mem (route_query query) ["pdf"; "both"; "all"; "pdf+context"])
    as search_pdf.
  intros search_pdf search_sas context_results g H Hin.
  destruct loaded; cbn [negb] in H; [|discriminate H].
  destruct g; [|reflexivity]. exfalso.
  destruct search_sas, mysql_client, search_pdf, pdf_loaded;
    cbn [andb] in H; cbv zeta in H;
    apply Ok_inj in H; apply (f_equal snd) in H; cbn [snd] in H;
    subst calls; cbn [app In] in Hin;
    repeat match goal with
           | H : _ \/ _ |- _ => destruct H
           | H : False |- _ => destruct H
           end;
    discriminate.
Qed.

(** X25: when a search goes to the SQL path, no example of the cache
    that the search looked at scores above 0.5 for the query. *)
Theorem X25_sql_only_without_a_good_cached_example :
  forall (route_query : string -> string) (cache : list example)
         (mysql_client : bool) (_search_sas_sql : string -> Z -> list hit)
         (pdf_loaded : bool) (pdf_search : string -> Z -> list hit)
         (evaluate_result_quality :
            string -> list hit -> list hit -> list hit -> evaluation)
         (loaded : bool) (query : string) (top_k : Z)
         (results : list hit) (calls : list call),
    search route_query cache mysql_client _search_sas_sql pdf_loaded pdf_search
           evaluate_result_quality loaded query top_k = Ok (results, calls) ->
    In (SearchSasSql query top_k) calls ->
    Forall (fun h => SFleb (get_score h) f0_5 = true)
           (_search_context cache query 3).
Proof.
  intros route_query cache mysql_client sas_sql pdf_loaded pdf_search ev
         loaded query top_k results calls H Hin.
  pose proof (sql_call_without_good_match _ _ _ _ _ _ _ _ _ _ _ _ H Hin) as Hg.
  destruct (search_context_scores cache query 3) as [Hnum Hsorted].
  destruct (_search_context cache query 3) as [|top rest]; [constructor|].
  apply best_first_bound; [exact Hsorted|].
  apply Forall_inv in Hnum. destruct Hnum as (Hn & _ & _).
  apply not_flt_leb; [reflexivity | exact Hn | exact Hg].
Qed.

Lemma X25_witness :
  let cache := [mk_example "Which adverse events were serious?" "Two." "qa"] in
  let search :=
    search (fun _ => "sas") cache true (fun _ _ => []) false (fun _ _ => [])
      (fun _ _ _ _ => mk_evaluation None None None None) in
  let calls := [RouteQuery "how many patients";
                SearchContext "how many patients";
                SearchSasSql "how many patients" 5;
                EvaluateQuality "how many patients"] in
  (search true "how many patients" 5 = Ok ([], calls)
   /\ In (SearchSasSql "how many patients" 5) calls)
  /\ Forall (fun h => SFleb (get_score h) f0_5 = true)
            (_search_context cache "how many patients" 3).
Proof.
  intros cache search calls.
  assert (H1 : search true "how many patients" 5 = Ok ([], calls))
    by (vm_compute; reflexivity).
  assert (H2 : In (SearchSasSql "how many patients" 5) calls)
    by (right; right; left; reflexivity).
  split; [split; assumption|].
  exact (X25_sql_only_without_a_good_cached_example _ _ _ _ _ _ _ _ _ _ _ _
           H1 H2).
Defined.

End ContextScores.


(** ** Where the two copies of the conversion agree *)

Section CopiesFacts.
Import PyStr PromptExamples.

Lemma partially_is_kept (s : string) :
  startswith "partially computable" s = true ->
  startswith "not computable" s = false
  /\ String.eqb s "computed in file." = false.
Proof.
  destruct s as [|c s]; [discriminate|]. cbn [startswith].
  destruct (Ascii.eqb "p" c) eqn:E; [|discriminate].
  apply Ascii.eqb_eq in E. subst c. intros _. split; reflexivity.
Qed.

(** X26: the conversion the cache applies at run time and the one of
    the cleaning script give the same result, or raise the same
    exception, for every answer that is not a mapping, for the empty
    mapping, and for a co-occurrence table whose [n] is not a positive
    number. *)
Theorem X26_the_copies_agree_outside_positive_tables :
  forall (repr : json -> string)
         (runtime_other script_other :
            list (string * json) -> result (option string))
         (question : string) (answer : json),
    match answer with
    | JDict d =>
        d = []
        \/ (has_key "n" d && has_key "a_responder_and_immune" d = true
            /\ gt_zero (get "n" (JInt 0) d) <> Ok true)
    | _ => True
    end ->
    _clean_answer repr runtime_other question answer
    = convert_structured_to_natural_language repr script_other question answer.
Proof.
  intros repr runtime_other script_other question answer H.
  destruct answer as [| | | |s| |d]; try reflexivity.
  - unfold _clean_answer, convert_structured_to_natural_language.
    destruct (startswith "not computable" (lower s)) eqn:En; [reflexivity|].
    destruct (startswith "partially computable" (lower s)) eqn:Ep;
      [|reflexivity].
    destruct (partially_is_kept _ Ep) as [_ ->]. reflexivity.
  - destruct H as [-> | [Hk Hn]]; [reflexivity|].
    unfold _clean_answer, convert_structured_to_natural_language.
    destruct d as [|kv d]; [reflexivity|].
    rewrite Hk. cbv zeta.
    destruct (gt_zero (get "n" (JInt 0) (kv :: d))) as [[|]|e];
      [congruence | reflexivity | reflexivity].
Qed.

Lemma X26_witness :
  let repr := fun _ : json => "" in
  let other := fun _ : list (string * json) => @Ok (option string) None in
  let table := JDict [("n", JInt 0); ("a_responder_and_immune", JInt 0);
                      ("odds_ratio", JFloat PyFloat.f1_2)] in
  _clean_answer repr other "Q" table = Ok None
  /\ convert_structured_to_natural_language repr other "Q" table = Ok None.
Proof.
  intros repr other table.
  assert (H : [("n", JInt 0); ("a_responder_and_immune", JInt 0);
               ("odds_ratio", JFloat PyFloat.f1_2)] = []
              \/ (has_key "n" [("n", JInt 0); ("a_responder_and_immune", JInt 0);
                               ("odds_ratio", JFloat PyFloat.f1_2)]
                  && has_key "a_responder_and_immune"
                       [("n", JInt 0); ("a_responder_and_immune", JInt 0);
                        ("odds_ratio", JFloat PyFloat.f1_2)] = true
                  /\ gt_zero (get "n" (JInt 0)
                                [("n", JInt 0); ("a_responder_and_immune", JInt 0);
                                 ("odds_ratio", JFloat PyFloat.f1_2)])
                     <> Ok true)).
  { right. split; [reflexivity | discriminate]. }
  split; [reflexivity|].
  rewrite <- (X26_the_copies_agree_outside_positive_tables repr other other
                "Q" table H).
  reflexivity.
Defined.

End CopiesFacts.


(** ** Quotients that are at least one *)

Section QuotientFacts.
Import PyFloat Spec5.

Lemma digits2_pos_size (p : positive) : digits2_pos p = Pos.size p.
Proof. induction p as [p IH|p IH|]; simpl; now rewrite ?IH. Qed.

Lemma Zdigits2_log2 (p : positive) : Zdigits2 (Zpos p) = Z.log2 (Zpos p) + 1.
Proof.
  unfold Zdigits2. rewrite digits2_pos_size.
  destruct p as [p|p|]; simpl; try reflexivity; lia.
Qed.

Lemma Zdigits2_bounds (m : Z) :
  0 < m -> 2 ^ (Zdigits2 m - 1) <= m < 2 ^ (Zdigits2 m).
Proof.
  intros Hm. destruct m as [|p|p]; try lia.
  rewrite Zdigits2_log2.
  replace (Z.log2 (Zpos p) + 1 - 1) with (Z.log2 (Zpos p)) by lia.
  replace (Z.log2 (Zpos p) + 1) with (Z.succ (Z.log2 (Zpos p))) by lia.
  apply Z.log2_spec. lia.
Qed.

Lemma Zdigits2_le (m : Z) (b : Z) :
  0 < m -> 0 <= b -> m < 2 ^ b -> Zdigits2 m <= b.
Proof.
  intros Hm Hb Hlt. destruct m as [|p|p]; try lia.
  rewrite Zdigits2_log2.
  assert (Z.log2 (Zpos p) < b) by (apply Z.log2_lt_pow2; lia). lia.
Qed.

Lemma Zdigits2_pos (m : Z) : 0 < m -> 0 < Zdigits2 m.
Proof. destruct m; simpl; lia. Qed.

Lemma fexp_normal (x : Z) : -1021 <= x -> fexp prec emax x = x - 53.
Proof. intros H. unfold fexp, emin, prec, emax. lia. Qed.

Lemma binary_round_aux_at_least_one (mx ex : Z) (lx : location) :
  ex <= 0 -> 2 ^ (- ex) <= mx ->
  at_least_one (binary_round_aux prec emax false mx ex lx).
Proof.
  intros Hex Hmx.
  assert (Hpos : 0 < mx).
  { assert (0 < 2 ^ (- ex)) by (apply Z.pow_pos_nonneg; lia). lia. }
  pose proof (Zdigits2_bounds mx Hpos) as [Hlo Hhi].
  pose proof (Zdigits2_pos mx Hpos) as Hd.
  set (d := Zdigits2 mx) in *.
  assert (Hk : - ex < d).
  { apply (Z.pow_lt_mono_r_iff 2); lia. }
  unfold binary_round_aux.
  pose proof (shr_fexp_m mx ex lx (Z.lt_le_incl _ _ Hpos)) as [Hm1 He1].
  fold d in Hm1, He1.
  rewrite fexp_normal in Hm1, He1 by lia.
  destruct (shr_fexp prec emax mx ex lx) as [mrs' e'].
  simpl fst in Hm1; simpl snd in He1.
  replace (d + ex - 53 - ex) with (d - 53) in Hm1, He1 by lia.
  set (m1' := shr_m mrs') in *.
  assert (Inv : 1 <= m1' < 2 ^ 53 /\ -52 <= e' /\ (e' = -52 -> 2 ^ 52 <= m1')).
  { destruct (Z_le_gt_dec d 53) as [Hd53|Hd53].
    - replace (Z.max (d - 53) 0) with 0 in Hm1, He1 by lia.
      rewrite Z.pow_0_r, Z.div_1_r in Hm1.
      assert (2 ^ d <= 2 ^ 53) by (apply Z.pow_le_mono_r; lia).
      repeat split; try lia.
      intros He. replace (- ex) with 52 in Hmx by lia. lia.
    - replace (Z.max (d - 53) 0) with (d - 53) in Hm1, He1 by lia.
      assert (Hp : 0 < 2 ^ (d - 53)) by (apply Z.pow_pos_nonneg; lia).
      assert (Hlow : 2 ^ 52 <= m1').
      { rewrite Hm1. apply Z.div_le_lower_bound; [exact Hp|].
        rewrite <- Z.pow_add_r by lia.
        replace (d - 53 + 52) with (d - 1) by lia. exact Hlo. }
      assert (Hup : m1' < 2 ^ 53).
      { rewrite Hm1. apply Z.div_lt_upper_bound; [exact Hp|].
        rewrite <- Z.pow_add_r by lia.
        replace (d - 53 + 53) with d by lia. exact Hhi. }
      assert (1 <= 2 ^ 52) by (change (1 <= 4503599627370496); lia).
      repeat split; lia. }
  destruct Inv as ((Hm1lo & Hm1hi) & He' & Hnorm).
  pose proof (round_nearest_even_bounds m1' (loc_of_shr_record mrs')) as Hr.
  set (m1 := round_nearest_even m1' (loc_of_shr_record mrs')) in *.
  assert (Hm1pos : 0 <= m1) by lia.
  pose proof (shr_fexp_m m1 e' loc_Exact Hm1pos) as [Hm2 He2].
  destruct (shr_fexp prec emax m1 e' loc_Exact) as [mrs'' e''].
  simpl fst in Hm2; simpl snd in He2.
  destruct (Z_lt_ge_dec m1 (2 ^ 53)) as [Hlt|Hge].
  - assert (Hd1 : Zdigits2 m1 <= 53) by (apply Zdigits2_le; lia).
    assert (Hd1' : 0 < Zdigits2 m1) by (apply Zdigits2_pos; lia).
    rewrite fexp_normal in Hm2, He2 by lia.
    replace (Z.max (Zdigits2 m1 + e' - 53 - e') 0) with 0 in Hm2, He2 by lia.
    rewrite Z.pow_0_r, Z.div_1_r in Hm2.
    rewrite Hm2. destruct m1 as [|p|p]; try lia.
    destruct (Z.leb _ _); [right | left; reflexivity].
    exists p, e''. split; [reflexivity|].
    destruct (Z.eq_dec e' (-52)) as [E|E]; [right | left; lia].
    split; [lia|]. specialize (Hnorm E). lia.
  - assert (Hm1eq : m1 = 2 ^ 53) by lia.
    rewrite Hm1eq in Hm2, He2.
    change (Zdigits2 (2 ^ 53)) with 54 in Hm2, He2.
    rewrite fexp_normal in Hm2, He2 by lia.
    replace (Z.max (54 + e' - 53 - e') 0) with 1 in Hm2, He2 by lia.
    change (2 ^ 53 / 2 ^ 1) with (2 ^ 52) in Hm2.
    rewrite Hm2. change (2 ^ 52) with (Zpos 4503599627370496).
    destruct (Z.leb _ _); [right | left; reflexivity].
    exists 4503599627370496%positive, e''. split; [reflexivity|]. left. lia.
Qed.

Lemma flt_one_finite (m : positive) (e : Z) :
  flt f1_0 (S754_finite false m e)
  = match -52 ?= e with
    | Lt => true
    | Eq => match (4503599627370496 ?= m)%positive with Lt => true | _ => false end
    | Gt => false
    end.
Proof.
  unfold flt, SFltb, f1_0, SFcompare.
  destruct (-52 ?= e); reflexivity.
Qed.

Lemma fmin_at_least_one (x : float) : at_least_one x -> fmin x f1_0 = f1_0.
Proof.
  intros [-> | (m & e & -> & H)]; [reflexivity|].
  unfold fmin. rewrite flt_one_finite.
  destruct (Z.compare_spec (-52) e) as [E|E|E].
  - subst e.
    assert (Hm : (4503599627370496 <= m)%positive).
    { destruct H as [H | [_ H]]; [exfalso; lia|].
      change (2 ^ 52) with (Zpos 4503599627370496) in H.
      apply Pos2Z.pos_le_pos. exact H. }
    destruct (Pos.compare_spec 4503599627370496 m) as [E|E|E].
    + now subst m.
    + reflexivity.
    + exfalso. apply Pos.lt_nle in E. contradiction.
  - reflexivity.
  - exfalso. destruct H as [H | [H _]]; lia.
Qed.

(** The quotient of two positive integers, the dividend not below the
    divisor, is at least one. *)
Lemma int_truediv_at_least_one (a b : Z) :
  0 < b -> b <= a -> at_least_one (int_truediv a b).
Proof.
  intros Hb Hab.
  destruct a as [|p|p]; try lia. destruct b as [|n|n]; try lia.
  unfold int_truediv, fdiv, exact_int, SFdiv, SFdiv_core_binary.
  set (e' := Z.min (fexp prec emax (Zdigits2 (Zpos p) + 0 - (Zdigits2 (Zpos n) + 0)))
                   (0 - 0)).
  assert (He' : e' <= 0) by (subst e'; lia).
  set (s := 0 - 0 - e').
  assert (Hse : - e' = s) by (subst s; lia).
  assert (Hs : 0 <= s) by lia.
  clearbody s e'.
  set (m' := match s with
             | 0 => Zpos p
             | Zpos _ => Z.shiftl (Zpos p) s
             | Zneg _ => 0
             end).
  assert (Hm' : m' = Zpos p * 2 ^ s).
  { subst m'. destruct s as [|q|q].
    - rewrite Z.pow_0_r. lia.
    - now rewrite Z.shiftl_mul_pow2 by lia.
    - lia. }
  pose proof (Z_div_mod m' (Zpos n) (eq_refl : Zpos n > 0)) as Hdm.
  destruct (Z.div_eucl m' (Zpos n)) as [q r] eqn:Edm.
  simpl xorb.
  apply binary_round_aux_at_least_one; [exact He'|].
  assert (Hq : q = m' / Zpos n).
  { unfold Z.div. now rewrite Edm. }
  rewrite Hq, Hm', Hse.
  apply Z.div_le_lower_bound; [lia|].
  assert (0 < 2 ^ s) by (apply Z.pow_pos_nonneg; lia).
  nia.
Qed.

End QuotientFacts.

(** ** The score of a question identical to the query *)

Section IdenticalQuestion.
Import PyStr PyFloat PromptExamples Hybrid Spec Spec5.

Lemma int_truediv_same (n : Z) : 0 < n -> int_truediv n n = f1_0.
Proof.
  intros Hn. destruct n as [|n|n]; try lia.
  unfold int_truediv, fdiv, exact_int, SFdiv.
  assert (H : SFdiv_core_binary prec emax (Zpos n) 0 (Zpos n) 0
              = (2 ^ 53, -53, loc_Exact)).
  { unfold SFdiv_core_binary.
    replace (Zdigits2 (Zpos n) + 0 - (Zdigits2 (Zpos n) + 0)) with 0 by lia.
    change (Z.min (fexp prec emax 0) (0 - 0)) with (-53).
    change (0 - 0 - -53) with 53.
    cbv beta iota zeta.
    rewrite Z.shiftl_mul_pow2 by lia.
    assert (Hd : Z.div_eucl (Zpos n * 2 ^ 53) (Zpos n) = (2 ^ 53, 0)).
    { pose proof (Z.div_mul (2 ^ 53) (Zpos n)) as Hq.
      pose proof (Z.mod_mul (2 ^ 53) (Zpos n)) as Hr.
      rewrite (Z.mul_comm (Zpos n)).
      unfold Z.div, Z.modulo in Hq, Hr.
      destruct (Z.div_eucl (2 ^ 53 * Zpos n) (Zpos n)) as [q r].
      cbn [fst snd] in Hq, Hr. rewrite Hq, Hr by lia. reflexivity. }
    rewrite Hd. unfold new_location.
    destruct (Z.even (Zpos n)); reflexivity. }
  rewrite H. vm_compute. reflexivity.
Qed.

Lemma mem_In (x : string) (l : list string) : In x l -> mem x l = true.
Proof.
  intros H. unfold mem. apply existsb_exists. exists x.
  split; [exact H | apply String.eqb_refl].
Qed.

Lemma filter_all {A : Type} (p : A -> bool) (l : list A) :
  (forall x, In x l -> p x = true) -> filter p l = l.
Proof.
  induction l as [|x l IH]; intros H; [reflexivity|].
  cbn [filter]. rewrite (H x (or_introl eq_refl)). f_equal.
  apply IH. intros y Hy. apply H. now right.
Qed.

Lemma filter_none {A : Type} (p : A -> bool) (l : list A) :
  (forall x, In x l -> p x = false) -> filter p l = [].
Proof.
  induction l as [|x l IH]; intros H; [reflexivity|].
  cbn [filter]. rewrite (H x (or_introl eq_refl)).
  apply IH. intros y Hy. apply H. now right.
Qed.

Lemma inter_self (a : list string) : inter a a = a.
Proof. unfold inter. apply filter_all. intros x. apply mem_In. Qed.

Lemma union_self (a : list string) : union a a = a.
Proof.
  unfold union. rewrite filter_none; [apply app_nil_r|].
  intros x Hx. now rewrite (mem_In x a Hx).
Qed.

Lemma contains_self (w : string) : contains w w = true.
Proof.
  apply contains_spec. exists "", "". cbn [append].
  now rewrite append_empty_r.
Qed.

Lemma count_if_positive {A : Type} (p : A -> bool) (l : list A) (x : A) :
  In x l -> p x = true -> 1 <= count_if p l.
Proof.
  intros Hin Hp. unfold count_if.
  assert (H : In x (filter p l)) by (apply filter_In; now split).
  destruct (filter p l); [contradiction | cbn [List.length]; lia].
Qed.

Lemma partial_count_covers (query_words question_words : list string) :
  incl query_words question_words ->
  size query_words <= partial_count query_words question_words.
Proof.
  unfold partial_count, size.
  induction query_words as [|w ws IH]; intros H; cbn [map fold_right List.length].
  - lia.
  - assert (Hw : In w question_words) by (apply H; now left).
    pose proof (count_if_positive
                  (fun qw2 => contains w qw2 || contains qw2 w)
                  question_words w Hw) as H1.
    cbv beta in H1. rewrite contains_self in H1. specialize (H1 eq_refl).
    assert (IH' := IH (fun x Hx => H x (or_intror Hx))).
    lia.
Qed.

Lemma set_of_nonempty (l : list string) : l <> [] -> set_of l <> [].
Proof.
  induction l as [|x l IH]; [congruence|]. intros _. cbn [set_of].
  destruct (mem x l) eqn:E; [|discriminate].
  apply IH. intros ->. discriminate E.
Qed.

Lemma similarity_identical (query : string) :
  split_ws (lower query) <> [] ->
  similarity (set_of (split_ws (lower query))) query = nearly_one.
Proof.
  intros Hne. unfold similarity. cbv zeta.
  set (words := set_of (split_ws (lower query))).
  assert (Hw : words <> []) by (apply set_of_nonempty, Hne).
  assert (Hn : 0 < size words).
  { unfold size. destruct words; [congruence | cbn [List.length]; lia]. }
  rewrite inter_self, union_self.
  replace (Z.max (size words) 1) with (size words) by lia.
  rewrite (int_truediv_same _ Hn).
  rewrite (fmin_at_least_one
             (int_truediv (partial_count words words) (size words))).
  - destruct words; [congruence|]. vm_compute. reflexivity.
  - apply int_truediv_at_least_one; [exact Hn|].
    apply partial_count_covers. intros x Hx. exact Hx.
Qed.

Lemma flt_leb_trans (x y z : float) :
  flt x y = true -> SFleb y z = true -> flt x z = true.
Proof.
  unfold flt, SFltb, SFleb, SFcompare.
  destruct x as [[|]|[|]| |[|] mx ex]; destruct y as [[|]|[|]| |[|] my ey];
    try discriminate; destruct z as [[|]|[|]| |[|] mz ez];
    try discriminate; try reflexivity;
    change (Pos.compare_cont Eq mx my) with (Pos.compare mx my);
    change (Pos.compare_cont Eq my mz) with (Pos.compare my mz);
    change (Pos.compare_cont Eq mx mz) with (Pos.compare mx mz);
    destruct (Z.compare_spec ex ey); try discriminate;
    destruct (Z.compare_spec ey ez); try discriminate;
    destruct (Z.compare_spec ex ez); try lia; try reflexivity;
    destruct (Pos.compare_spec mx my); try discriminate;
    destruct (Pos.compare_spec my mz); try discriminate;
    destruct (Pos.compare_spec mx mz); try lia; reflexivity.
Qed.

Lemma enumerate_has {A : Type} (l : list A) (i : Z) (x : A) :
  In x l -> exists j, In (j, x) (enumerate i l).
Proof.
  revert i. induction l as [|y l IH]; intros i H; [contradiction|].
  destruct H as [-> | H].
  - exists i. now left.
  - destruct (IH (i + 1) H) as [j Hj]. exists j. now right.
Qed.

Lemma best_first_head (top h : hit) (rest : list hit) :
  non_increasing (top :: rest) -> In h (top :: rest) ->
  PyFloat.is_nan (get_score top) = false ->
  SFleb (get_score h) (get_score top) = true.
Proof.
  intros Hs Hin Hn. destruct Hin as [<- | Hin].
  - unfold SFleb. destruct (SFcompare_defined _ _ Hn Hn) as [c Hc].
    pose proof (SFcompare_antisym (get_score top) (get_score top)) as Ha.
    rewrite Hc in Ha |- *. injection Ha as Ha. now destruct c.
  - unfold non_increasing in Hs. apply Sorted_StronglySorted in Hs.
    + apply StronglySorted_inv in Hs as [_ Hall].
      rewrite Forall_forall in Hall. now apply Hall.
    + intros a b c Hab Hbc. cbv beta in *.
      now apply (SFleb_trans _ (get_score b)).
Qed.

Lemma identical_hit_score (query : string) (idx : Z) (ex : example) :
  split_ws (lower query) <> [] -> question ex = query ->
  get_score (context_hit (set_of (split_ws (lower query))) (idx, ex))
  = nearly_one.
Proof.
  intros Hne Hq. unfold context_hit. cbn [get_score score].
  rewrite Hq, (similarity_identical _ Hne). vm_compute. reflexivity.
Qed.

Lemma identical_is_a_good_match (cache : list example) (query : string)
    (ex : example) :
  split_ws (lower query) <> [] -> question ex = query ->
  In ex (get_examples cache 6 (Some query)) ->
  match _search_context cache query 3 with
  | top :: _ => flt f0_5 (get_score top)
  | [] => false
  end = true.
Proof.
  intros Hne Hq Hin. unfold _search_context. cbv zeta.
  change (3 * 2) with 6.
  set (words := set_of (split_ws (lower query))).
  set (results := map (context_hit words)
                      (enumerate 0 (get_examples cache 6 (Some query)))).
  destruct (enumerate_has _ 0 ex Hin) as [j Hj].
  assert (Hh : In (context_hit words (j, ex)) results).
  { subst results. apply in_map_iff. now exists (j, ex). }
  assert (Hnan : nan_free results).
  { subst results. unfold nan_free. rewrite Forall_forall. intros h Hh'.
    apply in_map_iff in Hh' as (ie & <- & _). apply context_hit_score. }
  pose proof (sort_desc_sorted results Hnan) as Hs.
  apply (sort_desc_In flt get_score) in Hh.
  apply (sort_desc_Forall flt get_score) in Hnan.
  destruct (sort_desc flt get_score results) as [|top rest];
    [contradiction|].
  change (slice_to 3 (top :: rest)) with (top :: firstn 2 rest).
  apply (flt_leb_trans _ (get_score (context_hit words (j, ex)))).
  - subst words. rewrite (identical_hit_score _ _ _ Hne Hq). reflexivity.
  - apply (best_first_head top _ rest); [exact Hs | exact Hh |].
    now apply Forall_inv in Hnan.
Qed.

Lemma good_match_skips_sql
    (route_query : string -> string) (cache : list example)
    (mysql_client : bool) (_search_sas_sql : string -> Z -> list hit)
    (pdf_loaded : bool) (pdf_search : string -> Z -> list hit)
    (evaluate_result_quality :
       string -> list hit -> list hit -> list hit -> evaluation)
    (loaded : bool) (query : string) (top_k : Z)
    (results : list hit) (calls : list call) :
  search route_query cache mysql_client _search_sas_sql pdf_loaded pdf_search
         evaluate_result_quality loaded query top_k = Ok (results, calls) ->
  match _search_context cache query 3 with
  | top :: _ => flt f0_5 (get_score top)
  | [] => false
  end = true ->
  forall (q : string) (k : Z), ~ In (SearchSasSql q k) calls.
Proof.
  unfold Hybrid.search, sas_step.
  generalize (match _search_context cache query 3 with
              | top :: _ => flt f0_5 (get_score top)
              | [] => false
              end) as g.
  generalize (_search_context cache query 3) as context_results.
  generalize (mem (route_query query) ["sas"; "both"; "all"; "sas+context"])
    as search_sas.
  generalize (mem (route_query query) ["pdf"; "both"; "all"; "pdf+context"])
    as search_pdf.
  intros search_pdf search_sas context_results g H Hg q k Hin.
  subst g.
  destruct loaded; cbn [negb] in H; [|discriminate H].
  destruct search_sas, search_pdf, pdf_loaded;
    cbn [andb] in H; cbv zeta in H;
    apply Ok_inj in H; apply (f_equal snd) in H; cbn [snd] in H;
    subst calls; cbn [app In] in Hin;
    repeat match goal with
           | H : _ \/ _ |- _ => destruct H
           | H : False |- _ => destruct H
           end;
    discriminate.
Qed.

(** C2, as the specification states it, fails twice.  The score of a
    cached question identical to the query is 0.9999999999999999, not
    1.0.  And the example need not be returned at all: only the first
    six examples by word overlap are scored, so with six other
    questions that hold the word of the query before it in the cache,
    the identical question is left out, the best score is 0.475 and
    the SQL path is taken. *)
Lemma C2_counterexample :
  (map get_score
     (_search_context [mk_example "how many patients" "Twelve." "qa"]
        "how many patients" 3)
   = [nearly_one]
   /\ nearly_one <> f1_0
   /\ flt nearly_one f1_0 = true)
  /\ (let cache :=
        [mk_example "age of subject 1" "A1" "qa";
         mk_example "age of subject 2" "A2" "qa";
         mk_example "age of subject 3" "A3" "qa";
         mk_example "age of subject 4" "A4" "qa";
         mk_example "age of subject 5" "A5" "qa";
         mk_example "age of subject 6" "A6" "qa";
         mk_example "age" "Sixty." "qa"] in
      In (mk_example "age" "Sixty." "qa") cache
      /\ map (fun h => (text h, get_score h)) (_search_context cache "age" 3)
         = [("A1", S754_finite false 8556839292003942 (-54));
            ("A2", S754_finite false 8556839292003942 (-54));
            ("A3", S754_finite false 8556839292003942 (-54))]
      /\ search (fun _ => "sas") cache true (fun _ _ => []) false
           (fun _ _ => [])
           (fun _ _ _ _ => mk_evaluation None None None None) true "age" 5
         = Ok ([], [RouteQuery "age"; SearchContext "age";
                    SearchSasSql "age" 5; EvaluateQuality "age"])).
Proof.
  split; [split; [vm_compute; reflexivity | split; [discriminate | reflexivity]]|].
  cbv zeta. split; [do 6 right; left; reflexivity|].
  split; vm_compute; reflexivity.
Qed.

(** C2, amended: [search] makes no SQL call when the best result of the
    cache scores above 0.5.  A cached example whose question is the
    query itself, the query holding at least one word, gets the score
    0.9999999999999999 whenever it is among the six examples that are
    scored; the best result of the cache then scores above 0.5 and no
    SQL call is made. *)
Theorem C2_identical_question_short_circuits_sql :
  forall (route_query : string -> string) (cache : list example)
         (mysql_client : bool) (_search_sas_sql : string -> Z -> list hit)
         (pdf_loaded : bool) (pdf_search : string -> Z -> list hit)
         (evaluate_result_quality :
            string -> list hit -> list hit -> list hit -> evaluation)
         (query : string) (top_k : Z)
         (results : list hit) (calls : list call),
    search route_query cache mysql_client _search_sas_sql pdf_loaded pdf_search
           evaluate_result_quality true query top_k = Ok (results, calls) ->
    (match _search_context cache query 3 with
     | top :: _ => flt f0_5 (get_score top)
     | [] => false
     end = true ->
     forall (q : string) (k : Z), ~ In (SearchSasSql q k) calls)
    /\ (forall ex : example,
          split_ws (lower query) <> [] ->
          question ex = query ->
          In ex (get_examples cache 6 (Some query)) ->
          (forall idx : Z,
              get_score (context_hit (set_of (split_ws (lower query)))
                                     (idx, ex))
              = nearly_one)
          /\ flt f0_5 nearly_one = true
          /\ match _search_context cache query 3 with
             | top :: _ => flt f0_5 (get_score top)
             | [] => false
             end = true
          /\ forall (q : string) (k : Z), ~ In (SearchSasSql q k) calls).
Proof.
  intros route_query cache mysql_client sas_sql pdf_loaded pdf_search ev
         query top_k results calls H.
  split.
  - intros Hg. exact (good_match_skips_sql _ _ _ _ _ _ _ _ _ _ _ _ H Hg).
  - intros ex Hne Hq Hin.
    pose proof (identical_is_a_good_match cache query ex Hne Hq Hin) as Hg.
    split; [intros idx; now apply identical_hit_score|].
    split; [reflexivity|]. split; [exact Hg|].
    exact (good_match_skips_sql _ _ _ _ _ _ _ _ _ _ _ _ H Hg).
Qed.

Lemma C2_witness :
  let cache := [mk_example "how many patients" "Twelve." "qa"] in
  let search :=
    search (fun _ => "sas") cache true (fun _ _ => []) false (fun _ _ => [])
      (fun _ _ _ _ => mk_evaluation None None None None) in
  let calls := [RouteQuery "how many patients";
                SearchContext "how many patients";
                EvaluateQuality "how many patients"] in
  (search true "how many patients" 5 = Ok ([], calls)
   /\ split_ws (lower "how many patients") <> []
   /\ In (mk_example "how many patients" "Twelve." "qa")
         (get_examples cache 6 (Some "how many patients")))
  /\ match _search_context cache "how many patients" 3 with
     | top :: _ => flt f0_5 (get_score top)
     | [] => false
     end = true
  /\ forall (q : string) (k : Z), ~ In (SearchSasSql q k) calls.
Proof.
  intros cache search calls.
  assert (H1 : search true "how many patients" 5 = Ok ([], calls))
    by (vm_compute; reflexivity).
  assert (H2 : split_ws (lower "how many patients") <> [])
    by (vm_compute; discriminate).
  assert (H3 : In (mk_example "how many patients" "Twelve." "qa")
                  (get_examples cache 6 (Some "how many patients")))
    by (left; reflexivity).
  split; [repeat split; assumption|].
  exact (proj2 (proj2
           (proj2 (C2_identical_question_short_circuits_sql _ _ _ _ _ _ _ _ _
                     _ _ H1)
              (mk_example "how many patients" "Twelve." "qa") H2 eq_refl H3))).
Defined.

End IdenticalQuestion.

